(** * AZFP raw-file parser (echopype/convert/parse_azfp.py)

    A shallow embedding of [ParseAZFP]: the binary header decoder
    ([_split_header]), the sample block decoder ([_add_counts]), the
    calibration transforms, the read loop of [parse_raw], the uniqueness
    reducer ([_check_uniqueness]) and the timestamp assembler
    ([_get_ping_time]), followed by the properties proved about them.

    Python ints are [Z]; Python floats and numpy float64 are the binary64
    numbers of [PrimFloat]; the byte stream is a [list Byte.byte]; the
    dictionary [unpacked_data] is a [gmap string entry]; methods that read
    the stream, mutate [self] or raise are computations in the monad [M]. *)

From Stdlib Require Import ZArith Floats Uint63 List Ascii String DecimalString Lia.
From stdpp Require Import gmap strings sorting.
Import ListNotations.

#[local] Set Warnings "-inexact-float".

Local Open Scope string_scope.
Local Open Scope Z_scope.

(** ** Exceptions *)

Inductive exn : Type :=
  | StructError        (* struct.error: buffer size does not match the format *)
  | IndexError
  | ValueError (msg : string)
  | ZeroDivisionError
  | OverflowError
  | AttributeError
  | TypeError.

(** ** Bytes and [struct.unpack] *)

Definition byte_val (b : Byte.byte) : Z := Z.of_N (Byte.to_N b).

(** Big-endian unsigned integer held by a run of bytes. *)
Definition be_uint (bs : list Byte.byte) : Z :=
  fold_left (fun acc b => acc * 256 + byte_val b) bs 0.

(** Width in bytes of the format characters the parser uses. *)
Definition code_size (c : ascii) : option nat :=
  match c with
  | "H"%char => Some 2%nat
  | "I"%char => Some 4%nat
  | "B"%char => Some 1%nat
  | _ => None
  end.

Fixpoint calcsize_codes (cs : list ascii) : option nat :=
  match cs with
  | [] => Some 0%nat
  | c :: cs' =>
      match code_size c, calcsize_codes cs' with
      | Some n, Some m => Some (n + m)%nat
      | _, _ => None
      end
  end.

(** The codes of a format string that starts with the big-endian mark. *)
Definition fmt_codes (fmt : string) : option (list ascii) :=
  match fmt with
  | String ">"%char rest => Some (list_ascii_of_string rest)
  | _ => None
  end.

Definition calcsize (fmt : string) : option nat :=
  match fmt_codes fmt with
  | Some cs => calcsize_codes cs
  | None => None
  end.

Fixpoint unpack_codes (cs : list ascii) (buf : list Byte.byte) : list Z :=
  match cs with
  | [] => []
  | c :: cs' =>
      match code_size c with
      | Some n => be_uint (firstn n buf) :: unpack_codes cs' (skipn n buf)
      | None => []
      end
  end.

(** [struct.unpack fmt buf]: the buffer must hold exactly [calcsize fmt]
    bytes, otherwise [struct.error] is raised. *)
Definition unpack (fmt : string) (buf : list Byte.byte) : exn + list Z :=
  match fmt_codes fmt with
  | Some cs =>
      match calcsize_codes cs with
      | Some n =>
          if Nat.eqb (List.length buf) n then inr (unpack_codes cs buf)
          else inl StructError
      | None => inl StructError
      end
  | None => inl StructError
  end.

(** [s * n] on strings. *)
Fixpoint str_repeat (s : string) (n : nat) : string :=
  match n with
  | O => EmptyString
  | S n' => (s ++ str_repeat s n')%string
  end.

(** ** Python sequences *)

(** [l[i]] for a non-negative or negative index. *)
Definition py_index {A} (l : list A) (i : Z) : exn + A :=
  let n := Z.of_nat (List.length l) in
  let j := if i <? 0 then i + n else i in
  if (j <? 0) || (n <=? j) then inl IndexError
  else match nth_error l (Z.to_nat j) with
       | Some x => inr x
       | None => inl IndexError
       end.

(** Bound of a slice brought into [0, len], as Python does. *)
Definition slice_bound (len i : Z) : Z :=
  let j := if i <? 0 then i + len else i in
  if j <? 0 then 0 else if len <? j then len else j.

(** [l[start:stop]]. *)
Definition py_slice {A} (l : list A) (start stop : Z) : list A :=
  let n := Z.of_nat (List.length l) in
  let a := slice_bound n start in
  let b := slice_bound n stop in
  firstn (Z.to_nat (b - a)) (skipn (Z.to_nat a) l).

(** ** Floats *)

(** Conversion of a Python int to a float (exact below 2^53; the ints of
    this parser are unsigned and stay below 2^48). *)
Definition Z2f (z : Z) : float :=
  if z <? 0 then PrimFloat.opp (of_uint63 (Uint63.of_Z (- z)))
  else of_uint63 (Uint63.of_Z z).

(** [int(x)] on a float: truncation towards zero. *)
Definition py_int (x : float) : exn + Z :=
  match Prim2SF x with
  | S754_zero _ => inr 0
  | S754_finite s m e =>
      (* |x| = m * 2^e; a negative [e] shifts to the right *)
      let mag := Z.shiftl (Z.pos m) e in
      inr (if s then - mag else mag)
  | S754_infinity _ => inl OverflowError
  | S754_nan => inl (ValueError "cannot convert float NaN to integer")
  end.

(** Python's [/] on floats raises on a zero divisor; numpy's does not. *)
Definition py_div (x y : float) : exn + float :=
  if PrimFloat.eqb y 0%float then inl ZeroDivisionError else inr (x / y)%float.

(** [np.isclose(x, 0)] with the default tolerances [rtol=1e-05],
    [atol=1e-08]: [isfinite(x) and abs(x - 0) <= atol + rtol * abs(0)]. *)
Definition np_isclose_0 (x : float) : bool :=
  negb (is_nan x) && negb (is_infinity x) &&
  PrimFloat.leb (abs (x - 0)) (0x1.5798ee2308c3ap-27 + 0x1.4f8b588e368f1p-17 * abs 0)%float.

Definition np_isinf (x : float) : bool := is_infinity x.

Definition np_pi : float := 0x1.921fb54442d18p+1%float.

(** The elementary functions come from the platform's libm through numpy;
    their rounding is not fixed by any standard, so the model takes them as
    a parameter. *)
Record libm : Type := Libm {
  m_log10 : float -> float;
  m_log : float -> float;
  m_cos : float -> float;
  m_pow : float -> float -> float
}.

(** ** The parser object *)

(** One channel's sample vector: the tuple of raw counts, or the float
    array of log-compressed averaged counts. *)
Inductive samples : Type :=
  | RawCounts (l : list Z)
  | AvgCounts (l : list float).

(** What a per-ping list of [unpacked_data] holds. *)
Inductive pyval : Type :=
  | PInt (z : Z)
  | PTuple (t : list Z)
  | PFloat (x : float)
  | PCounts (vv : list samples).

(** Integer arrays as [np.unique(...).squeeze()] leaves them: 0-d or 1-d. *)
Inductive ndarray : Type :=
  | Arr0 (z : Z)
  | Arr1 (l : list Z).

Inductive entry : Type :=
  | PyList (l : list pyval)
  | NdArr (a : ndarray).

Record datetime : Type := Datetime {
  dt_year : Z; dt_month : Z; dt_day : Z;
  dt_hour : Z; dt_minute : Z; dt_second : Z
}.

Inductive log_record : Type :=
  | LogError (msg : string)
  (* "parsing file {filename} with {xml_name}, time of first ping: {timestr}" *)
  | LogInfo (source_file xml_path : string) (timestamp : datetime).

(** [self.parameters], as [load_AZFP_xml] fills it. *)
Record parameters : Type := Parameters {
  num_freq : Z;
  ka : float; kb : float; kc : float;
  A : float; B : float; C : float;
  X_a : float; X_b : float; X_c : float; X_d : float;
  Y_a : float; Y_b : float; Y_c : float; Y_d : float;
  DS : list float
}.

(** The mutable part of [self], together with the open file. *)
Record parser : Type := Parser {
  raw : list Byte.byte;                 (* what is left of the open file *)
  unpacked_data : gmap string entry;    (* defaultdict(list) *)
  ping_time : list Z;                   (* datetime64[ms] *)
  log : list log_record
}.

Definition set_raw (r : list Byte.byte) (s : parser) : parser :=
  Parser r (unpacked_data s) (ping_time s) (log s).
Definition set_unpacked_data (d : gmap string entry) (s : parser) : parser :=
  Parser (raw s) d (ping_time s) (log s).
Definition set_ping_time (t : list Z) (s : parser) : parser :=
  Parser (raw s) (unpacked_data s) t (log s).
Definition add_log (r : log_record) (s : parser) : parser :=
  Parser (raw s) (unpacked_data s) (ping_time s) (log s ++ [r]).

(** ** The monad of methods: state of [self], and exceptions *)

Definition M (T : Type) : Type := parser -> (exn + T) * parser.

Definition ret {T} (x : T) : M T := fun s => (inr x, s).
Definition raise {T} (e : exn) : M T := fun s => (inl e, s).
Definition bind {T U} (f : T -> M U) (m : M T) : M U :=
  fun s => match m s with
           | (inr x, s') => f x s'
           | (inl e, s') => (inl e, s')
           end.

#[global] Instance M_ret : MRet M := @ret.
#[global] Instance M_bind : MBind M := @bind.

Definition lift {T} (r : exn + T) : M T :=
  match r with inr x => ret x | inl e => raise e end.
Definition gets {T} (f : parser -> T) : M T := fun s => (inr (f s), s).
Definition modify (f : parser -> parser) : M unit := fun s => (inr tt, f s).

(** [raw.read(n)]. *)
Definition read (n : Z) : M (list Byte.byte) :=
  fun s =>
    if n <? 0 then (inr (raw s), set_raw [] s)
    else (inr (firstn (Z.to_nat n) (raw s)), set_raw (skipn (Z.to_nat n) (raw s)) s).

(** [self.unpacked_data[k]] on the defaultdict: a missing key is created
    with an empty list. *)
Definition dd_get (k : string) : M entry :=
  fun s =>
    match unpacked_data s !! k with
    | Some e => (inr e, s)
    | None => (inr (PyList []), set_unpacked_data (<[k := PyList []]> (unpacked_data s)) s)
    end.

Definition dd_set (k : string) (e : entry) : M unit :=
  modify (fun s => set_unpacked_data (<[k := e]> (unpacked_data s)) s).

(** [self.unpacked_data[k].append(<v>)]: the list is looked up first, then
    the argument is evaluated, then the list grows in place. *)
Definition dd_append (k : string) (v : M pyval) : M unit :=
  e ← dd_get k;
  match e with
  | PyList _ =>
      x ← v;
      e' ← dd_get k;
      match e' with
      | PyList l => dd_set k (PyList (l ++ [x]))
      | NdArr _ => raise AttributeError
      end
  | NdArr _ => raise AttributeError
  end.

(** [self.unpacked_data[k][i]]. *)
Definition dd_item (k : string) (i : Z) : M pyval :=
  e ← dd_get k;
  match e with
  | PyList l => lift (py_index l i)
  | NdArr (Arr0 _) => raise IndexError
  | NdArr (Arr1 l) => z ← lift (py_index l i); ret (PInt z)
  end.

(** An item used as a number. *)
Definition as_int (v : pyval) : M Z :=
  match v with
  | PInt z => ret z
  | _ => raise TypeError
  end.

(** [v[j]] for an item used as a sequence. *)
Definition item_index (v : pyval) (j : Z) : M Z :=
  match v with
  | PTuple t => lift (py_index t j)
  | _ => raise TypeError
  end.

Definition dd_int (k : string) (i : Z) : M Z :=
  v ← dd_item k i; as_int v.

Definition dd_int2 (k : string) (i j : Z) : M Z :=
  v ← dd_item k i; item_index v j.

(** ** Header layout *)

Record field : Type := Field {
  f_name : string;
  f_type : string;
  f_count : option Z     (* the third component, when the tuple has one *)
}.

Definition HEADER_FIELDS : list field := [
  Field "profile_flag" "u2" None;
  Field "profile_number" "u2" None;
  Field "serial_number" "u2" None;
  Field "ping_status" "u2" None;
  Field "burst_int" "u4" None;
  Field "year" "u2" None;
  Field "month" "u2" None;
  Field "day" "u2" None;
  Field "hour" "u2" None;
  Field "minute" "u2" None;
  Field "second" "u2" None;
  Field "hundredths" "u2" None;
  Field "dig_rate" "u2" (Some 4);
  Field "lockout_index" "u2" (Some 4);
  Field "num_bins" "u2" (Some 4);
  Field "range_samples_per_bin" "u2" (Some 4);
  Field "ping_per_profile" "u2" None;
  Field "avg_pings" "u2" None;
  Field "num_acq_pings" "u2" None;
  Field "ping_period" "u2" None;
  Field "first_ping" "u2" None;
  Field "last_ping" "u2" None;
  Field "data_type" "u1" (Some 4);
  Field "data_error" "u2" None;
  Field "phase" "u1" None;
  Field "overrun" "u1" None;
  Field "num_chan" "u1" None;
  Field "gain" "u1" (Some 4);
  Field "spare_chan" "u1" None;
  Field "pulse_length" "u2" (Some 4);
  Field "board_num" "u2" (Some 4);
  Field "frequency" "u2" (Some 4);
  Field "sensor_flag" "u2" None;
  Field "ancillary" "u2" (Some 5);
  Field "ad" "u2" (Some 2)
].

Definition HEADER_SIZE : Z := 124.
Definition HEADER_FORMAT : string :=
  ">HHHHIHHHHHHHHHHHHHHHHHHHHHHHHHHHHHBBBBHBBBBBBBBHHHHHHHHHHHHHHHHHHHH".
Definition FILE_TYPE : Z := 64770.

(** Fields that hold one value per frequency. *)
Definition field_w_freq : list string := [
  "dig_rate"; "lockout_index"; "num_bins"; "range_samples_per_bin";
  "data_type"; "gain"; "pulse_length"; "board_num"; "frequency"
].

Definition firmware_freq_len : Z := 4.

Definition str_in (x : string) (l : list string) : bool :=
  existsb (String.eqb x) l.

Section Methods.

Variable params : parameters.
Variable lm : libm.

(** The [for field in HEADER_FIELDS] loop of [_split_header]; the result
    is [header_byte_cnt] when the loop ends. *)
Fixpoint split_fields (header_unpacked : list Z) (fields : list field)
    (header_byte_cnt : Z) : M Z :=
  match fields with
  | [] => ret header_byte_cnt
  | fld :: rest =>
      if str_in (f_name fld) field_w_freq then
        dd_append (f_name fld)
          (ret (PTuple (py_slice header_unpacked header_byte_cnt
                          (header_byte_cnt + num_freq params))));;
        split_fields header_unpacked rest (header_byte_cnt + firmware_freq_len)
      else
        match f_count fld with
        | Some n =>
            dd_append (f_name fld)
              (ret (PTuple (py_slice header_unpacked header_byte_cnt
                              (header_byte_cnt + n))));;
            split_fields header_unpacked rest (header_byte_cnt + n)
        | None =>
            dd_append (f_name fld)
              (v ← lift (py_index header_unpacked header_byte_cnt); ret (PInt v));;
            split_fields header_unpacked rest (header_byte_cnt + 1)
        end
  end.

(** [_split_header]: [false] when the frame is not recognised. *)
Definition _split_header (header_unpacked : list Z) : M bool :=
  flag ← lift (py_index header_unpacked 0);
  unknown ←
    (if negb (flag =? FILE_TYPE) then
       check_eof ← read 1;
       match check_eof with
       | _ :: _ => modify (add_log (LogError "Unknown file type"));; ret true
       | [] => ret false
       end
     else ret false);
  if (unknown : bool) then ret false
  else split_fields header_unpacked HEADER_FIELDS 0;; ret true.

(** The body of the [for freq_ch in range(num_chan)] loop of
    [_add_counts]: the value stored in [vv_tmp[freq_ch]]. *)

(** [(ls + lso * 4294967295) / divisor], log-compressed; an infinite
    result is set to 0. *)
Definition linear_sum (ls lso : Z) : Z := ls + lso * 4294967295.

Definition log_compress (divisor : Z) (ds : float) (ls lso : Z) : float :=
  let v := (Z2f (linear_sum ls lso) / Z2f divisor)%float in
  let v := ((m_log10 lm v - 2.5) * Z2f (8 * 65535) * ds)%float in
  if np_isinf v then 0%float else v.

Fixpoint zip_with {X Y W} (f : X -> Y -> W) (xs : list X) (ys : list Y) : list W :=
  match xs, ys with
  | x :: xs', y :: ys' => f x y :: zip_with f xs' ys'
  | _, _ => []
  end.

(** The [divisor] of the averaged branch. *)
Definition channel_divisor (ping_num freq_ch : Z) : M Z :=
  avg_pings ← dd_int "avg_pings" ping_num;
  if negb (avg_pings =? 0) then  (* if pings are averaged over time *)
    ping_per_profile ← dd_int "ping_per_profile" ping_num;
    range_samples ← dd_int2 "range_samples_per_bin" ping_num freq_ch;
    ret (ping_per_profile * range_samples)
  else dd_int2 "range_samples_per_bin" ping_num freq_ch.

Definition add_counts_channel (ping_num freq_ch : Z) : M samples :=
  counts_byte_size ← dd_int2 "num_bins" ping_num freq_ch;
  data_type ← dd_int2 "data_type" ping_num freq_ch;
  if negb (data_type =? 0) then
    divisor ← channel_divisor ping_num freq_ch;
    sums ← read (counts_byte_size * 4);
    ls ← lift (unpack (">" ++ str_repeat "I" (Z.to_nat counts_byte_size)) sums);
    overflows ← read (counts_byte_size * 1);
    lso ← lift (unpack (">" ++ str_repeat "B" (Z.to_nat counts_byte_size)) overflows);
    ds ← lift (py_index (DS params) freq_ch);
    ret (AvgCounts (zip_with (log_compress divisor ds) ls lso))
  else
    counts_chunk ← read (counts_byte_size * 2);
    counts_unpacked ←
      lift (unpack (">" ++ str_repeat "H" (Z.to_nat counts_byte_size)) counts_chunk);
    ret (RawCounts counts_unpacked).

(** The channels [freq_ch, freq_ch + 1, ...], [n] of them, in order. *)
Fixpoint add_counts_channels (ping_num freq_ch : Z) (n : nat) : M (list samples) :=
  match n with
  | O => ret []
  | S n' =>
      v ← add_counts_channel ping_num freq_ch;
      vs ← add_counts_channels ping_num (freq_ch + 1) n';
      ret (v :: vs)
  end.

Definition _add_counts (ping_num : Z) : M unit :=
  num_chan ← dd_int "num_chan" ping_num;
  vv_tmp ← add_counts_channels ping_num 0 (Z.to_nat num_chan);
  dd_append "counts" (ret (PCounts vv_tmp)).

(** *** Calibration *)

Definition as_float (v : pyval) : M float :=
  match v with
  | PFloat x => ret x
  | PInt z => ret (Z2f z)
  | _ => raise TypeError
  end.

Definition _compute_temperature (ping_num : Z) (is_valid : bool) : M float :=
  if negb is_valid then ret nan
  else
    counts ← dd_int2 "ancillary" ping_num 4;
    let v_in := (2.5 * (Z2f counts / Z2f 65535))%float in
    R ← lift (py_div (ka params + kb params * v_in) (kc params - v_in));
    let lnR := m_log lm R in
    ret (1 / (A params + B params * lnR + C params * m_pow lm lnR 3) - 273)%float.

Inductive axis : Type := X | Y.

Definition _compute_tilt (ping_num : Z) (xy : axis) (is_valid : bool) : M float :=
  if negb is_valid then ret nan
  else
    let idx := match xy with X => 0 | Y => 1 end in
    N ← dd_int2 "ancillary" ping_num idx;
    let a := match xy with X => X_a params | Y => Y_a params end in
    let b := match xy with X => X_b params | Y => Y_b params end in
    let c := match xy with X => X_c params | Y => Y_c params end in
    let d := match xy with X => X_d params | Y => Y_d params end in
    ret (a + b * Z2f N + c * Z2f (N ^ 2) + d * Z2f (N ^ 3))%float.

Inductive battery : Type := main | tx.

Definition USL5_BAT_CONSTANT : float :=
  ((2.5 / 65536.0) * (86.6 + 475.0) / 86.6)%float.

Definition _compute_battery (ping_num : Z) (battery_type : battery) : M float :=
  N ← match battery_type with
      | main => dd_int2 "ancillary" ping_num 2
      | tx => dd_int2 "ad" ping_num 0
      end;
  ret (Z2f N * USL5_BAT_CONSTANT)%float.

(** [x ** 2] on a Python float: an overflow of a finite base raises. *)
Definition py_square (x : float) : M float :=
  let r := m_pow lm x 2 in
  if negb (is_nan x) && negb (is_infinity x) && is_infinity r
  then raise OverflowError else ret r.

Definition cos_tilt_mag (ping_num : Z) : M float :=
  tx_v ← dd_item "tilt_x" ping_num;
  tilt_x ← as_float tx_v;
  x2 ← py_square tilt_x;
  ty_v ← dd_item "tilt_y" ping_num;
  tilt_y ← as_float ty_v;
  y2 ← py_square tilt_y;
  ret (m_cos lm (PrimFloat.sqrt (x2 + y2) * np_pi / 180))%float.

(** *** Timestamps *)

Definition is_leap (y : Z) : bool :=
  (y mod 4 =? 0) && (negb (y mod 100 =? 0) || (y mod 400 =? 0)).

Definition days_in_month (y m : Z) : Z :=
  if m =? 2 then (if is_leap y then 29 else 28)
  else if (m =? 4) || (m =? 6) || (m =? 9) || (m =? 11) then 30 else 31.

(** [str(z)] for an int. *)
Definition py_str (z : Z) : string := NilZero.string_of_int (Z.to_int z).

(** [datetime.datetime(year, month, day, hour, minute, second)]. *)
Definition dt (year month day hour minute second : Z) : exn + datetime :=
  if negb ((1 <=? year) && (year <=? 9999))
    then inl (ValueError ("year " ++ py_str year ++ " is out of range"))
  else if negb ((1 <=? month) && (month <=? 12)) then inl (ValueError "month must be in 1..12")
  else if negb ((1 <=? day) && (day <=? days_in_month year month))
    then inl (ValueError "day is out of range for month")
  else if negb ((0 <=? hour) && (hour <=? 23)) then inl (ValueError "hour must be in 0..23")
  else if negb ((0 <=? minute) && (minute <=? 59)) then inl (ValueError "minute must be in 0..59")
  else if negb ((0 <=? second) && (second <=? 59)) then inl (ValueError "second must be in 0..59")
  else inr (Datetime year month day hour minute second).

Definition days_before_year (y : Z) : Z :=
  (y - 1) * 365 + (y - 1) / 4 - (y - 1) / 100 + (y - 1) / 400.

Definition days_before_month (y m : Z) : Z :=
  nth (Z.to_nat m) [0; 0; 31; 59; 90; 120; 151; 181; 212; 243; 273; 304; 334] 0
  + (if (2 <? m) && is_leap y then 1 else 0).

Definition toordinal (t : datetime) : Z :=
  days_before_year (dt_year t) + days_before_month (dt_year t) (dt_month t) + dt_day t.

(** [np.datetime64(t, "[ms]")]: milliseconds since 1970-01-01T00:00:00. *)
Definition datetime64_ms (t : datetime) : Z :=
  ((((toordinal t - 719163) * 24 + dt_hour t) * 60 + dt_minute t) * 60 + dt_second t) * 1000.

(** [int(second + hundredths / 100)]. *)
Definition whole_seconds (second hundredths : Z) : exn + Z :=
  py_int (Z2f second + Z2f hundredths / Z2f 100)%float.

(** The [dt(...)] expression shared by [_print_status] and
    [_get_ping_time], for the ping [ping_num] and an already known year. *)
Definition ping_datetime (year : pyval) (ping_num : Z) : M datetime :=
  month ← dd_int "month" ping_num;
  day ← dd_int "day" ping_num;
  hour ← dd_int "hour" ping_num;
  minute ← dd_int "minute" ping_num;
  second ← dd_int "second" ping_num;
  hundredths ← dd_int "hundredths" ping_num;
  sec ← lift (whole_seconds second hundredths);
  y ← as_int year;
  lift (dt y month day hour minute sec).

Variable source_file xml_path : string.

Definition _print_status : M unit :=
  year ← dd_item "year" 0;
  timestamp ← ping_datetime year 0;
  modify (add_log (LogInfo source_file xml_path timestamp)).

(** *** The read loop of [parse_raw] *)

Definition _test_valid_params (ps : list float) : bool :=
  if forallb np_isclose_0 ps then false else true.

Inductive stop : Type :=
  | EndOfFile           (* [eof = True]: the read returned no byte *)
  | UnexpectedFlag.     (* [break]: [_split_header] returned [False] *)

(** What one ping appends after its header was accepted. *)
Definition parse_ping (ping_num : Z) (temperature_is_valid tilt_x_is_valid
    tilt_y_is_valid : bool) : M unit :=
  _add_counts ping_num;;
  (if ping_num =? 0 then _print_status else ret tt);;
  dd_append "temperature"
    (t ← _compute_temperature ping_num temperature_is_valid; ret (PFloat t));;
  dd_append "tilt_x" (t ← _compute_tilt ping_num X tilt_x_is_valid; ret (PFloat t));;
  dd_append "tilt_y" (t ← _compute_tilt ping_num Y tilt_y_is_valid; ret (PFloat t));;
  dd_append "cos_tilt_mag" (t ← cos_tilt_mag ping_num; ret (PFloat t));;
  dd_append "battery_main" (t ← _compute_battery ping_num main; ret (PFloat t));;
  dd_append "battery_tx" (t ← _compute_battery ping_num tx; ret (PFloat t)).

(** The [while not eof] loop. Every turn that goes on has read a non-empty
    header, so [fuel] above the length of the file is never used up;
    [None] stands for a loop cut short by the fuel. *)
Fixpoint parse_loop (fuel : nat) (ping_num : Z) (temperature_is_valid
    tilt_x_is_valid tilt_y_is_valid : bool) : M (option stop) :=
  match fuel with
  | O => ret None
  | S fuel' =>
      header_chunk ← read HEADER_SIZE;
      match header_chunk with
      | [] => ret (Some EndOfFile)
      | _ :: _ =>
          header_unpacked ← lift (unpack HEADER_FORMAT header_chunk);
          ok ← _split_header header_unpacked;
          if (ok : bool) then
            parse_ping ping_num temperature_is_valid tilt_x_is_valid tilt_y_is_valid;;
            parse_loop fuel' (ping_num + 1) temperature_is_valid tilt_x_is_valid
              tilt_y_is_valid
          else ret (Some UnexpectedFlag)
      end
  end.

(** [parse_raw] from the validity flags to the end of the [with] block. *)
Definition parse_raw_read : M (option stop) :=
  let temperature_is_valid := _test_valid_params [ka params; kb params; kc params] in
  let tilt_x_is_valid := _test_valid_params [X_a params; X_b params; X_c params] in
  let tilt_y_is_valid := _test_valid_params [Y_a params; Y_b params; Y_c params] in
  fun s =>
    parse_loop (S (List.length (raw s))) 0 temperature_is_valid tilt_x_is_valid
      tilt_y_is_valid s.

End Methods.

(** ** After the read loop: [_check_uniqueness] and [_get_ping_time] *)

(** [np.array(e)] read as a flat run of integers. *)
Fixpoint ints_of (l : list pyval) : exn + list Z :=
  match l with
  | [] => inr []
  | PInt z :: l' =>
      match ints_of l' with inr zs => inr (z :: zs) | inl e => inl e end
  | _ :: _ => inl TypeError
  end.

Definition flat_ints (e : entry) : exn + list Z :=
  match e with
  | PyList l => ints_of l
  | NdArr (Arr0 z) => inr [z]
  | NdArr (Arr1 l) => inr l
  end.

(** [np.array(e)] read along axis 0: one row per ping. *)
Fixpoint tuples_of (l : list pyval) : exn + list (list Z) :=
  match l with
  | [] => inr []
  | PTuple t :: l' =>
      match tuples_of l' with inr ts => inr (t :: ts) | inl e => inl e end
  | _ :: _ => inl TypeError
  end.

Definition same_length (rows : list (list Z)) : bool :=
  match rows with
  | [] => true
  | r :: rs => forallb (fun r' => Nat.eqb (List.length r') (List.length r)) rs
  end.

Definition rows_of (e : entry) : exn + list (list Z) :=
  match e with
  | PyList l =>
      match tuples_of l with
      | inr rows =>
          if same_length rows then inr rows
          else inl (ValueError "inhomogeneous shape")
      | inl x => inl x
      end
  | NdArr (Arr0 _) => inl (ValueError "axis 0 is out of bounds for array of dimension 0")
  | NdArr (Arr1 l) => inr (map (fun z => [z]) l)
  end.

(** Lexicographic order on rows. *)
Fixpoint row_leb (a b : list Z) : bool :=
  match a, b with
  | [], _ => true
  | _ :: _, [] => false
  | x :: a', y :: b' => (x <? y) || ((x =? y) && row_leb a' b')
  end.

(** [np.unique]: the distinct values, sorted. *)
Definition np_unique (l : list Z) : list Z :=
  merge_sort Z.le (remove_dups l).

Definition np_unique_rows (rows : list (list Z)) : list (list Z) :=
  merge_sort (fun a b => Is_true (row_leb a b)) (remove_dups rows).

(** [squeeze()] on an array of shape [(1, k)]: every axis of length 1 goes,
    so a single row of a single value becomes 0-dimensional. *)
Definition squeeze (row : list Z) : ndarray :=
  match row with
  | [z] => Arr0 z
  | _ => Arr1 row
  end.

Definition not_constant (fld : string) : exn :=
  ValueError ("Header value " ++ fld ++ " is not constant for each ping").

(** fields to reduce size if the same for all pings *)
Definition field_include : list string := [
  "profile_flag"; "serial_number"; "burst_int"; "ping_per_profile";
  "avg_pings"; "ping_period"; "phase"; "num_chan"; "spare_chan"
].

Definition reduce_w_freq (fld : string) : M unit :=
  e ← dd_get fld;
  rows ← lift (rows_of e);
  match np_unique_rows rows with
  | [row] => dd_set fld (NdArr (squeeze row))
  | _ => raise (not_constant fld)
  end.

Definition reduce_include (fld : string) : M unit :=
  e ← dd_get fld;
  vals ← lift (flat_ints e);
  match np_unique vals with
  | [z] => dd_set fld (NdArr (Arr0 z))
  | _ => raise (not_constant fld)
  end.

Fixpoint for_each {T} (f : T -> M unit) (l : list T) : M unit :=
  match l with
  | [] => ret tt
  | x :: l' => f x;; for_each f l'
  end.

Section Finalize.

(** The guard [if not self.unpacked_data: self.parse_raw()] calls back into
    the driver; the call is a parameter here. *)
Variable parse_raw : M unit.

Definition ensure_parsed : M unit :=
  d ← gets unpacked_data;
  if bool_decide (d = ∅) then parse_raw else ret tt.

Definition _check_uniqueness : M unit :=
  ensure_parsed;;
  e ← dd_get "profile_flag";
  flags ← lift (flat_ints e);
  if negb (Nat.eqb (List.length flags) 1) then  (* Only check uniqueness once. *)
    for_each reduce_w_freq field_w_freq;;
    for_each reduce_include field_include
  else ret tt.

Fixpoint ping_times (ping_num : Z) (years : list pyval) : M (list Z) :=
  match years with
  | [] => ret []
  | year :: rest =>
      t ← ping_datetime year ping_num;
      ts ← ping_times (ping_num + 1) rest;
      ret (datetime64_ms t :: ts)
  end.

Definition _get_ping_time : M unit :=
  ensure_parsed;;
  e ← dd_get "year";
  years ← match e with
          | PyList l => ret l
          | NdArr (Arr1 l) => ret (map PInt l)
          | NdArr (Arr0 _) => raise TypeError
          end;
  ts ← ping_times 0 years;
  modify (set_ping_time ts).

(** [self.unpacked_data["frequency"] =
    self.unpacked_data["frequency"].astype(np.float64)]: a list has no
    [astype]. The element type of an array is not tracked, the cast keeps
    its values. *)
Definition frequency_astype_float64 : M unit :=
  e ← dd_get "frequency";
  match e with
  | NdArr a => dd_set "frequency" (NdArr a)
  | PyList _ => raise AttributeError
  end.

(** [parse_raw] after the [with] block, up to the cast of [frequency]. *)
Definition parse_raw_finish : M unit :=
  _check_uniqueness;;
  _get_ping_time;;
  frequency_astype_float64.

End Finalize.

(** ** [_calc_Sv_offset] *)

(** The static method [_calc_Sv_offset(f, pulse_length)]; the arguments are
    numbers, read here as floats (an int compares as the float of the same
    value). A call that reaches no [return] yields [None]. *)
Definition _calc_Sv_offset (f pulse_length : float) : option float :=
  if PrimFloat.ltb 38000 f then
    if PrimFloat.eqb pulse_length 300 then Some 1.1%float
    else if PrimFloat.eqb pulse_length 500 then Some 0.8%float
    else if PrimFloat.eqb pulse_length 700 then Some 0.5%float
    else if PrimFloat.eqb pulse_length 900 then Some 0.3%float
    else if PrimFloat.eqb pulse_length 1000 then Some 0.3%float
    else None
  else
    if PrimFloat.eqb pulse_length 500 then Some 1.1%float
    else if PrimFloat.eqb pulse_length 1000 then Some 0.7%float
    else None.

(** ** A reference libm

    An instance of [libm] to run the parser on concrete files. It follows
    C99 Annex F at the special values (the only values any proof below
    depends on) and sums a truncated series elsewhere. *)

Module RefLibm.

(** Sum of [t2^j / (2(k+j)+1)] for [j < n], by Horner's rule. *)
Fixpoint atanh_series (n : nat) (t2 : float) (k : Z) : float :=
  match n with
  | O => 0%float
  | S n' => (1 / Z2f (2 * k + 1) + t2 * atanh_series n' t2 (k + 1))%float
  end.

Definition ln2 : float := 0x1.62e42fefa39efp-1%float.
Definition ln10 : float := 0x1.26bb1bbb55516p+1%float.

Definition log (x : float) : float :=
  if is_nan x then nan
  else if PrimFloat.ltb x 0 then nan
  else if PrimFloat.eqb x 0 then neg_infinity
  else if is_infinity x then infinity
  else
    let '(m, e) := Z.frexp x in
    let t := ((m - 1) / (m + 1))%float in
    (Z2f e * ln2 + 2 * t * atanh_series 24 (t * t) 0)%float.

Definition log10 (x : float) : float :=
  if is_nan x then nan
  else if PrimFloat.ltb x 0 then nan
  else if PrimFloat.eqb x 0 then neg_infinity
  else if is_infinity x then infinity
  else (log x / ln10)%float.

(** Sum of [(-1)^k x^(2k) / (2k)!] for [k < n], by Horner's rule. *)
Fixpoint cos_series (n : nat) (x2 : float) (k : Z) : float :=
  match n with
  | O => 1%float
  | S n' => (1 - x2 / Z2f ((2 * k + 1) * (2 * k + 2)) * cos_series n' x2 (k + 1))%float
  end.

Definition cos (x : float) : float :=
  if is_nan x || is_infinity x then nan else cos_series 24 (x * x) 0.

(** [pow] for the small whole exponents the parser uses. *)
Definition pow (x y : float) : float :=
  if PrimFloat.eqb y 2 then (x * x)%float
  else if PrimFloat.eqb y 3 then (x * x * x)%float
  else if PrimFloat.eqb y 0 then 1%float
  else if PrimFloat.eqb y 1 then x
  else nan.

Definition ref : libm := Libm log10 log cos pow.

End RefLibm.

(** ** Sample files *)

Definition zeros (n : nat) : list Byte.byte := repeat Byte.x00 n.

(** A header with the marker 64770 (0xFD02), dated 2020-01-02, all other
    fields zero (so: no channel, no payload). *)
Definition frame_2020 : list Byte.byte :=
  <[0%nat := Byte.xfd]> (<[1%nat := Byte.x02]> (<[12%nat := Byte.x07]>
  (<[13%nat := Byte.xe4]> (<[15%nat := Byte.x01]> (<[17%nat := Byte.x02]>
  (zeros 124)))))).

(** The same header with the marker 0x0002. *)
Definition frame_bad_marker : list Byte.byte :=
  <[0%nat := Byte.x00]> frame_2020.

Definition fresh (file : list Byte.byte) : parser := Parser file ∅ [] [].

(** A header with the marker and nothing else: every field 0, the date
    included. *)
Definition frame_zero_date : list Byte.byte :=
  <[0%nat := Byte.xfd]> (<[1%nat := Byte.x02]> (zeros 124)).

(** The header of a ping at 2020-01-02 03:04:05 and 60 hundredths. *)
Definition frame_030405_60 : list Byte.byte :=
  <[19%nat := Byte.x03]> (<[21%nat := Byte.x04]> (<[23%nat := Byte.x05]>
  (<[25%nat := Byte.x3c]> frame_2020))).

(** The header [frame_2020] with serial number 7. *)
Definition frame_serial_7 : list Byte.byte :=
  <[5%nat := Byte.x07]> frame_2020.

(** One channel of 3 raw bins. *)
Definition frame_raw_3 : list Byte.byte :=
  <[78%nat := Byte.x01]> (<[43%nat := Byte.x03]> frame_2020).

(** One channel of 1 averaged bin, with range_samples_per_bin [rs]. *)
Definition frame_avg_1 (rs : Byte.byte) : list Byte.byte :=
  <[78%nat := Byte.x01]> (<[70%nat := Byte.x01]> (<[43%nat := Byte.x01]>
  (<[51%nat := rs]> frame_2020))).

(** * Vocabulary of the properties *)

(** One frequency, DS = 1, every calibration coefficient 0. *)
Definition params_no_temperature : parameters :=
  Parameters 1 0 0 0 0 0 0 0 0 0 0 0 0 0 0 [1%float].

(** What the read loop leaves of a file that holds [frame_2020] alone. *)
Definition one_ping : parser :=
  snd (parse_raw_read params_no_temperature RefLibm.ref "f.01A" "f.XML"
         (fresh frame_2020)).

(** The format characters of [HEADER_FORMAT]. *)
Definition header_codes : list ascii :=
  Eval cbv in
    match fmt_codes HEADER_FORMAT with Some cs => cs | None => [] end.

(** One ping decoded, then a header with a wrong marker and one more byte. *)
Definition one_ping_then_bad_marker : parser :=
  set_raw (frame_bad_marker ++ [Byte.x00])%list one_ping.

(** Slots of [header_unpacked] a field takes: always 4 for a field with
    one value per frequency, whatever [num_freq] is. *)
Definition slot_width (fld : field) : Z :=
  if str_in (f_name fld) field_w_freq then firmware_freq_len
  else match f_count fld with Some n => n | None => 1 end.

(** Slots taken by a run of fields. *)
Definition total_slots (fields : list field) : Z :=
  fold_right (fun fld acc => slot_width fld + acc) 0 fields.

(** What [_split_header] appends for a field that starts at slot [off]. *)
Definition stored (nf : Z) (hdr : list Z) (fld : field) (off : Z) : pyval :=
  if str_in (f_name fld) field_w_freq then PTuple (py_slice hdr off (off + nf))
  else match f_count fld with
       | Some n => PTuple (py_slice hdr off (off + n))
       | None => PInt (nth (Z.to_nat off) hdr 0)
       end.

(** The per-ping list under a key ([[]] when the key is absent). *)
Definition column (d : gmap string entry) (k : string) : list pyval :=
  match d !! k with
  | Some (PyList l) => l
  | _ => []
  end.

(** No key has been reduced to an array yet. *)
Definition accumulating (d : gmap string entry) : Prop :=
  forall k a, d !! k <> Some (NdArr a).

(** The parser once the header [frame] of the first ping is decoded, in
    front of [payload]. *)
Definition after_header (params : parameters) (frame payload : list Byte.byte)
    : parser :=
  match unpack HEADER_FORMAT frame with
  | inr hdr => snd (_split_header params hdr (fresh payload))
  | inl _ => fresh payload
  end.

(** The raw counts 1, 2, 3. *)
Definition raw_3_payload : list Byte.byte :=
  [Byte.x00; Byte.x01; Byte.x00; Byte.x02; Byte.x00; Byte.x03].

(** The state in front of the payload of [frame_raw_3]. *)
Definition raw_3_state : parser :=
  after_header params_no_temperature frame_raw_3 raw_3_payload.

(** The state in front of the payload of [frame_avg_1 rs]. *)
Definition avg_1_state (rs : Byte.byte) (payload : list Byte.byte) : parser :=
  after_header params_no_temperature (frame_avg_1 rs) payload.

(** One averaged bin: sum 0, overflow 0. *)
Definition zero_bin : list Byte.byte :=
  [Byte.x00; Byte.x00; Byte.x00; Byte.x00; Byte.x00].

(** The magnitude as the specification words it. *)
Definition spec_linear_sum (sum overflow : Z) : Z := sum + overflow * 2 ^ 32.

(** The time subfields of one ping's header. *)
Record clock : Type := Clock {
  c_year : Z; c_month : Z; c_day : Z; c_hour : Z; c_minute : Z;
  c_second : Z; c_hundredths : Z
}.

(** The dataset holds the time subfields of the pings [cs], in order. *)
Definition has_clocks (d : gmap string entry) (cs : list clock) : Prop :=
  d !! "year" = Some (PyList (map (fun c => PInt (c_year c)) cs)) /\
  d !! "month" = Some (PyList (map (fun c => PInt (c_month c)) cs)) /\
  d !! "day" = Some (PyList (map (fun c => PInt (c_day c)) cs)) /\
  d !! "hour" = Some (PyList (map (fun c => PInt (c_hour c)) cs)) /\
  d !! "minute" = Some (PyList (map (fun c => PInt (c_minute c)) cs)) /\
  d !! "second" = Some (PyList (map (fun c => PInt (c_second c)) cs)) /\
  d !! "hundredths" = Some (PyList (map (fun c => PInt (c_hundredths c)) cs)).

(** The subfields make a date and time that [datetime] accepts. *)
Definition valid_clock (c : clock) : Prop :=
  1 <= c_year c <= 9999 /\ 1 <= c_month c <= 12 /\
  1 <= c_day c <= days_in_month (c_year c) (c_month c) /\
  0 <= c_hour c <= 23 /\ 0 <= c_minute c <= 59 /\
  0 <= c_second c /\ 0 <= c_hundredths c /\
  c_second c + c_hundredths c / 100 <= 59.

Definition clock_datetime (c : clock) : datetime :=
  Datetime (c_year c) (c_month c) (c_day c) (c_hour c) (c_minute c)
    (c_second c + c_hundredths c / 100).

Definition clock_ms (c : clock) : Z := datetime64_ms (clock_datetime c).

(** [f z], [f (z + 1)], ..., [n] of them. *)
Fixpoint all_from (n : nat) (z : Z) (f : Z -> bool) : bool :=
  match n with
  | O => true
  | S n' => f z && all_from n' (z + 1) f
  end.

(** The float expression gives [sec] plus the whole seconds of [h]. *)
Definition seconds_ok (sec h : Z) : bool :=
  match whole_seconds sec h with
  | inr z => z =? sec + h / 100
  | inl _ => false
  end.

(** The parser after the header of [frame_030405_60]. *)
Definition state_030405_60 : parser :=
  after_header params_no_temperature frame_030405_60 [].

(** All the values of a column are [v] (and there is one at least). *)
Definition constant {T} (l : list T) (v : T) : Prop :=
  l <> [] /\ forall x, In x l -> x = v.

(** Two values of a column differ. *)
Definition varies {T} (l : list T) : Prop :=
  exists x y, In x l /\ In y l /\ x <> y.

(** What one field of the reducer does to a dataset: the array it is
    collapsed to, or nothing when its values differ. *)
Definition verdict_include (zs : list Z) : option ndarray :=
  match np_unique zs with
  | [z] => Some (Arr0 z)
  | _ => None
  end.

Definition verdict_w_freq (rows : list (list Z)) : option ndarray :=
  match np_unique_rows rows with
  | [row] => Some (squeeze row)
  | _ => None
  end.

Definition after_field (k : string) (v : option ndarray) (s : parser)
    : (exn + unit) * parser :=
  match v with
  | Some a => (inr tt, set_unpacked_data (<[k := NdArr a]> (unpacked_data s)) s)
  | None => (inl (not_constant k), s)
  end.

(** The reducer takes the per-frequency fields first, then the scalar
    fields; [reduce_any] is the step of either loop. *)
Definition reduced_fields : list string := (field_w_freq ++ field_include)%list.

Definition reduce_any (k : string) : M unit :=
  if str_in k field_w_freq then reduce_w_freq k else reduce_include k.

(** The column under [k] is what the read loop builds: tuples of one
    length for a per-frequency field, integers for a scalar field. *)
Definition column_ok (d : gmap string entry) (k : string) : Prop :=
  if str_in k field_w_freq
  then exists rows, d !! k = Some (PyList (map PTuple rows)) /\
                    same_length rows = true
  else exists zs, d !! k = Some (PyList (map PInt zs)).

Definition verdict (d : gmap string entry) (k : string) : option ndarray :=
  match d !! k with
  | Some (PyList l) =>
      if str_in k field_w_freq then
        match tuples_of l with
        | inr rows => verdict_w_freq rows
        | inl _ => None
        end
      else
        match ints_of l with
        | inr zs => verdict_include zs
        | inl _ => None
        end
  | _ => None
  end.

(** The fields [ks] taken in order on the dataset [d], with the verdicts
    of the dataset [d0] the reducer started from: the field that stops the
    reducer, if any, and the dataset it leaves. *)
Fixpoint reduce_all (d0 : gmap string entry) (ks : list string)
    (d : gmap string entry) : option string * gmap string entry :=
  match ks with
  | [] => (None, d)
  | k :: ks' =>
      match verdict d0 k with
      | Some a => reduce_all d0 ks' (<[k := NdArr a]> d)
      | None => (Some k, d)
      end
  end.

(** [n] pings have been accumulated: every field the reducer looks at
    holds [n] values, tuples of one length for the per-frequency fields. *)
Definition pings_accumulated (d : gmap string entry) (n : nat) : Prop :=
  (forall k, In k field_w_freq ->
     exists rows, d !! k = Some (PyList (map PTuple rows)) /\
                  List.length rows = n /\ same_length rows = true) /\
  (forall k, In k field_include ->
     exists zs, d !! k = Some (PyList (map PInt zs)) /\ List.length zs = n).

(** Two pings carry differing values for the field [k]. *)
Definition offending (d : gmap string entry) (k : string) : Prop :=
  (In k field_w_freq /\
   exists rows, d !! k = Some (PyList (map PTuple rows)) /\ varies rows) \/
  (In k field_include /\
   exists zs, d !! k = Some (PyList (map PInt zs)) /\ varies zs).

(** Two pings with the same header, and two pings whose serial numbers
    differ, as the read loop leaves them. *)
Definition two_pings : parser :=
  snd (parse_raw_read params_no_temperature RefLibm.ref "f.01A" "f.XML"
         (fresh (frame_2020 ++ frame_2020)%list)).

Definition two_serial_numbers : parser :=
  snd (parse_raw_read params_no_temperature RefLibm.ref "f.01A" "f.XML"
         (fresh (frame_2020 ++ frame_serial_7)%list)).

(** A computation that never puts bytes back into the file. *)
Definition shrinks {T} (m : M T) : Prop :=
  forall s, (List.length (raw (snd (m s))) <= List.length (raw s))%nat.

(** Payload bytes of one channel: 2 per raw bin; 4 and 1 per averaged
    bin. *)
Definition channel_bytes (data_type num_bins : Z) : Z :=
  if data_type =? 0 then 2 * num_bins else 5 * num_bins.

(** Payload bytes of the first [n] channels. *)
Fixpoint payload_bytes (dts nbs : list Z) (n : nat) : Z :=
  match n, dts, nbs with
  | S n', dt :: dts', nb :: nbs' =>
      channel_bytes dt nb + payload_bytes dts' nbs' n'
  | _, _, _ => 0
  end.

Definition samples_length (v : samples) : nat :=
  match v with
  | RawCounts l => List.length l
  | AvgCounts l => List.length l
  end.

Definition is_raw (v : samples) : bool :=
  match v with
  | RawCounts _ => true
  | AvgCounts _ => false
  end.

(** The list under [k] holds [v] for the ping [ping_num]. *)
Definition holds (d : gmap string entry) (k : string) (ping_num : Z)
    (v : pyval) : Prop :=
  exists l, d !! k = Some (PyList l) /\ py_index l ping_num = inr v.

(** What [_add_counts] reads of the header of the ping [ping_num]. *)
Definition header_at (d : gmap string entry) (ping_num n : Z)
    (nbs dts rss : list Z) (avg ppp : Z) : Prop :=
  holds d "num_chan" ping_num (PInt n) /\
  holds d "num_bins" ping_num (PTuple nbs) /\
  holds d "data_type" ping_num (PTuple dts) /\
  holds d "range_samples_per_bin" ping_num (PTuple rss) /\
  holds d "avg_pings" ping_num (PInt avg) /\
  holds d "ping_per_profile" ping_num (PInt ppp).

(** What the reducer leaves of [two_serial_numbers]. *)
Definition after_failed_reduction : parser :=
  snd (_check_uniqueness (ret tt) two_serial_numbers).

(** The coefficients the validity flag of an axis looks at. *)
Definition axis_abc (params : parameters) (xy : axis) : list float :=
  match xy with
  | X => [X_a params; X_b params; X_c params]
  | Y => [Y_a params; Y_b params; Y_c params]
  end.

(** Tilt polynomials with a cubic term only: X_d = Y_d = 3. *)
Definition params_only_d : parameters :=
  Parameters 1 0 0 0 0 0 0 0 0 0 3 0 0 0 3 [1%float].

(** One ping whose X tilt is NaN and whose Y tilt is 3. *)
Definition tilted_state : parser :=
  set_unpacked_data
    (<["tilt_x" := PyList [PFloat nan]]>
       (<["tilt_y" := PyList [PFloat 3]]> ∅)) (fresh []).

(** ka = 1 and kc = 2.5, the input voltage at full scale. *)
Definition params_kc_full_scale : parameters :=
  Parameters 1 1 0 2.5 0 0 0 0 0 0 0 0 0 0 0 [1%float].

(** One ping whose temperature counts are at full scale. *)
Definition full_scale_state : parser :=
  set_unpacked_data
    (<["ancillary" := PyList [PTuple [0; 0; 40000; 0; 65535]]]> ∅) (fresh []).

(** The voltage a reading of 65536 would stand for. *)
Definition battery_full_scale : float := (2.5 * (86.6 + 475.0) / 86.6)%float.

Definition battery_in_range (N : Z) : bool :=
  let v := (Z2f N * USL5_BAT_CONSTANT)%float in
  PrimFloat.leb 0 v && PrimFloat.ltb v battery_full_scale.

(** Where the reading of a battery is stored. *)
Definition battery_key (b : battery) : string :=
  match b with main => "ancillary" | tx => "ad" end.

Definition battery_slot (b : battery) : Z :=
  match b with main => 2 | tx => 0 end.

(** A float that is neither zero, nor infinite, nor NaN. *)
Definition finite_nonzero (c : float) : bool :=
  match Prim2SF c with S754_finite _ _ _ => true | _ => false end.

(** The date, hour and minute are ones [datetime] accepts. *)
Definition date_in_range (c : clock) : Prop :=
  1 <= c_year c <= 9999 /\ 1 <= c_month c <= 12 /\
  1 <= c_day c <= days_in_month (c_year c) (c_month c) /\
  0 <= c_hour c <= 23 /\ 0 <= c_minute c <= 59.

Definition seconds_in_range (c : clock) : Prop :=
  0 <= c_second c /\ 0 <= c_hundredths c /\
  c_second c + c_hundredths c / 100 <= 59.

(** The keys a ping adds a value to, once its header is stored. *)
Definition ping_columns : list string :=
  ["counts"; "temperature"; "tilt_x"; "tilt_y"; "cos_tilt_mag";
   "battery_main"; "battery_tx"].

(** [x ** 2] raises: the base is finite and its square is not. *)
Definition square_overflows (lm : libm) (x : float) : bool :=
  negb (is_nan x) && negb (is_infinity x) && is_infinity (m_pow lm x 2).

(** The tilt of an axis at the reading [N], NaN for an invalid axis. *)
Definition tilt_of (params : parameters) (xy : axis) (is_valid : bool) (N : Z)
    : float :=
  if is_valid then
    match xy with
    | X => (X_a params + X_b params * Z2f N + X_c params * Z2f (N ^ 2)
            + X_d params * Z2f (N ^ 3))%float
    | Y => (Y_a params + Y_b params * Z2f N + Y_c params * Z2f (N ^ 2)
            + Y_d params * Z2f (N ^ 3))%float
    end
  else nan.

(** A ping dated 2020-01-02 followed by a ping whose date is all zeros, as
    the read loop leaves them. *)
Definition valid_then_zero_date : parser :=
  snd (parse_raw_read params_no_temperature RefLibm.ref "f.01A" "f.XML"
         (fresh (frame_2020 ++ frame_zero_date)%list)).

(** The header of [frame_zero_date] decoded as the first ping, and the
    same once its (empty) sample block is stored. *)
Definition zero_date_state : parser :=
  after_header params_no_temperature frame_zero_date [].

Definition zero_date_counted : parser :=
  snd (_add_counts params_no_temperature RefLibm.ref 0 zero_date_state).

(** Every key holds a list: a check of [accumulating] that computes. *)
Definition lists_only (d : gmap string entry) : bool :=
  forallb (fun ke => match snd ke with PyList _ => true | NdArr _ => false end)
    (map_to_list d).

(** The field stored under [name] and the slot it starts at. *)
Fixpoint field_at (name : string) (fields : list field) (off : Z)
    : option (field * Z) :=
  match fields with
  | [] => None
  | f :: fs =>
      if String.eqb (f_name f) name then Some (f, off)
      else field_at name fs (off + slot_width f)
  end.

(** What [_split_header] appends under [name] for the header [hdr]. *)
Definition header_value (params : parameters) (hdr : list Z) (name : string)
    : option pyval :=
  match field_at name HEADER_FIELDS 0 with
  | Some (f, off) => Some (stored (num_freq params) hdr f off)
  | None => None
  end.

(** The time subfields of a header. *)
Definition header_clock (params : parameters) (hdr : list Z) : option clock :=
  match header_value params hdr "year", header_value params hdr "month",
        header_value params hdr "day", header_value params hdr "hour",
        header_value params hdr "minute", header_value params hdr "second",
        header_value params hdr "hundredths" with
  | Some (PInt y), Some (PInt mo), Some (PInt d), Some (PInt h),
    Some (PInt mi), Some (PInt s), Some (PInt hs) =>
      Some (Clock y mo d h mi s hs)
  | _, _, _, _, _, _, _ => None
  end.

(** The ping number [ping_num] can be read from the header [hdr] followed
    by [payload]: the channels fit the configuration, the payload has the
    length the header announces, the date is valid when the ping is the
    first, and the calibration meets no zero denominator and no overflow. *)
Definition ping_ok (params : parameters) (lm : libm) (tv xv yv : bool)
    (ping_num : Z) (hdr : list Z) (payload : list Byte.byte) : Prop :=
  exists n nbs dts rss avg ppp a0 a1 a2 a3 a4 ad0 ads,
    header_value params hdr "num_chan" = Some (PInt n) /\
    header_value params hdr "num_bins" = Some (PTuple nbs) /\
    header_value params hdr "data_type" = Some (PTuple dts) /\
    header_value params hdr "range_samples_per_bin" = Some (PTuple rss) /\
    header_value params hdr "avg_pings" = Some (PInt avg) /\
    header_value params hdr "ping_per_profile" = Some (PInt ppp) /\
    header_value params hdr "ancillary" = Some (PTuple [a0; a1; a2; a3; a4]) /\
    header_value params hdr "ad" = Some (PTuple (ad0 :: ads)) /\
    Forall (fun nb => 0 <= nb) nbs /\ 0 <= n /\
    (Z.to_nat n <= List.length nbs)%nat /\ (Z.to_nat n <= List.length dts)%nat /\
    (Z.to_nat n <= List.length rss)%nat /\
    (Z.to_nat n <= List.length (DS params))%nat /\
    payload_bytes dts nbs (Z.to_nat n) = Z.of_nat (List.length payload) /\
    (ping_num = 0 ->
     exists c, header_clock params hdr = Some c /\ valid_clock c) /\
    (tv = true ->
     PrimFloat.eqb (kc params - 2.5 * (Z2f a4 / Z2f 65535)) 0 = false) /\
    square_overflows lm (tilt_of params X xv a0) = false /\
    square_overflows lm (tilt_of params Y yv a1) = false.

(** A file as a run of pings, each a 124-byte header that starts with the
    marker, followed by its payload; [ping_num] numbers the first one. *)
Fixpoint pings_ok (params : parameters) (lm : libm) (tv xv yv : bool)
    (ping_num : Z) (pings : list (list Byte.byte * list Byte.byte)) : Prop :=
  match pings with
  | [] => True
  | (frame, payload) :: rest =>
      List.length frame = 124%nat /\
      nth 0 (unpack_codes header_codes frame) 0 = FILE_TYPE /\
      ping_ok params lm tv xv yv ping_num (unpack_codes header_codes frame)
        payload /\
      pings_ok params lm tv xv yv (ping_num + 1) rest
  end.

Definition file_of (pings : list (list Byte.byte * list Byte.byte))
    : list Byte.byte :=
  concat (map (fun p => fst p ++ snd p)%list pings).

(** The keys the read loop fills, one value per ping. *)
Definition per_ping_keys : list string :=
  (map f_name HEADER_FIELDS ++ ping_columns)%list.

(** [i] pings have been read: every key of the loop holds [i] values. *)
Definition pings_read (d : gmap string entry) (i : nat) : Prop :=
  accumulating d /\
  forall k, In k per_ping_keys -> List.length (column d k) = i.

(** A ping of three raw bins followed by a ping without channels. *)
Definition raw_then_empty_ping : list (list Byte.byte * list Byte.byte) :=
  [(frame_raw_3, raw_3_payload); (frame_2020, [])].

(** The value of an averaged bin before the infinities are set to 0. *)
Definition unclamped (lm : libm) (divisor : Z) (ds : float) (ls lso : Z) : float :=
  ((m_log10 lm (Z2f (linear_sum ls lso) / Z2f divisor) - 2.5)
   * Z2f (8 * 65535) * ds)%float.

(** The divisor of an averaged channel, from the header values. *)
Definition divisor_of (avg ppp rs : Z) : Z :=
  if avg =? 0 then rs else ppp * rs.

(** The vector of a channel whose payload starts the bytes [r]. *)
Definition channel_vector (lm : libm) (avg ppp dt nb rs : Z) (ds : float)
    (r : list Byte.byte) : samples :=
  let k := Z.to_nat nb in
  if dt =? 0 then RawCounts (unpack_codes (repeat "H"%char k) (firstn (k * 2) r))
  else AvgCounts
         (zip_with (log_compress lm (divisor_of avg ppp rs) ds)
            (unpack_codes (repeat "I"%char k) (firstn (k * 4) r))
            (unpack_codes (repeat "B"%char k) (firstn (k * 1) (skipn (k * 4) r)))).

(** The vectors of the first [m] channels of a payload. *)
Fixpoint block_vectors (lm : libm) (avg ppp : Z) (dts nbs rss : list Z)
    (dss : list float) (m : nat) (r : list Byte.byte) : list samples :=
  match m, dts, nbs, rss, dss with
  | S m', dt :: dts', nb :: nbs', rs :: rss', ds :: dss' =>
      channel_vector lm avg ppp dt nb rs ds r
      :: block_vectors lm avg ppp dts' nbs' rss' dss' m'
           (skipn (Z.to_nat (channel_bytes dt nb)) r)
  | _, _, _, _, _ => []
  end.

(** One averaged bin: sum 1, overflow 0. *)
Definition unit_bin : list Byte.byte :=
  [Byte.x00; Byte.x00; Byte.x00; Byte.x01; Byte.x00].

(** * Properties *)

(** ** Running computations of [M] *)

Lemma bind_inr {T U} (m : M T) (f : T -> M U) s x s' :
  m s = (inr x, s') -> (m ≫= f) s = f x s'.
Proof. intros H. unfold mbind, M_bind, bind. now rewrite H. Qed.

Lemma bind_inl {T U} (m : M T) (f : T -> M U) s e s' :
  m s = (inl e, s') -> (m ≫= f) s = (inl e, s').
Proof. intros H. unfold mbind, M_bind, bind. now rewrite H. Qed.

(** [ret x ≫= f] runs as [f x]. *)
Ltac mret :=
  match goal with
  | |- context [@mbind M M_bind ?T ?U ?f (ret ?x) ?s] =>
      change (@mbind M M_bind T U f (ret x) s) with (f x s); cbv beta
  end.

Lemma set_unpacked_data_id s : set_unpacked_data (unpacked_data s) s = s.
Proof. now destruct s. Qed.

Lemma set_raw_id s : set_raw (raw s) s = s.
Proof. now destruct s. Qed.

(** A key that is present is read without touching the dictionary. *)
Lemma dd_get_present k e s :
  unpacked_data s !! k = Some e -> dd_get k s = (inr e, s).
Proof. intros H. unfold dd_get. now rewrite H. Qed.

Lemma dd_get_absent k s :
  unpacked_data s !! k = None ->
  dd_get k s
  = (inr (PyList []),
     set_unpacked_data (<[k := PyList []]> (unpacked_data s)) s).
Proof. intros H. unfold dd_get. now rewrite H. Qed.

Lemma dd_item_list k l i v s :
  unpacked_data s !! k = Some (PyList l) -> py_index l i = inr v ->
  dd_item k i s = (inr v, s).
Proof.
  intros Hk Hi. unfold dd_item.
  rewrite (bind_inr _ _ _ _ _ (dd_get_present _ _ _ Hk)).
  now rewrite Hi.
Qed.

Lemma dd_int_list k l i v s :
  unpacked_data s !! k = Some (PyList l) -> py_index l i = inr (PInt v) ->
  dd_int k i s = (inr v, s).
Proof.
  intros Hk Hi. unfold dd_int.
  now rewrite (bind_inr _ _ _ _ _ (dd_item_list _ _ _ _ _ Hk Hi)).
Qed.

Lemma dd_int2_list k l t i j v s :
  unpacked_data s !! k = Some (PyList l) -> py_index l i = inr (PTuple t) ->
  py_index t j = inr v ->
  dd_int2 k i j s = (inr v, s).
Proof.
  intros Hk Hi Hj. unfold dd_int2.
  rewrite (bind_inr _ _ _ _ _ (dd_item_list _ _ _ _ _ Hk Hi)).
  cbn [item_index]. now rewrite Hj.
Qed.

(** ** Validity flags and temperature *)

(** C8: when ka, kb and kc are all close to 0 (as [np.isclose] judges it),
    the validity flag is false and [_compute_temperature] returns NaN for
    every ping and every state of the dataset, without raising and without
    touching the state. *)
Theorem temperature_nan_when_coefficients_near_zero
    (params : parameters) (lm : libm) :
  np_isclose_0 (ka params) = true ->
  np_isclose_0 (kb params) = true ->
  np_isclose_0 (kc params) = true ->
  _test_valid_params [ka params; kb params; kc params] = false /\
  forall ping_num s,
    _compute_temperature params lm ping_num
      (_test_valid_params [ka params; kb params; kc params]) s = (inr nan, s).
Proof.
  intros Ha Hb Hc.
  assert (Hflag : _test_valid_params [ka params; kb params; kc params] = false).
  { unfold _test_valid_params. cbn [forallb]. now rewrite Ha, Hb, Hc. }
  split; [exact Hflag|].
  intros ping_num s. rewrite Hflag. reflexivity.
Qed.

Lemma temperature_nan_when_coefficients_near_zero_witness :
  _test_valid_params [0%float; 0%float; 0%float] = false /\
  forall ping_num s,
    _compute_temperature params_no_temperature RefLibm.ref ping_num
      (_test_valid_params [0%float; 0%float; 0%float]) s = (inr nan, s).
Proof.
  apply (temperature_nan_when_coefficients_near_zero
           params_no_temperature RefLibm.ref); reflexivity.
Defined.

(** ** The uniqueness reducer on a single ping *)

Lemma lookup_Some_nonempty (d : gmap string entry) k e :
  d !! k = Some e -> d <> ∅.
Proof. intros H ->. now rewrite lookup_empty in H. Qed.

Lemma ensure_parsed_nonempty parse_raw s :
  unpacked_data s <> ∅ -> ensure_parsed parse_raw s = (inr tt, s).
Proof.
  intros H. unfold ensure_parsed, gets, mbind, M_bind, bind.
  now rewrite bool_decide_eq_false_2.
Qed.

(** C10: with exactly one ping accumulated, [_check_uniqueness] returns
    without raising and leaves the whole state, hence every field of the
    dataset, as it was: nothing is collapsed and nothing is compared. *)
Theorem check_uniqueness_single_ping (parse_raw : M unit) (s : parser) (flag : Z) :
  unpacked_data s !! "profile_flag" = Some (PyList [PInt flag]) ->
  _check_uniqueness parse_raw s = (inr tt, s).
Proof.
  intros H. unfold _check_uniqueness.
  rewrite (bind_inr _ _ _ _ _
             (ensure_parsed_nonempty parse_raw s (lookup_Some_nonempty _ _ _ H))).
  rewrite (bind_inr _ _ _ _ _ (dd_get_present _ _ _ H)).
  reflexivity.
Qed.

Lemma check_uniqueness_single_ping_witness :
  unpacked_data one_ping !! "profile_flag" = Some (PyList [PInt 64770]) /\
  _check_uniqueness (ret tt) one_ping = (inr tt, one_ping).
Proof.
  split; [reflexivity|].
  apply (check_uniqueness_single_ping (ret tt) one_ping 64770). reflexivity.
Defined.

(** ** The read loop *)

Lemma unpack_header chunk :
  List.length chunk = 124%nat ->
  unpack HEADER_FORMAT chunk = inr (unpack_codes header_codes chunk).
Proof.
  intros H. unfold unpack.
  change (fmt_codes HEADER_FORMAT) with (Some header_codes).
  change (calcsize_codes header_codes) with (Some 124%nat).
  now rewrite H.
Qed.

Lemma py_index_0 {T} (x : T) l : py_index (x :: l) 0 = inr x.
Proof.
  unfold py_index. cbn [List.length].
  replace (0 <? 0) with false by reflexivity. cbn [orb].
  destruct (Z.leb_spec (Z.of_nat (S (List.length l))) 0); [lia|reflexivity].
Qed.

Lemma header_flag chunk :
  exists l, unpack_codes header_codes chunk = be_uint (firstn 2 chunk) :: l.
Proof. eexists. reflexivity. Qed.

Lemma read_app n a b s :
  raw s = (a ++ b)%list -> Z.of_nat (List.length a) = n ->
  read n s = (inr a, set_raw b s).
Proof.
  intros Hr Hn. unfold read.
  destruct (Z.ltb_spec n 0); [lia|].
  subst n. rewrite Nat2Z.id, Hr.
  rewrite firstn_app, skipn_app, Nat.sub_diag, firstn_all, skipn_all. cbn.
  now rewrite app_nil_r.
Qed.

(** C9: when a whole 124-byte header has been read, its marker is not
    64770 and the file holds at least one more byte, the loop stops with
    [UnexpectedFlag] without raising; one byte beyond the header has been
    consumed, the error is logged, and the dataset accumulated so far is
    untouched. *)
Theorem unrecognized_frame_keeps_accumulated_pings
    (params : parameters) (lm : libm) (source_file xml_path : string)
    (s : parser) (chunk : list Byte.byte) (b : Byte.byte) (rest : list Byte.byte)
    (fuel : nat) (ping_num : Z) (tv xv yv : bool) :
  raw s = (chunk ++ b :: rest)%list ->
  List.length chunk = 124%nat ->
  be_uint (firstn 2 chunk) <> FILE_TYPE ->
  exists s',
    parse_loop params lm source_file xml_path (S fuel) ping_num tv xv yv s
      = (inr (Some UnexpectedFlag), s') /\
    unpacked_data s' = unpacked_data s /\
    raw s' = rest /\
    log s' = (log s ++ [LogError "Unknown file type"])%list.
Proof.
  intros Hraw Hlen Hflag.
  exists (add_log (LogError "Unknown file type") (set_raw rest s)).
  split; [|now split].
  cbn [parse_loop].
  rewrite (bind_inr _ _ _ _ _ (read_app HEADER_SIZE chunk (b :: rest) s Hraw
             ltac:(rewrite Hlen; reflexivity))).
  destruct chunk as [|c0 chunk']; [discriminate|].
  rewrite (unpack_header _ Hlen).
  destruct (header_flag (c0 :: chunk')) as [l Hl]. rewrite Hl.
  unfold lift at 1.
  mret. unfold _split_header.
  rewrite py_index_0.
  apply Z.eqb_neq in Hflag.
  cbv beta iota delta [mbind M_bind bind ret lift]. rewrite Hflag.
  reflexivity.
Qed.

Lemma unrecognized_frame_keeps_accumulated_pings_witness :
  raw one_ping_then_bad_marker = (frame_bad_marker ++ Byte.x00 :: [])%list /\
  List.length frame_bad_marker = 124%nat /\
  be_uint (firstn 2 frame_bad_marker) <> FILE_TYPE /\
  exists s',
    parse_loop params_no_temperature RefLibm.ref "f.01A" "f.XML" 1 1
      false false false one_ping_then_bad_marker
      = (inr (Some UnexpectedFlag), s') /\
    unpacked_data s' = unpacked_data one_ping_then_bad_marker /\
    raw s' = [] /\
    log s' = (log one_ping_then_bad_marker ++ [LogError "Unknown file type"])%list.
Proof.
  assert (H1 : raw one_ping_then_bad_marker
               = (frame_bad_marker ++ Byte.x00 :: [])%list) by reflexivity.
  assert (H2 : List.length frame_bad_marker = 124%nat) by reflexivity.
  assert (H3 : be_uint (firstn 2 frame_bad_marker) <> FILE_TYPE)
    by (vm_compute; lia).
  split; [exact H1|]. split; [exact H2|]. split; [exact H3|].
  exact (unrecognized_frame_keeps_accumulated_pings params_no_temperature
           RefLibm.ref "f.01A" "f.XML" one_ping_then_bad_marker
           frame_bad_marker Byte.x00 [] 0 1 false false false H1 H2 H3).
Defined.

(** A header cut short after a decoded ping: two bytes are read, they are
    not the marker, and the loop raises instead of stopping. *)
Lemma truncated_frame_raises :
  fst (parse_raw_read params_no_temperature RefLibm.ref "f.01A" "f.XML"
         (fresh (frame_2020 ++ [Byte.x00; Byte.x02])%list))
  = inl StructError.
Proof. vm_compute. reflexivity. Qed.

(** C2: a file of exactly one header whose marker is not 64770. After the
    mismatch the one-byte read returns nothing, [_split_header] goes on to
    decode the header and returns [True]: the loop ends at end of file with
    one ping decoded, not with [UnexpectedFlag] and no ping. *)
Theorem bad_marker_at_end_of_file_is_decoded (lm : libm) :
  be_uint (firstn 2 frame_bad_marker) <> FILE_TYPE /\
  List.length frame_bad_marker = 124%nat /\
  let r := parse_raw_read params_no_temperature lm "f.01A" "f.XML"
             (fresh frame_bad_marker) in
  fst r = inr (Some EndOfFile) /\
  unpacked_data (snd r) !! "profile_flag" = Some (PyList [PInt 2]) /\
  unpacked_data (snd r) !! "counts" = Some (PyList [PCounts []]) /\
  log (snd r) = [LogInfo "f.01A" "f.XML" (Datetime 2020 1 2 0 0 0)].
Proof.
  split; [vm_compute; lia|]. split; [reflexivity|].
  vm_compute. repeat split; reflexivity.
Qed.

(** ** Header layout *)

Lemma accumulating_empty : accumulating ∅.
Proof. intros k a. now rewrite lookup_empty. Qed.

Lemma accumulating_insert d k l :
  accumulating d -> accumulating (<[k := PyList l]> d).
Proof.
  intros H k' a. destruct (decide (k = k')) as [->|Hne].
  - now rewrite lookup_insert_eq.
  - rewrite lookup_insert_ne by done. apply H.
Qed.

Lemma dd_append_ret k v s :
  accumulating (unpacked_data s) ->
  dd_append k (ret v) s
  = (inr tt,
     set_unpacked_data
       (<[k := PyList (column (unpacked_data s) k ++ [v])]> (unpacked_data s)) s).
Proof.
  intros Hacc. unfold dd_append, column.
  destruct (unpacked_data s !! k) as [[l|a]|] eqn:E.
  - rewrite (bind_inr _ _ _ _ _ (dd_get_present _ _ _ E)). mret.
    rewrite (bind_inr _ _ _ _ _ (dd_get_present _ _ _ E)). reflexivity.
  - now destruct (Hacc k a).
  - rewrite (bind_inr _ _ _ _ _ (dd_get_absent _ _ E)). mret.
    erewrite bind_inr
      by (apply dd_get_present; cbn; apply lookup_insert_eq).
    unfold dd_set, modify. cbn. now rewrite insert_insert_eq.
Qed.

Lemma py_index_nth {T} (l : list T) (i : Z) (d : T) :
  0 <= i < Z.of_nat (List.length l) ->
  py_index l i = inr (nth (Z.to_nat i) l d).
Proof.
  intros H. unfold py_index. cbv zeta.
  rewrite (proj2 (Z.ltb_ge i 0)) by lia. cbv iota.
  rewrite (proj2 (Z.ltb_ge i 0)) by lia.
  rewrite (proj2 (Z.leb_gt (Z.of_nat (List.length l)) i)) by lia. cbn [orb].
  destruct (nth_error l (Z.to_nat i)) eqn:E.
  - f_equal. symmetry. now apply nth_error_nth.
  - apply nth_error_None in E. lia.
Qed.

Lemma total_slots_cons f fs :
  total_slots (f :: fs) = slot_width f + total_slots fs.
Proof. reflexivity. Qed.

Lemma total_slots_nonneg fields :
  (forall fld, In fld fields -> 0 <= slot_width fld) -> 0 <= total_slots fields.
Proof.
  induction fields as [|f fs IH]; intros H; [cbn; lia|].
  rewrite total_slots_cons.
  specialize (H f (or_introl eq_refl)) as Hf.
  specialize (IH (fun x Hx => H x (or_intror Hx))). lia.
Qed.

Lemma set_unpacked_data_twice d1 d2 s :
  set_unpacked_data d2 (set_unpacked_data d1 s) = set_unpacked_data d2 s.
Proof. reflexivity. Qed.

Lemma column_insert_ne d k k' e :
  k <> k' -> column (<[k := e]> d) k' = column d k'.
Proof. intros H. unfold column. now rewrite lookup_insert_ne. Qed.

(** One turn of the [for field in HEADER_FIELDS] loop. *)
Lemma split_fields_step params hdr fld rest cnt s :
  accumulating (unpacked_data s) ->
  0 <= cnt ->
  (f_count fld = None -> str_in (f_name fld) field_w_freq = false ->
   cnt < Z.of_nat (List.length hdr)) ->
  split_fields params hdr (fld :: rest) cnt s
  = split_fields params hdr rest (cnt + slot_width fld)
      (set_unpacked_data
         (<[f_name fld := PyList (column (unpacked_data s) (f_name fld)
                                    ++ [stored (num_freq params) hdr fld cnt])]>
            (unpacked_data s)) s).
Proof.
  intros Hacc Hcnt Hidx. cbn [split_fields]. unfold slot_width, stored.
  destruct (str_in (f_name fld) field_w_freq).
  - now rewrite (bind_inr _ _ _ _ _ (dd_append_ret _ _ s Hacc)).
  - destruct (f_count fld) as [n|].
    + now rewrite (bind_inr _ _ _ _ _ (dd_append_ret _ _ s Hacc)).
    + rewrite (py_index_nth hdr cnt 0) by (specialize (Hidx eq_refl eq_refl); lia).
      change (lift (inr (nth (Z.to_nat cnt) hdr 0)) ≫= λ v : Z, ret (PInt v))
        with (ret (PInt (nth (Z.to_nat cnt) hdr 0)) : M pyval).
      now rewrite (bind_inr _ _ _ _ _ (dd_append_ret _ _ s Hacc)).
Qed.

Lemma split_fields_spec params hdr fields :
  forall cnt s,
    NoDup (map f_name fields) ->
    accumulating (unpacked_data s) ->
    0 <= cnt ->
    (forall fld, In fld fields -> 0 <= slot_width fld) ->
    cnt + total_slots fields <= Z.of_nat (List.length hdr) ->
    (forall fld, In fld fields -> f_count fld = None ->
                 str_in (f_name fld) field_w_freq = false -> slot_width fld = 1) ->
    exists d',
      split_fields params hdr fields cnt s
      = (inr (cnt + total_slots fields), set_unpacked_data d' s) /\
      accumulating d' /\
      (forall k, ~ In k (map f_name fields) -> d' !! k = unpacked_data s !! k) /\
      (forall pre fld post, fields = (pre ++ fld :: post)%list ->
         d' !! f_name fld
         = Some (PyList (column (unpacked_data s) (f_name fld)
                           ++ [stored (num_freq params) hdr fld
                                 (cnt + total_slots pre)]))).
Proof.
  induction fields as [|f fs IH]; intros cnt s Hnd Hacc Hcnt Hw Hlen Hone.
  - exists (unpacked_data s). cbn. rewrite set_unpacked_data_id, Z.add_0_r.
    repeat split; auto. intros [|? ?] ? ? H; discriminate H.
  - rewrite total_slots_cons in Hlen.
    pose proof (Hw f (or_introl eq_refl)) as Hwf.
    pose proof (total_slots_nonneg fs (fun x Hx => Hw x (or_intror Hx))) as Hfs.
    apply NoDup_cons in Hnd as [Hnotin Hnd].
    rewrite split_fields_step; auto.
    2:{ intros Hc Hf. pose proof (Hone f (or_introl eq_refl) Hc Hf). lia. }
    set (d1 := <[f_name f := _]> (unpacked_data s)).
    destruct (IH (cnt + slot_width f) (set_unpacked_data d1 s)) as
      (d' & Hrun & Hacc' & Hother & Hmine); auto.
    { apply accumulating_insert, Hacc. }
    { lia. }
    { intros x Hx. apply Hw. now right. }
    { lia. }
    { intros x Hx. apply Hone. now right. }
    exists d'. rewrite Hrun, set_unpacked_data_twice, total_slots_cons.
    split; [f_equal; f_equal; lia|]. split; [exact Hacc'|]. split.
    + intros k Hk. rewrite Hother.
      * cbn. apply lookup_insert_ne. intros Heq. apply Hk. now left.
      * intros Hin. apply Hk. now right.
    + intros [|p pre] fld post Heq; injection Heq as <- Hfs'.
      * rewrite Hother by (intros Hin; apply Hnotin, list_elem_of_In, Hin).
        cbn [unpacked_data set_unpacked_data]. unfold d1.
        rewrite lookup_insert_eq. cbn [total_slots fold_right].
        now rewrite Z.add_0_r.
      * rewrite (Hmine pre fld post Hfs'). cbn [unpacked_data set_unpacked_data].
        unfold d1. rewrite column_insert_ne.
        -- rewrite total_slots_cons. now rewrite Z.add_assoc.
        -- intros Heq'. apply Hnotin. rewrite Heq', Hfs'.
           apply list_elem_of_In, in_map, in_elt.
Qed.


Lemma header_fields_nodup : NoDup (map f_name HEADER_FIELDS).
Proof. apply (bool_decide_unpack _). vm_compute. exact I. Qed.

Lemma header_fields_widths :
  Forall (fun fld => 0 <= slot_width fld /\
                     (f_count fld = None ->
                      str_in (f_name fld) field_w_freq = false ->
                      slot_width fld = 1)) HEADER_FIELDS.
Proof. repeat constructor; vm_compute; congruence. Qed.

(** The slots at which the per-frequency fields start. *)
Lemma field_w_freq_offsets :
  map (fun name =>
         match list_find (fun fld => String.eqb (f_name fld) name = true)
                 HEADER_FIELDS with
         | Some (i, _) => total_slots (firstn i HEADER_FIELDS)
         | None => -1
         end) field_w_freq
  = [12; 16; 20; 24; 34; 42; 47; 51; 55].
Proof. reflexivity. Qed.



(** ** Sample blocks *)

Lemma codes_str_repeat c k :
  list_ascii_of_string (str_repeat (String c EmptyString) k) = repeat c k.
Proof.
  induction k as [|k IH]; [reflexivity|].
  change (str_repeat (String c EmptyString) (S k))
    with (String c (str_repeat (String c EmptyString) k)).
  cbn [list_ascii_of_string repeat]. now rewrite IH.
Qed.

Lemma calcsize_repeat c w k :
  code_size c = Some w -> calcsize_codes (repeat c k) = Some (k * w)%nat.
Proof.
  intros Hc. induction k as [|k IH]; cbn; [reflexivity|]. now rewrite Hc, IH.
Qed.

(** Unpacking [k] values of one code from a buffer of the right size. *)
Lemma unpack_repeat c w k buf :
  code_size c = Some w -> List.length buf = (k * w)%nat ->
  unpack (String ">" (str_repeat (String c EmptyString) k)) buf
  = inr (unpack_codes (repeat c k) buf).
Proof.
  intros Hc Hlen. unfold unpack, fmt_codes.
  rewrite codes_str_repeat, (calcsize_repeat c w k Hc), Hlen, Nat.eqb_refl.
  reflexivity.
Qed.

Lemma length_unpack_repeat c w k buf :
  code_size c = Some w -> List.length (unpack_codes (repeat c k) buf) = k.
Proof.
  intros Hc. revert buf. induction k as [|k IH]; intros buf; cbn; [reflexivity|].
  rewrite Hc. cbn. now rewrite IH.
Qed.

Lemma nth_unpack_repeat c w k buf i :
  code_size c = Some w -> (i < k)%nat ->
  nth i (unpack_codes (repeat c k) buf) 0
  = be_uint (firstn w (skipn (i * w) buf)).
Proof.
  intros Hc. revert buf i. induction k as [|k IH]; intros buf i Hi; [lia|].
  cbn [repeat unpack_codes]. rewrite Hc. destruct i as [|i].
  - reflexivity.
  - cbn [nth]. rewrite IH by lia. rewrite skipn_skipn.
    do 3 f_equal. lia.
Qed.

(** A window of a prefix is the window of the whole list. *)
Lemma window_of_prefix {T} (l : list T) (n a w : nat) :
  (a + w <= n)%nat ->
  firstn w (skipn a (firstn n l)) = firstn w (skipn a l).
Proof.
  intros H. rewrite skipn_firstn_comm, firstn_firstn. f_equal. lia.
Qed.

Lemma read_prefix n s :
  0 <= n ->
  read n s = (inr (firstn (Z.to_nat n) (raw s)),
              set_raw (skipn (Z.to_nat n) (raw s)) s).
Proof. intros H. unfold read. now rewrite (proj2 (Z.ltb_ge n 0)) by lia. Qed.

(** The body of the loop of [_add_counts] on a channel whose data_type
    flag is 0 and whose num_bins is [n], with the [2 * n] payload bytes in
    the file: the vector is the tuple of [n] values, the [i]-th being the
    big-endian unsigned 16-bit value of bytes [2i] and [2i + 1]; exactly
    [2 * n] bytes are consumed. *)
Lemma raw_counts_are_the_input_values
    (params : parameters) (lm : libm) (s : parser) (ping_num freq_ch n : Z) :
  dd_int2 "num_bins" ping_num freq_ch s = (inr n, s) ->
  dd_int2 "data_type" ping_num freq_ch s = (inr 0, s) ->
  0 <= n ->
  2 * n <= Z.of_nat (List.length (raw s)) ->
  exists counts,
    add_counts_channel params lm ping_num freq_ch s
      = (inr (RawCounts counts), set_raw (skipn (Z.to_nat (2 * n)) (raw s)) s) /\
    Z.of_nat (List.length counts) = n /\
    (forall i, (i < Z.to_nat n)%nat ->
       nth i counts 0 = be_uint (firstn 2 (skipn (2 * i) (raw s)))) /\
    (n = 0 -> counts = []).
Proof.
  intros Hbins Htype Hn Hlen.
  set (k := Z.to_nat n).
  set (chunk := firstn (Z.to_nat (n * 2)) (raw s)).
  assert (Hchunk : List.length chunk = (k * 2)%nat).
  { unfold chunk. rewrite length_firstn. lia. }
  exists (unpack_codes (repeat "H"%char k) chunk).
  assert (Hk : List.length (unpack_codes (repeat "H"%char k) chunk) = k)
    by now apply (length_unpack_repeat _ 2%nat).
  split; [|split; [|split]].
  - unfold add_counts_channel.
    rewrite (bind_inr _ _ _ _ _ Hbins), (bind_inr _ _ _ _ _ Htype).
    cbn [Z.eqb negb].
    rewrite (bind_inr _ _ _ _ _ (read_prefix (n * 2) s ltac:(lia))).
    fold chunk. fold k.
    change (">" ++ str_repeat "H" k)%string
      with (String ">" (str_repeat (String "H" EmptyString) k)).
    rewrite (unpack_repeat "H"%char 2%nat k chunk eq_refl Hchunk).
    cbn [lift]. mret. unfold ret. do 3 f_equal. lia.
  - rewrite Hk. unfold k. lia.
  - intros i Hi. rewrite (nth_unpack_repeat "H"%char 2%nat) by (reflexivity || exact Hi).
    unfold chunk. rewrite window_of_prefix by (fold k in Hi; lia).
    do 3 f_equal. lia.
  - intros ->. reflexivity.
Qed.

Lemma raw_counts_are_the_input_values_witness :
  dd_int2 "num_bins" 0 0 raw_3_state = (inr 3, raw_3_state) /\
  dd_int2 "data_type" 0 0 raw_3_state = (inr 0, raw_3_state) /\
  0 <= 3 /\
  2 * 3 <= Z.of_nat (List.length (raw raw_3_state)) /\
  exists counts,
    add_counts_channel params_no_temperature RefLibm.ref 0 0 raw_3_state
      = (inr (RawCounts counts),
         set_raw (skipn (Z.to_nat (2 * 3)) (raw raw_3_state)) raw_3_state) /\
    Z.of_nat (List.length counts) = 3 /\
    (forall i, (i < Z.to_nat 3)%nat ->
       nth i counts 0 = be_uint (firstn 2 (skipn (2 * i) (raw raw_3_state)))) /\
    (3 = 0 -> counts = []).
Proof.
  assert (H1 : dd_int2 "num_bins" 0 0 raw_3_state = (inr 3, raw_3_state))
    by (apply (dd_int2_list _ [PTuple [3]] [3]); vm_compute; reflexivity).
  assert (H2 : dd_int2 "data_type" 0 0 raw_3_state = (inr 0, raw_3_state))
    by (apply (dd_int2_list _ [PTuple [0]] [0]); vm_compute; reflexivity).
  assert (H3 : 0 <= 3) by lia.
  assert (H4 : 2 * 3 <= Z.of_nat (List.length (raw raw_3_state)))
    by (vm_compute; discriminate).
  exact (conj H1 (conj H2 (conj H3 (conj H4
           (raw_counts_are_the_input_values params_no_temperature RefLibm.ref
              raw_3_state 0 0 3 H1 H2 H3 H4))))).
Defined.

Example raw_3_decoded :
  fst (add_counts_channel params_no_temperature RefLibm.ref 0 0 raw_3_state)
  = inr (RawCounts [1; 2; 3]).
Proof. vm_compute. reflexivity. Qed.

(** *** Floats at the special values *)

Lemma digits2_pos_iter p d :
  digits2_pos (Pos.iter xO p d) = (digits2_pos p + d)%positive.
Proof.
  induction d as [|d IH] using Pos.peano_ind.
  - cbn. lia.
  - rewrite Pos.iter_succ. cbn [digits2_pos]. rewrite IH. lia.
Qed.

Lemma digits2_pos_bound p k :
  Z.pos p < 2 ^ k -> 0 <= k -> Z.pos (digits2_pos p) <= k.
Proof.
  revert k. induction p as [p IH|p IH|]; intros k H Hk; cbn [digits2_pos].
  - assert (0 < k) by (destruct (Z.eq_dec k 0); [subst; cbn in H; lia | lia]).
    replace k with (Z.succ (k - 1)) in H by lia.
    rewrite Z.pow_succ_r in H by lia. specialize (IH (k - 1)). lia.
  - assert (0 < k) by (destruct (Z.eq_dec k 0); [subst; cbn in H; lia | lia]).
    replace k with (Z.succ (k - 1)) in H by lia.
    rewrite Z.pow_succ_r in H by lia. specialize (IH (k - 1)). lia.
  - destruct (Z.eq_dec k 0); [subst; cbn in H; lia | lia].
Qed.

(** A positive integer below 2^53 rounds to a positive finite float. *)
Lemma binary_round_small p :
  Z.pos p < 2 ^ 53 ->
  exists m e, binary_round prec emax false p 0 = S754_finite false m e.
Proof.
  intros H. pose proof (digits2_pos_bound p 53 H ltac:(lia)) as Hd.
  unfold binary_round.
  assert (Hf : fexp prec emax (Z.pos (digits2_pos p) + 0)
               = Z.pos (digits2_pos p) - 53).
  { unfold fexp, emin, prec, emax. lia. }
  rewrite Hf. unfold shl_align.
  destruct (Z.pos (digits2_pos p) - 53 - 0) as [|q|q] eqn:E.
  - unfold binary_round_aux, shr_fexp. cbn [Zdigits2].
    assert (Hf2 : fexp prec emax (Z.pos (digits2_pos p) + 0) - 0 = 0).
    { rewrite Hf. lia. }
    rewrite Hf2.
    cbn [shr shr_record_of_loc round_nearest_even loc_of_shr_record
         shr_m shr_r shr_s].
    cbn [Zdigits2]. rewrite Hf2. cbn. eauto.
  - lia.
  - unfold binary_round_aux, shr_fexp. cbn [Zdigits2].
    rewrite digits2_pos_iter.
    assert (Hf2 : fexp prec emax (Z.pos (digits2_pos p + q)
                                  + (Z.pos (digits2_pos p) - 53))
                  - (Z.pos (digits2_pos p) - 53) = 0).
    { unfold fexp, emin, prec, emax. lia. }
    rewrite Hf2.
    cbn [shr shr_record_of_loc round_nearest_even loc_of_shr_record
         shr_m shr_r shr_s].
    cbn [Zdigits2]. rewrite digits2_pos_iter, Hf2. cbn [shr shr_m].
    destruct (Z.leb_spec (Z.pos (digits2_pos p) - 53) (emax - prec)); [eauto|].
    unfold emax, prec in *. lia.
Qed.

Lemma Z2f_positive d :
  0 < d < 2 ^ 53 -> exists m e, Prim2SF (Z2f d) = S754_finite false m e.
Proof.
  intros [Hpos Hlt]. unfold Z2f.
  rewrite (proj2 (Z.ltb_ge d 0)) by lia.
  rewrite of_uint63_spec, Uint63.of_Z_spec.
  rewrite Z.mod_small by (change wB with (2 ^ 63); lia).
  destruct d as [|p|p]; [lia| |lia].
  now apply binary_round_small.
Qed.

Lemma zero_div_positive d :
  0 < d < 2 ^ 53 -> (Z2f 0 / Z2f d)%float = 0%float.
Proof.
  intros H. destruct (Z2f_positive d H) as (m & e & Hd).
  apply Prim2SF_inj. rewrite FloatAxioms.div_spec, Hd. reflexivity.
Qed.

Lemma is_infinity_Prim2SF x sgn :
  Prim2SF x = S754_infinity sgn -> is_infinity x = true.
Proof.
  intros H. unfold is_infinity.
  rewrite FloatAxioms.eqb_spec, abs_spec, H. reflexivity.
Qed.

Lemma neg_infinity_times ds :
  is_nan ds = false -> PrimFloat.eqb ds 0 = false ->
  is_infinity (neg_infinity * ds) = true.
Proof.
  unfold is_nan. rewrite !FloatAxioms.eqb_spec. intros Hnan Hzero.
  destruct (Prim2SF ds) as [sg|sg| |sg m e] eqn:E.
  - now destruct sg.
  - apply (is_infinity_Prim2SF _ (xorb true sg)).
    now rewrite FloatAxioms.mul_spec, E.
  - discriminate Hnan.
  - apply (is_infinity_Prim2SF _ (xorb true sg)).
    now rewrite FloatAxioms.mul_spec, E.
Qed.

(** No infinity comes out of [log_compress]. *)
Lemma log_compress_not_inf lm divisor ds ls lso :
  np_isinf (log_compress lm divisor ds ls lso) = false.
Proof.
  unfold log_compress. cbv zeta.
  set (v := ((m_log10 lm _ - 2.5) * _ * ds)%float).
  destruct (np_isinf v) eqn:E; [reflexivity|exact E].
Qed.

(** Zero sum, zero overflow: the value is exactly 0. *)
Lemma log_compress_zero lm divisor ds :
  m_log10 lm 0 = neg_infinity ->
  0 < divisor < 2 ^ 53 ->
  is_nan ds = false -> PrimFloat.eqb ds 0 = false ->
  log_compress lm divisor ds 0 0 = 0%float.
Proof.
  intros Hlog Hd Hnan Hzero. unfold log_compress. cbv zeta.
  change (linear_sum 0 0) with 0.
  rewrite (zero_div_positive divisor Hd), Hlog.
  change ((neg_infinity - 2.5) * Z2f (8 * 65535))%float with neg_infinity.
  unfold np_isinf. now rewrite neg_infinity_times.
Qed.

(** *** Averaged channels *)

Lemma channel_divisor_averaged s ping_num freq_ch a p r :
  dd_int "avg_pings" ping_num s = (inr a, s) -> a <> 0 ->
  dd_int "ping_per_profile" ping_num s = (inr p, s) ->
  dd_int2 "range_samples_per_bin" ping_num freq_ch s = (inr r, s) ->
  channel_divisor ping_num freq_ch s = (inr (p * r), s).
Proof.
  intros Ha Hne Hp Hr. unfold channel_divisor.
  rewrite (bind_inr _ _ _ _ _ Ha).
  apply Z.eqb_neq in Hne. rewrite Hne. cbn [negb].
  now rewrite (bind_inr _ _ _ _ _ Hp), (bind_inr _ _ _ _ _ Hr).
Qed.

Lemma channel_divisor_not_averaged s ping_num freq_ch r :
  dd_int "avg_pings" ping_num s = (inr 0, s) ->
  dd_int2 "range_samples_per_bin" ping_num freq_ch s = (inr r, s) ->
  channel_divisor ping_num freq_ch s = (inr r, s).
Proof.
  intros Ha Hr. unfold channel_divisor.
  now rewrite (bind_inr _ _ _ _ _ Ha).
Qed.

Lemma length_zip_with {X Y W} (f : X -> Y -> W) xs ys :
  List.length xs = List.length ys ->
  List.length (zip_with f xs ys) = List.length xs.
Proof.
  revert ys. induction xs as [|x xs IH]; intros [|y ys] H; cbn in *;
    try discriminate; [reflexivity|]. now rewrite IH by lia.
Qed.

Lemma nth_zip_with {X Y W} (f : X -> Y -> W) xs ys i dx dy dw :
  (i < List.length xs)%nat -> (i < List.length ys)%nat ->
  nth i (zip_with f xs ys) dw = f (nth i xs dx) (nth i ys dy).
Proof.
  revert ys i. induction xs as [|x xs IH]; intros [|y ys] [|i] Hx Hy;
    cbn in *; try lia; [reflexivity|]. apply IH; lia.
Qed.

Lemma in_zip_with {X Y W} (f : X -> Y -> W) xs ys w :
  In w (zip_with f xs ys) -> exists x y, w = f x y.
Proof.
  revert ys. induction xs as [|x xs IH]; intros [|y ys] H; cbn in H;
    try contradiction.
  destruct H as [<-|H]; [eauto|]. now apply (IH ys).
Qed.

Lemma set_raw_twice a b s : set_raw b (set_raw a s) = set_raw b s.
Proof. reflexivity. Qed.

(** The averaged branch of [_add_counts] on a channel of [n] bins: [n]
    big-endian 32-bit sums, then [n] overflow bytes, combined bin by bin. *)
Lemma averaged_channel params lm s ping_num freq_ch n t d ds :
  dd_int2 "num_bins" ping_num freq_ch s = (inr n, s) ->
  dd_int2 "data_type" ping_num freq_ch s = (inr t, s) -> t <> 0 ->
  channel_divisor ping_num freq_ch s = (inr d, s) ->
  py_index (DS params) freq_ch = inr ds ->
  0 <= n -> 5 * n <= Z.of_nat (List.length (raw s)) ->
  let k := Z.to_nat n in
  add_counts_channel params lm ping_num freq_ch s
  = (inr (AvgCounts
            (zip_with (log_compress lm d ds)
               (unpack_codes (repeat "I"%char k) (firstn (k * 4) (raw s)))
               (unpack_codes (repeat "B"%char k)
                  (firstn (k * 1) (skipn (k * 4) (raw s)))))),
     set_raw (skipn (k * 5) (raw s)) s).
Proof.
  intros Hbins Htype Hne Hdiv Hds Hn Hlen k.
  unfold add_counts_channel.
  rewrite (bind_inr _ _ _ _ _ Hbins), (bind_inr _ _ _ _ _ Htype).
  apply Z.eqb_neq in Hne. rewrite Hne. cbn [negb].
  rewrite (bind_inr _ _ _ _ _ Hdiv).
  rewrite (bind_inr _ _ _ _ _ (read_prefix (n * 4) s ltac:(lia))).
  replace (Z.to_nat (n * 4)) with (k * 4)%nat by lia.
  change (">" ++ str_repeat "I" (Z.to_nat n))%string
    with (String ">" (str_repeat (String "I" EmptyString) k)).
  rewrite (unpack_repeat "I"%char 4%nat k) by
    (reflexivity || (rewrite length_firstn; lia)).
  cbn [lift]. mret.
  rewrite (bind_inr _ _ _ _ _ (read_prefix (n * 1) _ ltac:(lia))).
  replace (Z.to_nat (n * 1)) with (k * 1)%nat by lia.
  cbn [raw set_raw]. rewrite set_raw_twice, skipn_skipn.
  change (">" ++ str_repeat "B" (Z.to_nat n))%string
    with (String ">" (str_repeat (String "B" EmptyString) k)).
  rewrite (unpack_repeat "B"%char 1%nat k) by
    (reflexivity || (rewrite length_firstn, length_skipn; lia)).
  cbn [lift]. mret. rewrite Hds. cbn [lift]. mret.
  unfold ret. do 3 f_equal. lia.
Qed.

(** The body of the loop of [_add_counts] on a channel whose data_type
    flag is set: no value of the vector is infinite, and with
    [log10 0 = -inf], a positive divisor and a DS that is neither 0 nor
    NaN, a bin with sum 0 and overflow 0 gives exactly 0. *)
Lemma averaged_counts_clamp_infinities
    (params : parameters) (lm : libm) (s : parser)
    (ping_num freq_ch n t d : Z) (ds : float) :
  dd_int2 "num_bins" ping_num freq_ch s = (inr n, s) ->
  dd_int2 "data_type" ping_num freq_ch s = (inr t, s) -> t <> 0 ->
  channel_divisor ping_num freq_ch s = (inr d, s) ->
  py_index (DS params) freq_ch = inr ds ->
  0 <= n -> 5 * n <= Z.of_nat (List.length (raw s)) ->
  exists v s',
    add_counts_channel params lm ping_num freq_ch s = (inr (AvgCounts v), s') /\
    Z.of_nat (List.length v) = n /\
    (forall x, In x v -> np_isinf x = false) /\
    (m_log10 lm 0 = neg_infinity ->
     0 < d < 2 ^ 53 ->
     is_nan ds = false -> PrimFloat.eqb ds 0 = false ->
     forall i, (i < Z.to_nat n)%nat ->
       be_uint (firstn 4 (skipn (4 * i) (raw s))) = 0 ->
       be_uint (firstn 1 (skipn (4 * Z.to_nat n + i) (raw s))) = 0 ->
       nth i v nan = 0%float).
Proof.
  intros Hbins Htype Hne Hdiv Hds Hn Hlen.
  pose proof (averaged_channel params lm s ping_num freq_ch n t d ds
                Hbins Htype Hne Hdiv Hds Hn Hlen) as Hrun.
  cbv zeta in Hrun. set (k := Z.to_nat n) in *.
  set (ls := unpack_codes (repeat "I"%char k) _) in Hrun.
  set (lso := unpack_codes (repeat "B"%char k) _) in Hrun.
  assert (Hls : List.length ls = k) by now apply (length_unpack_repeat _ 4%nat).
  assert (Hlso : List.length lso = k) by now apply (length_unpack_repeat _ 1%nat).
  eexists _, _. split; [exact Hrun|]. split; [|split].
  - rewrite length_zip_with by congruence. lia.
  - intros x Hx. apply in_zip_with in Hx as (a & b & ->).
    apply log_compress_not_inf.
  - intros Hlog Hd Hnan Hzero i Hi Hsum Hover.
    rewrite (nth_zip_with _ ls lso i 0 0) by lia.
    unfold ls, lso.
    rewrite (nth_unpack_repeat "I"%char 4%nat), (nth_unpack_repeat "B"%char 1%nat)
      by (reflexivity || exact Hi).
    rewrite !window_of_prefix by lia.
    rewrite skipn_skipn.
    replace (i * 4)%nat with (4 * i)%nat by lia.
    replace (i * 1 + k * 4)%nat with (4 * k + i)%nat by lia.
    rewrite Hsum, Hover. now apply log_compress_zero.
Qed.

Lemma averaged_counts_clamp_infinities_witness :
  let s := avg_1_state Byte.x01 zero_bin in
  dd_int2 "num_bins" 0 0 s = (inr 1, s) /\
  dd_int2 "data_type" 0 0 s = (inr 1, s) /\
  1 <> 0 /\
  channel_divisor 0 0 s = (inr 1, s) /\
  py_index (DS params_no_temperature) 0 = inr 1%float /\
  0 <= 1 /\
  5 * 1 <= Z.of_nat (List.length (raw s)) /\
  exists v s',
    add_counts_channel params_no_temperature RefLibm.ref 0 0 s
      = (inr (AvgCounts v), s') /\
    Z.of_nat (List.length v) = 1 /\
    (forall x, In x v -> np_isinf x = false) /\
    nth 0 v nan = 0%float.
Proof.
  intros s.
  assert (H1 : dd_int2 "num_bins" 0 0 s = (inr 1, s))
    by (apply (dd_int2_list _ [PTuple [1]] [1]); vm_compute; reflexivity).
  assert (H2 : dd_int2 "data_type" 0 0 s = (inr 1, s))
    by (apply (dd_int2_list _ [PTuple [1]] [1]); vm_compute; reflexivity).
  assert (H3 : 1 <> 0) by lia.
  assert (H4 : channel_divisor 0 0 s = (inr 1, s)).
  { apply channel_divisor_not_averaged.
    - apply (dd_int_list _ [PInt 0]); vm_compute; reflexivity.
    - apply (dd_int2_list _ [PTuple [1]] [1]); vm_compute; reflexivity. }
  assert (H5 : py_index (DS params_no_temperature) 0 = inr 1%float) by reflexivity.
  assert (H6 : 0 <= 1) by lia.
  assert (H7 : 5 * 1 <= Z.of_nat (List.length (raw s))) by (vm_compute; discriminate).
  refine (conj H1 (conj H2 (conj H3 (conj H4 (conj H5 (conj H6 (conj H7 _))))))).
  destruct (averaged_counts_clamp_infinities params_no_temperature RefLibm.ref
              s 0 0 1 1 1 1%float H1 H2 H3 H4 H5 H6 H7)
    as (v & s' & Hrun & Hlen & Hinf & Hzero).
  exists v, s'. refine (conj Hrun (conj Hlen (conj Hinf _))).
  apply Hzero; try reflexivity; lia.
Defined.

(** A bin with sum 0 and overflow 0 on a channel whose
    range_samples_per_bin is 0: the quotient 0/0 is NaN, which is not
    infinite and is stored as it is. *)
Lemma zero_bin_with_zero_divisor_is_nan :
  fst (add_counts_channel params_no_temperature RefLibm.ref 0 0
         (avg_1_state Byte.x00 zero_bin))
  = inr (AvgCounts [nan]) /\
  PrimFloat.eqb nan 0 = false.
Proof. split; vm_compute; reflexivity. Qed.

Lemma linear_sum_vs_spec ls lso :
  linear_sum ls lso = spec_linear_sum ls lso - lso.
Proof. unfold linear_sum, spec_linear_sum. lia. Qed.

(** C1: on one averaged bin with sum 0 and overflow count 1 (divisor 1,
    DS 1), [_add_counts] takes the logarithm of 4294967295 = 2^32 - 1,
    where [sum + overflow * 2^32] is 4294967296: each overflow is weighed
    with the largest 32-bit value instead of 2^32. *)
Theorem overflow_count_weighs_max_uint32 (lm : libm) :
  let s := avg_1_state Byte.x01
             [Byte.x00; Byte.x00; Byte.x00; Byte.x00; Byte.x01] in
  fst (add_counts_channel params_no_temperature lm 0 0 s)
    = inr (AvgCounts
             [let v := ((m_log10 lm 4294967295 - 2.5) * 524280 * 1)%float in
              if np_isinf v then 0%float else v]) /\
  linear_sum 0 1 = 4294967295 /\
  spec_linear_sum 0 1 = 4294967296 /\
  (Z2f (spec_linear_sum 0 1) / Z2f 1)%float = 4294967296%float /\
  PrimFloat.eqb 4294967295 4294967296 = false.
Proof.
  cbv zeta. split; [vm_compute; reflexivity|].
  repeat split; vm_compute; reflexivity.
Qed.

(** ** Ping times *)

Lemma all_from_spec n f :
  forall z, all_from n z f = true ->
  forall i, z <= i < z + Z.of_nat n -> f i = true.
Proof.
  induction n as [|n IH]; intros z H i Hi; [lia|].
  cbn [all_from] in H. apply andb_prop in H as [Hz Hrest].
  destruct (Z.eq_dec i z) as [->|Hne]; [exact Hz|].
  apply (IH (z + 1) Hrest). lia.
Qed.

(** Every second and hundredths count that stay within the minute, run
    through the float expression. *)
Lemma whole_seconds_checked :
  all_from 60 0
    (fun sec => all_from (Z.to_nat (6000 - 100 * sec)) 0 (seconds_ok sec))
  = true.
Proof. vm_compute. reflexivity. Qed.

Lemma whole_seconds_valid sec h :
  0 <= sec -> 0 <= h -> sec + h / 100 <= 59 ->
  whole_seconds sec h = inr (sec + h / 100).
Proof.
  intros Hs Hh Hle.
  assert (Hdiv : 0 <= h / 100) by (apply Z.div_pos; lia).
  assert (Hlt : h < 6000 - 100 * sec).
  { pose proof (Z.mod_pos_bound h 100 ltac:(lia)).
    pose proof (Z.div_mod h 100 ltac:(lia)). lia. }
  pose proof (all_from_spec _ _ 0 whole_seconds_checked sec ltac:(lia)) as Hrow.
  cbv beta in Hrow.
  pose proof (all_from_spec _ _ 0 Hrow h ltac:(lia)) as Hok.
  unfold seconds_ok in Hok.
  destruct (whole_seconds sec h) as [e|z]; [discriminate|].
  apply Z.eqb_eq in Hok. now subst.
Qed.

Lemma dt_valid c :
  valid_clock c ->
  dt (c_year c) (c_month c) (c_day c) (c_hour c) (c_minute c)
     (c_second c + c_hundredths c / 100)
  = inr (clock_datetime c).
Proof.
  intros (Hy & Hm & Hd & Hh & Hmi & Hs & Hc & Hle).
  assert (0 <= c_hundredths c / 100) by (apply Z.div_pos; lia).
  unfold dt.
  repeat match goal with
         | |- context [?a <=? ?b] => rewrite (proj2 (Z.leb_le a b)) by lia
         end.
  reflexivity.
Qed.

Lemma seconds_of_ms t :
  0 <= dt_second t < 60 ->
  (datetime64_ms t / 1000) mod 60 = dt_second t /\ datetime64_ms t mod 1000 = 0.
Proof.
  intros H. unfold datetime64_ms. split.
  - rewrite Z.div_mul by lia. rewrite Z.add_comm, Z.mod_add by lia.
    now apply Z.mod_small.
  - now apply Z.mod_mul.
Qed.

Lemma py_index_nth_error {T} (l : list T) i x :
  nth_error l i = Some x -> py_index l (Z.of_nat i) = inr x.
Proof.
  intros H.
  assert (Hlt : (i < List.length l)%nat) by (apply nth_error_Some; congruence).
  rewrite (py_index_nth l (Z.of_nat i) x) by lia.
  rewrite Nat2Z.id. f_equal. now apply nth_error_nth.
Qed.

Lemma dd_int_column s k (f : clock -> Z) cs i c :
  unpacked_data s !! k = Some (PyList (map (fun c => PInt (f c)) cs)) ->
  nth_error cs i = Some c ->
  dd_int k (Z.of_nat i) s = (inr (f c), s).
Proof.
  intros Hk Hi. apply (dd_int_list _ _ _ _ _ Hk).
  apply py_index_nth_error. now apply (map_nth_error (fun c => PInt (f c))).
Qed.

Lemma ping_datetime_spec s cs i c :
  has_clocks (unpacked_data s) cs -> nth_error cs i = Some c ->
  valid_clock c ->
  ping_datetime (PInt (c_year c)) (Z.of_nat i) s = (inr (clock_datetime c), s).
Proof.
  intros (_ & Hmo & Hd & Hh & Hmi & Hs & Hc) Hi Hv. unfold ping_datetime.
  rewrite (bind_inr _ _ _ _ _ (dd_int_column s _ c_month cs i c Hmo Hi)).
  rewrite (bind_inr _ _ _ _ _ (dd_int_column s _ c_day cs i c Hd Hi)).
  rewrite (bind_inr _ _ _ _ _ (dd_int_column s _ c_hour cs i c Hh Hi)).
  rewrite (bind_inr _ _ _ _ _ (dd_int_column s _ c_minute cs i c Hmi Hi)).
  rewrite (bind_inr _ _ _ _ _ (dd_int_column s _ c_second cs i c Hs Hi)).
  rewrite (bind_inr _ _ _ _ _ (dd_int_column s _ c_hundredths cs i c Hc Hi)).
  pose proof Hv as (_ & _ & _ & _ & _ & Hsec & Hhun & Hle).
  rewrite (whole_seconds_valid _ _ Hsec Hhun Hle). cbn [lift]. mret.
  cbn [as_int]. mret. now rewrite (dt_valid c Hv).
Qed.

Lemma ping_times_spec s cs :
  has_clocks (unpacked_data s) cs -> Forall valid_clock cs ->
  forall rest i, skipn i cs = rest ->
    ping_times (Z.of_nat i) (map (fun c => PInt (c_year c)) rest) s
    = (inr (map clock_ms rest), s).
Proof.
  intros Hc Hv rest. induction rest as [|c rest IH]; intros i Hskip.
  - reflexivity.
  - assert (Hi : nth_error cs i = Some c).
    { rewrite <- (firstn_skipn i cs) at 1. rewrite Hskip.
      assert (Hlen : (i <= List.length cs)%nat).
      { destruct (Nat.le_gt_cases i (List.length cs)) as [|Hgt]; [assumption|].
        rewrite skipn_all2 in Hskip by lia. discriminate. }
      rewrite nth_error_app2 by (rewrite length_firstn; lia).
      rewrite length_firstn, Nat.min_l, Nat.sub_diag by lia. reflexivity. }
    assert (Hskip' : skipn (S i) cs = rest).
    { replace (S i) with (1 + i)%nat by lia.
      now rewrite <- skipn_skipn, Hskip. }
    assert (Hvc : valid_clock c).
    { rewrite Forall_forall in Hv. apply Hv, list_elem_of_In.
      now apply (nth_error_In cs i). }
    cbn [map ping_times].
    rewrite (bind_inr _ _ _ _ _ (ping_datetime_spec s cs i c Hc Hi Hvc)).
    replace (Z.of_nat i + 1) with (Z.of_nat (S i)) by lia.
    now rewrite (bind_inr _ _ _ _ _ (IH (S i) Hskip')).
Qed.

(** C5: for pings whose time subfields make valid dates, [_get_ping_time]
    assembles one millisecond timestamp per ping whose seconds component is
    [int(second + hundredths / 100)], which is [second] plus the whole
    seconds held by [hundredths]: the fraction of a second is dropped (the
    timestamp is a whole number of seconds), and with [hundredths < 100]
    the seconds component is [second] itself. *)
Theorem ping_time_seconds_are_truncated
    (parse_raw : M unit) (s : parser) (cs : list clock) :
  has_clocks (unpacked_data s) cs ->
  Forall valid_clock cs ->
  _get_ping_time parse_raw s = (inr tt, set_ping_time (map clock_ms cs) s) /\
  Forall (fun c =>
            whole_seconds (c_second c) (c_hundredths c)
              = inr (c_second c + c_hundredths c / 100) /\
            (clock_ms c / 1000) mod 60 = c_second c + c_hundredths c / 100 /\
            clock_ms c mod 1000 = 0 /\
            (c_hundredths c < 100 -> (clock_ms c / 1000) mod 60 = c_second c))
         cs.
Proof.
  intros Hc Hv. split.
  - unfold _get_ping_time.
    destruct Hc as (Hy & Hrest).
    rewrite (bind_inr _ _ _ _ _
               (ensure_parsed_nonempty parse_raw s (lookup_Some_nonempty _ _ _ Hy))).
    rewrite (bind_inr _ _ _ _ _ (dd_get_present _ _ _ Hy)). mret.
    now rewrite (bind_inr _ _ _ _ _
                   (ping_times_spec s cs (conj Hy Hrest) Hv cs 0%nat eq_refl)).
  - rewrite Forall_forall in *. intros c Hin.
    pose proof (Hv c Hin) as Hvc.
    pose proof Hvc as (_ & _ & _ & _ & _ & Hsec & Hhun & Hle).
    assert (Hdiv : 0 <= c_hundredths c / 100) by (apply Z.div_pos; lia).
    destruct (seconds_of_ms (clock_datetime c)) as [Hs Hms]; [cbn; lia|].
    split; [now apply whole_seconds_valid|]. split; [exact Hs|].
    split; [exact Hms|].
    intros Hlt. unfold clock_ms. rewrite Hs. cbn [clock_datetime dt_second].
    rewrite Z.div_small by lia. lia.
Qed.

Lemma ping_time_seconds_are_truncated_witness :
  let cs := [Clock 2020 1 2 3 4 5 60] in
  has_clocks (unpacked_data state_030405_60) cs /\
  Forall valid_clock cs /\
  _get_ping_time (ret tt) state_030405_60
    = (inr tt, set_ping_time [1577934245000] state_030405_60) /\
  whole_seconds 5 60 = inr 5 /\
  (1577934245000 / 1000) mod 60 = 5.
Proof.
  intros cs.
  assert (H1 : has_clocks (unpacked_data state_030405_60) cs)
    by (repeat split; vm_compute; reflexivity).
  assert (H2 : Forall valid_clock cs).
  { repeat constructor; vm_compute; discriminate. }
  destruct (ping_time_seconds_are_truncated (ret tt) state_030405_60 cs H1 H2)
    as [Hrun Hall].
  refine (conj H1 (conj H2 (conj Hrun _))).
  apply Forall_inv in Hall. destruct Hall as (Hw & Hs & _).
  exact (conj Hw Hs).
Defined.

(** ** The uniqueness reducer on several pings *)

Lemma constant_or_varies {T} `{EqDecision T} (l : list T) :
  l <> [] -> (exists v, constant l v) \/ varies l.
Proof.
  destruct l as [|a l]; [congruence|]. intros _.
  destruct (decide (Forall (fun x => x = a) l)) as [Hall|Hnot].
  - left. exists a. split; [discriminate|].
    intros x [<-|Hx]; [reflexivity|].
    rewrite Forall_forall in Hall. now apply Hall, list_elem_of_In.
  - right. apply not_Forall_Exists in Hnot; [|intros x; apply _].
    apply Exists_exists in Hnot as (x & Hx & Hne).
    exists x, a. repeat split; [right; now apply list_elem_of_In|now left|exact Hne].
Qed.

Lemma constant_not_varies {T} (l : list T) v : constant l v -> ~ varies l.
Proof.
  intros [_ Hall] (x & y & Hx & Hy & Hne).
  apply Hne. now rewrite (Hall x Hx), (Hall y Hy).
Qed.

Lemma NoDup_constant {T} (l : list T) v :
  NoDup l -> constant l v -> l = [v].
Proof.
  intros Hnd [Hne Hall]. destruct l as [|a l]; [congruence|].
  pose proof (Hall a (or_introl eq_refl)) as ->.
  destruct l as [|b l]; [reflexivity|].
  pose proof (Hall b (or_intror (or_introl eq_refl))) as ->.
  apply NoDup_cons in Hnd as [Hnotin _]. destruct Hnotin. now left.
Qed.

(** Sorting the distinct values leaves one value exactly when the column
    is constant. *)
Lemma sorted_distinct_singleton {T} `{EqDecision T} (R : relation T)
    `{forall x y, Decision (R x y)} (l : list T) (v : T) :
  merge_sort R (remove_dups l) = [v] <-> constant l v.
Proof.
  split.
  - intros Hs.
    assert (Hd : remove_dups l = [v]).
    { symmetry. apply Permutation_singleton_l. rewrite <- Hs.
      apply merge_sort_Permutation. }
    assert (Hin : forall x, In x l <-> x = v).
    { intros x. rewrite <- list_elem_of_In, <- elem_of_remove_dups, Hd.
      apply list_elem_of_singleton. }
    split; [|intros x Hx; now apply Hin].
    intros ->. now apply (Hin v).
  - intros Hc.
    assert (Hd : remove_dups l = [v]).
    { apply NoDup_constant; [apply NoDup_remove_dups|].
      destruct Hc as [Hne Hall]. split.
      - destruct l as [|a l]; [congruence|]. intros Hnil.
        assert (Ha : a ∈ remove_dups (a :: l))
          by (apply elem_of_remove_dups; now left).
        rewrite Hnil in Ha. now apply elem_of_nil in Ha.
      - intros x Hx. apply Hall, list_elem_of_In, elem_of_remove_dups.
        now apply list_elem_of_In. }
    rewrite Hd. apply Permutation_singleton_r, merge_sort_Permutation.
Qed.

Lemma ints_of_map zs : ints_of (map PInt zs) = inr zs.
Proof. induction zs as [|z zs IH]; cbn; [reflexivity|now rewrite IH]. Qed.

Lemma tuples_of_map rows : tuples_of (map PTuple rows) = inr rows.
Proof. induction rows as [|r rows IH]; cbn; [reflexivity|now rewrite IH]. Qed.

Lemma reduce_include_spec k zs s :
  unpacked_data s !! k = Some (PyList (map PInt zs)) ->
  reduce_include k s = after_field k (verdict_include zs) s.
Proof.
  intros Hk. unfold reduce_include, verdict_include.
  rewrite (bind_inr _ _ _ _ _ (dd_get_present _ _ _ Hk)).
  cbn [flat_ints]. rewrite ints_of_map. cbn [lift]. mret.
  destruct (np_unique zs) as [|z [|z' l]]; reflexivity.
Qed.

Lemma reduce_w_freq_spec k rows s :
  unpacked_data s !! k = Some (PyList (map PTuple rows)) ->
  same_length rows = true ->
  reduce_w_freq k s = after_field k (verdict_w_freq rows) s.
Proof.
  intros Hk Hlen. unfold reduce_w_freq, verdict_w_freq.
  rewrite (bind_inr _ _ _ _ _ (dd_get_present _ _ _ Hk)).
  cbn [rows_of]. rewrite tuples_of_map, Hlen. cbn [lift]. mret.
  destruct (np_unique_rows rows) as [|r [|r' l]]; reflexivity.
Qed.

Lemma verdict_include_constant zs z :
  constant zs z -> verdict_include zs = Some (Arr0 z).
Proof.
  intros Hc. unfold verdict_include, np_unique.
  now rewrite (proj2 (sorted_distinct_singleton Z.le zs z) Hc).
Qed.

Lemma verdict_include_varies zs : varies zs -> verdict_include zs = None.
Proof.
  intros Hv. unfold verdict_include.
  destruct (np_unique zs) as [|z [|z' l]] eqn:E; try reflexivity.
  apply (sorted_distinct_singleton Z.le) in E.
  now destruct (constant_not_varies _ _ E).
Qed.

Lemma verdict_w_freq_constant rows r :
  constant rows r -> verdict_w_freq rows = Some (squeeze r).
Proof.
  intros Hc. unfold verdict_w_freq, np_unique_rows.
  now rewrite (proj2 (sorted_distinct_singleton _ rows r) Hc).
Qed.

Lemma verdict_w_freq_varies rows : varies rows -> verdict_w_freq rows = None.
Proof.
  intros Hv. unfold verdict_w_freq.
  destruct (np_unique_rows rows) as [|r [|r' l]] eqn:E; try reflexivity.
  apply sorted_distinct_singleton in E.
  now destruct (constant_not_varies _ _ E).
Qed.

Lemma reduce_any_spec d k s :
  column_ok d k -> unpacked_data s !! k = d !! k ->
  reduce_any k s = after_field k (verdict d k) s.
Proof.
  unfold column_ok, reduce_any, verdict. intros Hok Hs.
  destruct (str_in k field_w_freq).
  - destruct Hok as (rows & Hk & Hlen). rewrite Hk in *.
    rewrite tuples_of_map. now apply reduce_w_freq_spec.
  - destruct Hok as (zs & Hk). rewrite Hk in *.
    rewrite ints_of_map. now apply reduce_include_spec.
Qed.

Lemma for_each_reduce d0 ks :
  NoDup ks -> (forall k, In k ks -> column_ok d0 k) ->
  forall s, (forall k, In k ks -> unpacked_data s !! k = d0 !! k) ->
  for_each reduce_any ks s
  = (match fst (reduce_all d0 ks (unpacked_data s)) with
     | None => inr tt
     | Some k => inl (not_constant k)
     end,
     set_unpacked_data (snd (reduce_all d0 ks (unpacked_data s))) s).
Proof.
  induction ks as [|k ks IH]; intros Hnd Hok s Hs.
  - cbn. now rewrite set_unpacked_data_id.
  - apply NoDup_cons in Hnd as [Hnotin Hnd].
    cbn [for_each reduce_all].
    pose proof (reduce_any_spec d0 k s (Hok k (or_introl eq_refl))
                  (Hs k (or_introl eq_refl))) as Hstep.
    destruct (verdict d0 k) as [a|]; cbn [after_field] in Hstep.
    + rewrite (bind_inr _ _ _ _ _ Hstep).
      rewrite IH; auto.
      * intros k' Hk'. now apply Hok; right.
      * intros k' Hk'. cbn [unpacked_data set_unpacked_data].
        rewrite lookup_insert_ne; [apply Hs; now right|].
        intros ->. now apply Hnotin, list_elem_of_In.
    + rewrite (bind_inl _ _ _ _ _ Hstep). cbn.
      now rewrite set_unpacked_data_id.
Qed.

Lemma reduce_all_ok d0 ks :
  NoDup ks -> (forall k, In k ks -> exists a, verdict d0 k = Some a) ->
  forall d,
    fst (reduce_all d0 ks d) = None /\
    (forall k, In k ks ->
       snd (reduce_all d0 ks d) !! k = NdArr <$> verdict d0 k) /\
    (forall k, ~ In k ks -> snd (reduce_all d0 ks d) !! k = d !! k).
Proof.
  induction ks as [|k ks IH]; intros Hnd Hall d.
  - cbn. split; [reflexivity|]. split; [intros k []|reflexivity].
  - apply NoDup_cons in Hnd as [Hnotin Hnd].
    destruct (Hall k (or_introl eq_refl)) as [a Ha].
    cbn [reduce_all]. rewrite Ha.
    destruct (IH Hnd (fun k' Hk' => Hall k' (or_intror Hk'))
                (<[k := NdArr a]> d)) as (Hfst & Hin & Hout).
    split; [exact Hfst|]. split.
    + intros k' [<-|Hk']; [|now apply Hin].
      rewrite Hout by (intros Hk; now apply Hnotin, list_elem_of_In).
      now rewrite lookup_insert_eq, Ha.
    + intros k' Hk'. rewrite Hout by (intros Hk; apply Hk'; now right).
      apply lookup_insert_ne. intros ->. apply Hk'. now left.
Qed.

Lemma reduce_all_fail d0 ks :
  (exists k, In k ks /\ verdict d0 k = None) ->
  forall d, exists k,
    fst (reduce_all d0 ks d) = Some k /\ In k ks /\ verdict d0 k = None.
Proof.
  induction ks as [|k ks IH]; intros (k0 & Hin & Hk0) d; [destruct Hin|].
  cbn [reduce_all]. destruct (verdict d0 k) as [a|] eqn:E.
  - destruct Hin as [->|Hin]; [congruence|].
    destruct (IH (ex_intro _ k0 (conj Hin Hk0)) (<[k := NdArr a]> d))
      as (k' & Hfst & Hk' & Hv).
    exists k'. split; [exact Hfst|]. split; [now right|exact Hv].
  - exists k. split; [reflexivity|]. split; [now left|exact E].
Qed.

Lemma for_each_app {T} (f : T -> M unit) (a b : list T) s :
  (for_each f a ≫= fun _ => for_each f b) s = for_each f (a ++ b)%list s.
Proof.
  revert s. induction a as [|x a IH]; intros s; [reflexivity|].
  cbn [for_each app]. unfold mbind, M_bind, bind in *.
  destruct (f x s) as [[e|[]] s1]; [reflexivity|]. apply IH.
Qed.

Lemma str_in_w_freq k : In k field_w_freq -> str_in k field_w_freq = true.
Proof.
  intros H. unfold str_in. apply existsb_exists. exists k.
  split; [exact H|apply String.eqb_refl].
Qed.

Lemma str_in_include k : In k field_include -> str_in k field_w_freq = false.
Proof. intros H. repeat destruct H as [<-|H]; try reflexivity. destruct H. Qed.

Lemma reduced_fields_nodup : NoDup reduced_fields.
Proof. apply (bool_decide_unpack _). vm_compute. exact I. Qed.

Lemma verdict_of_rows d k rows :
  In k field_w_freq -> d !! k = Some (PyList (map PTuple rows)) ->
  verdict d k = verdict_w_freq rows.
Proof.
  intros Hk Hd. unfold verdict.
  now rewrite Hd, (str_in_w_freq k Hk), tuples_of_map.
Qed.

Lemma verdict_of_ints d k zs :
  In k field_include -> d !! k = Some (PyList (map PInt zs)) ->
  verdict d k = verdict_include zs.
Proof.
  intros Hk Hd. unfold verdict.
  now rewrite Hd, (str_in_include k Hk), ints_of_map.
Qed.

Lemma offending_verdict d k : offending d k -> verdict d k = None.
Proof.
  intros [(Hk & rows & Hd & Hv)|(Hk & zs & Hd & Hv)].
  - rewrite (verdict_of_rows d k rows Hk Hd). now apply verdict_w_freq_varies.
  - rewrite (verdict_of_ints d k zs Hk Hd). now apply verdict_include_varies.
Qed.

Lemma length_nonempty {T} (l : list T) n :
  List.length l = n -> (1 <= n)%nat -> l <> [].
Proof. intros Hl Hn ->. cbn in Hl. lia. Qed.

Lemma verdict_cases d n k :
  pings_accumulated d n -> (1 <= n)%nat -> In k reduced_fields ->
  column_ok d k /\
  ((exists a, verdict d k = Some a) \/ (verdict d k = None /\ offending d k)).
Proof.
  intros [Hfreq Hinc] Hn Hk. apply in_app_or in Hk as [Hk|Hk].
  - destruct (Hfreq k Hk) as (rows & Hd & Hlen & Hsame). split.
    + unfold column_ok. rewrite (str_in_w_freq k Hk). eauto.
    + rewrite (verdict_of_rows d k rows Hk Hd).
      destruct (constant_or_varies rows (length_nonempty rows n Hlen Hn))
        as [[r Hc]|Hv].
      * left. rewrite (verdict_w_freq_constant rows r Hc). eauto.
      * right. split; [now apply verdict_w_freq_varies|]. left. eauto.
  - destruct (Hinc k Hk) as (zs & Hd & Hlen). split.
    + unfold column_ok. rewrite (str_in_include k Hk). eauto.
    + rewrite (verdict_of_ints d k zs Hk Hd).
      destruct (constant_or_varies zs (length_nonempty zs n Hlen Hn))
        as [[z Hc]|Hv].
      * left. rewrite (verdict_include_constant zs z Hc). eauto.
      * right. split; [now apply verdict_include_varies|]. right. eauto.
Qed.

(** With [n] pings, [n] other than 1, the reducer runs its two loops. *)
Lemma check_uniqueness_runs parse_raw s n :
  pings_accumulated (unpacked_data s) n -> (2 <= n)%nat ->
  _check_uniqueness parse_raw s
  = (match fst (reduce_all (unpacked_data s) reduced_fields (unpacked_data s)) with
     | None => inr tt
     | Some k => inl (not_constant k)
     end,
     set_unpacked_data
       (snd (reduce_all (unpacked_data s) reduced_fields (unpacked_data s))) s).
Proof.
  intros Hacc Hn. pose proof Hacc as [_ Hinc].
  destruct (Hinc "profile_flag" ltac:(now left)) as (flags & Hflag & Hlen).
  unfold _check_uniqueness.
  rewrite (bind_inr _ _ _ _ _
             (ensure_parsed_nonempty parse_raw s (lookup_Some_nonempty _ _ _ Hflag))).
  rewrite (bind_inr _ _ _ _ _ (dd_get_present _ _ _ Hflag)).
  cbn [flat_ints]. rewrite ints_of_map. cbn [lift]. mret.
  rewrite Hlen. rewrite (proj2 (Nat.eqb_neq n 1)) by lia. cbn [negb].
  change (for_each reduce_w_freq field_w_freq)
    with (for_each reduce_any field_w_freq).
  change (for_each reduce_include field_include)
    with (for_each reduce_any field_include).
  rewrite for_each_app. fold reduced_fields.
  apply for_each_reduce.
  - apply reduced_fields_nodup.
  - intros k Hk. now apply (verdict_cases _ n k Hacc ltac:(lia) Hk).
  - reflexivity.
Qed.

(** With two pings or more accumulated. If no reduced field has two
    differing values, [_check_uniqueness] returns and every reduced field
    holds its single value: the squeezed row for a per-frequency field
    (0-dimensional when the row has one slot), the 0-dimensional scalar for
    a scalar field; other keys are untouched. If some reduced field has two
    differing values, it raises the [ValueError] that names a field with
    differing values. *)
Lemma check_uniqueness_on_several_pings
    (parse_raw : M unit) (s : parser) (n : nat) :
  pings_accumulated (unpacked_data s) n -> (2 <= n)%nat ->
  ((forall k, In k reduced_fields -> ~ offending (unpacked_data s) k) ->
   exists s',
     _check_uniqueness parse_raw s = (inr tt, s') /\
     (forall k rows r,
        In k field_w_freq ->
        unpacked_data s !! k = Some (PyList (map PTuple rows)) ->
        constant rows r ->
        unpacked_data s' !! k = Some (NdArr (squeeze r))) /\
     (forall k zs z,
        In k field_include ->
        unpacked_data s !! k = Some (PyList (map PInt zs)) ->
        constant zs z ->
        unpacked_data s' !! k = Some (NdArr (Arr0 z))) /\
     (forall k, ~ In k reduced_fields ->
        unpacked_data s' !! k = unpacked_data s !! k)) /\
  ((exists k, In k reduced_fields /\ offending (unpacked_data s) k) ->
   exists k s',
     _check_uniqueness parse_raw s = (inl (not_constant k), s') /\
     In k reduced_fields /\ offending (unpacked_data s) k).
Proof.
  intros Hacc Hn.
  pose proof (check_uniqueness_runs parse_raw s n Hacc Hn) as Hrun.
  set (d := unpacked_data s) in *. split.
  - intros Hgood.
    assert (Hall : forall k, In k reduced_fields -> exists a, verdict d k = Some a).
    { intros k Hk.
      destruct (verdict_cases d n k Hacc ltac:(lia) Hk) as [_ [Hsome|[_ Hoff]]];
        [exact Hsome|now destruct (Hgood k Hk)]. }
    destruct (reduce_all_ok d reduced_fields reduced_fields_nodup Hall d)
      as (Hfst & Hin & Hout).
    rewrite Hfst in Hrun. eexists. split; [exact Hrun|].
    cbn [unpacked_data set_unpacked_data]. split; [|split].
    + intros k rows r Hk Hd Hc.
      rewrite Hin by (apply in_or_app; now left).
      now rewrite (verdict_of_rows d k rows Hk Hd),
                  (verdict_w_freq_constant rows r Hc).
    + intros k zs z Hk Hd Hc.
      rewrite Hin by (apply in_or_app; now right).
      now rewrite (verdict_of_ints d k zs Hk Hd),
                  (verdict_include_constant zs z Hc).
    + exact Hout.
  - intros (k0 & Hk0 & Hoff).
    destruct (reduce_all_fail d reduced_fields
                (ex_intro _ k0 (conj Hk0 (offending_verdict d k0 Hoff))) d)
      as (k & Hfst & Hk & Hnone).
    rewrite Hfst in Hrun. eexists k, _. split; [exact Hrun|].
    split; [exact Hk|].
    destruct (verdict_cases d n k Hacc ltac:(lia) Hk) as [_ [[a Ha]|[_ Ho]]];
      [congruence|exact Ho].
Qed.

Lemma two_pings_accumulated : pings_accumulated (unpacked_data two_pings) 2.
Proof.
  split; intros k Hk.
  - exists [[0]; [0]].
    repeat destruct Hk as [<-|Hk]; try (repeat split; vm_compute; reflexivity).
    destruct Hk.
  - destruct Hk as [<-|Hk].
    + exists [64770; 64770]. split; vm_compute; reflexivity.
    + exists [0; 0].
      repeat destruct Hk as [<-|Hk]; try (repeat split; vm_compute; reflexivity).
      destruct Hk.
Qed.

Lemma check_uniqueness_on_several_pings_witness :
  pings_accumulated (unpacked_data two_pings) 2 /\ (2 <= 2)%nat /\
  ((forall k, In k reduced_fields -> ~ offending (unpacked_data two_pings) k) ->
   exists s',
     _check_uniqueness (ret tt) two_pings = (inr tt, s') /\
     (forall k rows r,
        In k field_w_freq ->
        unpacked_data two_pings !! k = Some (PyList (map PTuple rows)) ->
        constant rows r ->
        unpacked_data s' !! k = Some (NdArr (squeeze r))) /\
     (forall k zs z,
        In k field_include ->
        unpacked_data two_pings !! k = Some (PyList (map PInt zs)) ->
        constant zs z ->
        unpacked_data s' !! k = Some (NdArr (Arr0 z))) /\
     (forall k, ~ In k reduced_fields ->
        unpacked_data s' !! k = unpacked_data two_pings !! k)) /\
  ((exists k, In k reduced_fields /\ offending (unpacked_data two_pings) k) ->
   exists k s',
     _check_uniqueness (ret tt) two_pings = (inl (not_constant k), s') /\
     In k reduced_fields /\ offending (unpacked_data two_pings) k).
Proof.
  assert (H2 : (2 <= 2)%nat) by lia.
  exact (conj two_pings_accumulated (conj H2
           (check_uniqueness_on_several_pings (ret tt) two_pings 2
              two_pings_accumulated H2))).
Defined.

Example serial_number_collapsed :
  let r := _check_uniqueness (ret tt) two_pings in
  fst r = inr tt /\
  unpacked_data (snd r) !! "serial_number" = Some (NdArr (Arr0 0)) /\
  unpacked_data (snd r) !! "frequency" = Some (NdArr (Arr0 0)).
Proof. vm_compute. repeat split; reflexivity. Qed.

Example differing_serial_number_raises :
  fst (_check_uniqueness (ret tt) two_serial_numbers)
  = inl (ValueError "Header value serial_number is not constant for each ping").
Proof. vm_compute. reflexivity. Qed.

(** One ping accumulated: its serial number is one identical value for all
    pings, yet the reducer leaves the one-element list in place. *)
Lemma single_ping_serial_number_not_collapsed :
  let r := _check_uniqueness (ret tt) one_ping in
  unpacked_data one_ping !! "serial_number" = Some (PyList [PInt 0]) /\
  fst r = inr tt /\
  unpacked_data (snd r) !! "serial_number" = Some (PyList [PInt 0]).
Proof. vm_compute. repeat split; reflexivity. Qed.

(** ** The reducer on a single ping, and what follows in [parse_raw] *)

Lemma get_ping_time_run parse_raw s cs :
  has_clocks (unpacked_data s) cs -> Forall valid_clock cs ->
  _get_ping_time parse_raw s = (inr tt, set_ping_time (map clock_ms cs) s).
Proof.
  intros Hc Hv. unfold _get_ping_time.
  destruct Hc as (Hy & Hrest).
  rewrite (bind_inr _ _ _ _ _
             (ensure_parsed_nonempty parse_raw s (lookup_Some_nonempty _ _ _ Hy))).
  rewrite (bind_inr _ _ _ _ _ (dd_get_present _ _ _ Hy)). mret.
  now rewrite (bind_inr _ _ _ _ _
                 (ping_times_spec s cs (conj Hy Hrest) Hv cs 0%nat eq_refl)).
Qed.

Lemma check_uniqueness_skips parse_raw s flag :
  unpacked_data s !! "profile_flag" = Some (PyList [PInt flag]) ->
  _check_uniqueness parse_raw s = (inr tt, s).
Proof.
  intros H. unfold _check_uniqueness.
  rewrite (bind_inr _ _ _ _ _
             (ensure_parsed_nonempty parse_raw s (lookup_Some_nonempty _ _ _ H))).
  now rewrite (bind_inr _ _ _ _ _ (dd_get_present _ _ _ H)).
Qed.

Lemma length_one {T} (l : list T) : List.length l = 1%nat -> exists x, l = [x].
Proof. destruct l as [|x [|y l]]; try discriminate. eauto. Qed.

(** C3: with exactly one ping accumulated, for any file, the guard
    [np.array(profile_flag).size != 1] takes the dataset for one that was
    reduced already: [_check_uniqueness] returns without collapsing
    anything, every expected-constant field stays a one-element list where
    the specification promises its single value, and the next statements
    of [parse_raw] fail: after [_get_ping_time], [frequency.astype] is called
    on a list and raises [AttributeError]. *)
Theorem one_ping_is_left_unreduced
    (parse_raw : M unit) (s : parser) (c : clock) :
  pings_accumulated (unpacked_data s) 1 ->
  has_clocks (unpacked_data s) [c] -> valid_clock c ->
  _check_uniqueness parse_raw s = (inr tt, s) /\
  (forall k, In k reduced_fields ->
     exists v, unpacked_data s !! k = Some (PyList [v])) /\
  parse_raw_finish parse_raw s
  = (inl AttributeError, set_ping_time [clock_ms c] s).
Proof.
  intros [Hfreq Hinc] Hc Hv.
  destruct (Hinc "profile_flag" ltac:(now left)) as (zs & Hflag & Hlen).
  destruct (length_one zs Hlen) as [flag ->].
  pose proof (check_uniqueness_skips parse_raw s flag Hflag) as Hskip.
  split; [exact Hskip|]. split.
  - intros k Hk. apply in_app_or in Hk as [Hk|Hk].
    + destruct (Hfreq k Hk) as (rows & Hrows & Hl & _).
      destruct (length_one rows Hl) as [row ->]. now exists (PTuple row).
    + destruct (Hinc k Hk) as (zs & Hzs & Hl).
      destruct (length_one zs Hl) as [z ->]. now exists (PInt z).
  - assert (Hall : Forall valid_clock [c]) by (constructor; [exact Hv|constructor]).
    unfold parse_raw_finish.
    rewrite (bind_inr _ _ _ _ _ Hskip).
    rewrite (bind_inr _ _ _ _ _ (get_ping_time_run parse_raw s [c] Hc Hall)).
    destruct (Hfreq "frequency" ltac:(cbn; tauto)) as (rows & Hrows & _).
    unfold frequency_astype_float64.
    now rewrite (bind_inr _ _ _ _ _
                   (dd_get_present "frequency" _ (set_ping_time _ s) Hrows)).
Qed.

Lemma one_ping_accumulated : pings_accumulated (unpacked_data one_ping) 1.
Proof.
  split; intros k Hk.
  - exists [[0]].
    repeat destruct Hk as [<-|Hk]; try (repeat split; vm_compute; reflexivity).
    destruct Hk.
  - destruct Hk as [<-|Hk].
    + exists [64770]. split; vm_compute; reflexivity.
    + exists [0].
      repeat destruct Hk as [<-|Hk]; try (repeat split; vm_compute; reflexivity).
      destruct Hk.
Qed.

Lemma one_ping_is_left_unreduced_witness :
  _check_uniqueness (ret tt) one_ping = (inr tt, one_ping) /\
  (forall k, In k reduced_fields ->
     exists v, unpacked_data one_ping !! k = Some (PyList [v])) /\
  parse_raw_finish (ret tt) one_ping
  = (inl AttributeError,
     set_ping_time [clock_ms (Clock 2020 1 2 0 0 0 0)] one_ping).
Proof.
  apply (one_ping_is_left_unreduced (ret tt) one_ping (Clock 2020 1 2 0 0 0 0)).
  - exact one_ping_accumulated.
  - repeat split; vm_compute; reflexivity.
  - repeat split; vm_compute; discriminate.
Defined.

(** ** The read loop ends *)

Create HintDb shrink.

Lemma shrinks_ret {T} (x : T) : shrinks (ret x).
Proof. intros s. cbn. lia. Qed.

Lemma shrinks_raise {T} (e : exn) : shrinks (@raise T e).
Proof. intros s. cbn. lia. Qed.

Lemma shrinks_lift {T} (r : exn + T) : shrinks (lift r).
Proof. destruct r; [apply shrinks_raise|apply shrinks_ret]. Qed.

Lemma shrinks_bind {T U} (m : M T) (f : T -> M U) :
  shrinks m -> (forall x, shrinks (f x)) -> shrinks (m ≫= f).
Proof.
  intros Hm Hf s. unfold mbind, M_bind, bind. specialize (Hm s).
  destruct (m s) as [[e|x] s1]; cbn in *; [exact Hm|].
  specialize (Hf x s1). lia.
Qed.

Lemma shrinks_read n : shrinks (read n).
Proof.
  intros s. unfold read. destruct (n <? 0); cbn; [lia|].
  rewrite length_skipn. lia.
Qed.

Lemma shrinks_dd_get k : shrinks (dd_get k).
Proof. intros s. unfold dd_get. destruct (_ !! _); cbn; lia. Qed.

Lemma shrinks_dd_set k e : shrinks (dd_set k e).
Proof. intros s. cbn. lia. Qed.

Lemma shrinks_add_log r : shrinks (modify (add_log r)).
Proof. intros s. cbn. lia. Qed.

#[local] Hint Resolve shrinks_ret shrinks_raise shrinks_lift shrinks_read
  shrinks_dd_get shrinks_dd_set shrinks_add_log : shrink.

(** Binds, branches and the known computations, taken apart. *)
Ltac shrink :=
  repeat first
    [ solve [auto with shrink]
    | apply shrinks_bind; [|intros ?]
    | match goal with
      | |- shrinks (match ?x with _ => _ end) => destruct x
      end ].

Lemma shrinks_dd_append k v : shrinks v -> shrinks (dd_append k v).
Proof. intros Hv. unfold dd_append. shrink. Qed.

Lemma shrinks_dd_item k i : shrinks (dd_item k i).
Proof. unfold dd_item. shrink. Qed.

Lemma shrinks_as_int v : shrinks (as_int v).
Proof. unfold as_int. shrink. Qed.

Lemma shrinks_as_float v : shrinks (as_float v).
Proof. unfold as_float. shrink. Qed.

Lemma shrinks_item_index v j : shrinks (item_index v j).
Proof. unfold item_index. shrink. Qed.

#[local] Hint Resolve shrinks_dd_append shrinks_dd_item shrinks_as_int
  shrinks_as_float shrinks_item_index : shrink.

Lemma shrinks_dd_int k i : shrinks (dd_int k i).
Proof. unfold dd_int. shrink. Qed.

Lemma shrinks_dd_int2 k i j : shrinks (dd_int2 k i j).
Proof. unfold dd_int2. shrink. Qed.

#[local] Hint Resolve shrinks_dd_int shrinks_dd_int2 : shrink.

Lemma shrinks_split_fields params hdr fields :
  forall cnt, shrinks (split_fields params hdr fields cnt).
Proof.
  induction fields as [|f fs IH]; intros cnt; cbn [split_fields]; shrink.
Qed.

#[local] Hint Resolve shrinks_split_fields : shrink.

Lemma shrinks_split_header params hdr : shrinks (_split_header params hdr).
Proof. unfold _split_header. shrink. Qed.

Lemma shrinks_channel_divisor i j : shrinks (channel_divisor i j).
Proof. unfold channel_divisor. shrink. Qed.

#[local] Hint Resolve shrinks_split_header shrinks_channel_divisor : shrink.

Lemma shrinks_add_counts_channel params lm i j :
  shrinks (add_counts_channel params lm i j).
Proof. unfold add_counts_channel. shrink. Qed.

#[local] Hint Resolve shrinks_add_counts_channel : shrink.

Lemma shrinks_add_counts_channels params lm i n :
  forall j, shrinks (add_counts_channels params lm i j n).
Proof. induction n as [|n IH]; intros j; cbn [add_counts_channels]; shrink. Qed.

#[local] Hint Resolve shrinks_add_counts_channels : shrink.

Lemma shrinks_add_counts params lm i : shrinks (_add_counts params lm i).
Proof. unfold _add_counts. shrink. Qed.

Lemma shrinks_compute_temperature params lm i b :
  shrinks (_compute_temperature params lm i b).
Proof. unfold _compute_temperature. shrink. Qed.

Lemma shrinks_compute_tilt params i xy b : shrinks (_compute_tilt params i xy b).
Proof. unfold _compute_tilt. shrink. Qed.

Lemma shrinks_compute_battery i b : shrinks (_compute_battery i b).
Proof. unfold _compute_battery. shrink. Qed.

Lemma shrinks_py_square lm x : shrinks (py_square lm x).
Proof. unfold py_square. shrink. Qed.

#[local] Hint Resolve shrinks_add_counts shrinks_compute_temperature
  shrinks_compute_tilt shrinks_compute_battery shrinks_py_square : shrink.

Lemma shrinks_cos_tilt_mag lm i : shrinks (cos_tilt_mag lm i).
Proof. unfold cos_tilt_mag. shrink. Qed.

Lemma shrinks_ping_datetime y i : shrinks (ping_datetime y i).
Proof. unfold ping_datetime. shrink. Qed.

#[local] Hint Resolve shrinks_cos_tilt_mag shrinks_ping_datetime : shrink.

Lemma shrinks_print_status src xml : shrinks (_print_status src xml).
Proof. unfold _print_status. shrink. Qed.

#[local] Hint Resolve shrinks_print_status : shrink.

Lemma shrinks_parse_ping params lm src xml i tv xv yv :
  shrinks (parse_ping params lm src xml i tv xv yv).
Proof. unfold parse_ping. shrink. Qed.

(** With more fuel than bytes left, the loop is never cut short: it ends
    at the end of the file, at an unexpected flag, or by raising. *)
Lemma parse_loop_fuel params lm src xml tv xv yv :
  forall fuel ping_num s,
    (List.length (raw s) < fuel)%nat ->
    fst (parse_loop params lm src xml fuel ping_num tv xv yv s) <> inr None.
Proof.
  induction fuel as [|fuel IH]; intros ping_num s Hlt; [lia|].
  cbn [parse_loop]. unfold mbind at 1, M_bind at 1, bind at 1.
  unfold read. change (HEADER_SIZE <? 0) with false. cbv iota.
  destruct (firstn (Z.to_nat HEADER_SIZE) (raw s)) as [|c chunk] eqn:Hchunk;
    [discriminate|].
  assert (Hshort : (List.length (skipn (Z.to_nat HEADER_SIZE) (raw s))
                    < List.length (raw s))%nat).
  { rewrite length_skipn. change (Z.to_nat HEADER_SIZE) with 124%nat in *.
    destruct (raw s); [discriminate Hchunk|]. cbn [List.length]. lia. }
  set (s1 := set_raw _ s) in *.
  assert (H1 : (List.length (raw s1) < fuel)%nat) by (cbn; lia).
  unfold mbind at 1, M_bind at 1, bind at 1.
  destruct (unpack HEADER_FORMAT (c :: chunk)) as [e|hdr]; [discriminate|].
  cbn [lift ret].
  unfold mbind at 1, M_bind at 1, bind at 1.
  pose proof (shrinks_split_header params hdr s1) as H2.
  destruct (_split_header params hdr s1) as [[e|[|]] s2]; cbn in H2;
    [discriminate| |discriminate].
  unfold mbind at 1, M_bind at 1, bind at 1.
  pose proof (shrinks_parse_ping params lm src xml ping_num tv xv yv s2) as H3.
  destruct (parse_ping params lm src xml ping_num tv xv yv s2) as [[e|[]] s3];
    cbn in H3; [discriminate|].
  apply IH. lia.
Qed.

(** [parse_raw_read] always comes to one of its three ends. *)
Lemma parse_raw_read_total params lm src xml s :
  fst (parse_raw_read params lm src xml s) <> inr None.
Proof. unfold parse_raw_read. apply parse_loop_fuel. lia. Qed.

(** * Further properties *)

(** ** Ends of the read loop *)

Lemma set_raw_nil s : raw s = [] -> set_raw [] s = s.
Proof. intros H. destruct s. cbn in *. now subst. Qed.

(** X1: on a file with no byte left the loop stops at once with
    [EndOfFile]; nothing is read, logged or stored. *)
Theorem read_loop_on_empty_file
    (params : parameters) (lm : libm) (source_file xml_path : string)
    (s : parser) :
  raw s = [] ->
  parse_raw_read params lm source_file xml_path s = (inr (Some EndOfFile), s).
Proof.
  intros H. unfold parse_raw_read. rewrite H. cbn [List.length parse_loop].
  unfold mbind, M_bind, bind, read. rewrite H. cbn.
  now rewrite set_raw_nil.
Qed.

Lemma read_loop_on_empty_file_witness :
  raw (fresh []) = [] /\
  parse_raw_read params_no_temperature RefLibm.ref "f.01A" "f.XML" (fresh [])
  = (inr (Some EndOfFile), fresh []).
Proof.
  split; [reflexivity|].
  apply (read_loop_on_empty_file params_no_temperature RefLibm.ref
           "f.01A" "f.XML" (fresh [])). reflexivity.
Defined.

Lemma unpack_header_short chunk :
  List.length chunk <> 124%nat -> unpack HEADER_FORMAT chunk = inl StructError.
Proof.
  intros H. unfold unpack.
  change (fmt_codes HEADER_FORMAT) with (Some header_codes).
  cbv beta iota.
  assert (E : calcsize_codes header_codes = Some 124%nat) by reflexivity.
  rewrite E. now rewrite (proj2 (Nat.eqb_neq _ _) H).
Qed.

(** X2: when between 1 and 123 bytes are left where a header should start,
    the loop raises [struct.error]: the bytes are consumed, and the
    dataset and the log stay as they were. *)
Theorem truncated_header_raises_struct_error
    (params : parameters) (lm : libm) (source_file xml_path : string)
    (s : parser) (fuel : nat) (ping_num : Z) (tv xv yv : bool) :
  (0 < List.length (raw s) < 124)%nat ->
  parse_loop params lm source_file xml_path (S fuel) ping_num tv xv yv s
  = (inl StructError, set_raw [] s).
Proof.
  intros Hlen. cbn [parse_loop].
  rewrite (bind_inr _ _ _ _ _ (read_prefix HEADER_SIZE s ltac:(discriminate))).
  change (Z.to_nat HEADER_SIZE) with 124%nat.
  rewrite firstn_all2, skipn_all2 by lia.
  destruct (raw s) as [|c chunk] eqn:E; [cbn in Hlen; lia|].
  rewrite unpack_header_short by lia. reflexivity.
Qed.

Lemma truncated_header_raises_struct_error_witness :
  (0 < List.length (raw (fresh [Byte.xfd; Byte.x02])) < 124)%nat /\
  parse_loop params_no_temperature RefLibm.ref "f.01A" "f.XML" 1 0
    false false false (fresh [Byte.xfd; Byte.x02])
  = (inl StructError, set_raw [] (fresh [Byte.xfd; Byte.x02])).
Proof.
  assert (H : (0 < List.length (raw (fresh [Byte.xfd; Byte.x02])) < 124)%nat)
    by (cbn; lia).
  exact (conj H (truncated_header_raises_struct_error params_no_temperature
                   RefLibm.ref "f.01A" "f.XML" (fresh [Byte.xfd; Byte.x02])
                   0 0 false false false H)).
Defined.

Lemma split_header_false params hdr s s' :
  _split_header params hdr s = (inr false, s') ->
  log s' = (log s ++ [LogError "Unknown file type"])%list.
Proof.
  unfold _split_header, mbind, M_bind, bind, lift, ret, read, modify.
  destruct (py_index hdr 0) as [e|flag]; [discriminate|].
  destruct (negb (flag =? FILE_TYPE)); cbn -[split_fields].
  - destruct (firstn (Z.to_nat 1) (raw s)) as [|b l]; cbv beta iota.
    + match goal with
      | |- context [split_fields ?a ?b ?c ?d ?e] =>
          destruct (split_fields a b c d e) as [[?|?] ?]
      end; discriminate.
    + now intros [= <-].
  - match goal with
    | |- context [split_fields ?a ?b ?c ?d ?e] =>
        destruct (split_fields a b c d e) as [[?|?] ?]
    end; discriminate.
Qed.

Lemma parse_loop_ends params lm src xml tv xv yv :
  forall fuel ping_num s,
    (List.length (raw s) < fuel)%nat ->
    match parse_loop params lm src xml fuel ping_num tv xv yv s with
    | (inr None, _) => False
    | (inr (Some EndOfFile), s') => raw s' = []
    | (inr (Some UnexpectedFlag), s') =>
        exists l, log s' = (l ++ [LogError "Unknown file type"])%list
    | (inl _, _) => True
    end.
Proof.
  induction fuel as [|fuel IH]; intros ping_num s Hlt; [lia|].
  cbn [parse_loop]. unfold mbind at 1, M_bind at 1, bind at 1.
  unfold read. change (HEADER_SIZE <? 0) with false. cbv iota.
  change (Z.to_nat HEADER_SIZE) with 124%nat.
  destruct (firstn 124 (raw s)) as [|c chunk] eqn:Hchunk.
  { cbn. destruct (raw s); [reflexivity|discriminate Hchunk]. }
  assert (Hshort : (List.length (skipn 124 (raw s)) < List.length (raw s))%nat).
  { rewrite length_skipn. destruct (raw s); [discriminate Hchunk|].
    cbn [List.length]. lia. }
  set (s1 := set_raw _ s) in *.
  unfold mbind at 1, M_bind at 1, bind at 1.
  destruct (unpack HEADER_FORMAT (c :: chunk)) as [e|hdr]; [exact I|].
  cbn [lift ret].
  unfold mbind at 1, M_bind at 1, bind at 1.
  pose proof (shrinks_split_header params hdr s1) as H2.
  destruct (_split_header params hdr s1) as [[e|[|]] s2] eqn:Hsplit;
    cbn in H2; [exact I| |].
  - unfold mbind at 1, M_bind at 1, bind at 1.
    pose proof (shrinks_parse_ping params lm src xml ping_num tv xv yv s2) as H3.
    destruct (parse_ping params lm src xml ping_num tv xv yv s2) as [[e|[]] s3];
      cbn in H3; [exact I|].
    apply IH. cbn in Hshort. lia.
  - cbn. eexists. now apply (split_header_false params hdr s1).
Qed.

(** X3: the read loop always ends, in one of three ways: by raising, at
    the end of the file (then no byte is left), or at an unexpected flag
    (then "Unknown file type" is the last line logged). *)
Theorem read_loop_terminates
    (params : parameters) (lm : libm) (source_file xml_path : string)
    (s : parser) :
  match parse_raw_read params lm source_file xml_path s with
  | (inr None, _) => False
  | (inr (Some EndOfFile), s') => raw s' = []
  | (inr (Some UnexpectedFlag), s') =>
      exists l, log s' = (l ++ [LogError "Unknown file type"])%list
  | (inl _, _) => True
  end.
Proof. unfold parse_raw_read. apply parse_loop_ends. lia. Qed.

(** ** What [_split_header] stores *)

(** [_split_header] on a header that starts with the marker. *)
Lemma split_header_run
    (params : parameters) (hdr : list Z) (s : parser) :
  List.length hdr = 67%nat ->
  nth 0 hdr 0 = FILE_TYPE ->
  accumulating (unpacked_data s) ->
  exists s',
    _split_header params hdr s = (inr true, s') /\
    raw s' = raw s /\ log s' = log s /\ ping_time s' = ping_time s /\
    accumulating (unpacked_data s') /\
    (forall pre fld post,
       HEADER_FIELDS = (pre ++ fld :: post)%list ->
       column (unpacked_data s') (f_name fld)
       = (column (unpacked_data s) (f_name fld)
            ++ [stored (num_freq params) hdr fld (total_slots pre)])%list) /\
    (forall k, ~ In k (map f_name HEADER_FIELDS) ->
       unpacked_data s' !! k = unpacked_data s !! k).
Proof.
  intros Hlen Hflag Hacc.
  pose proof header_fields_widths as Hw. rewrite Forall_forall in Hw.
  destruct (split_fields_spec params hdr HEADER_FIELDS 0 s)
    as (d' & Hrun & Hacc' & Hother & Hmine).
  { apply header_fields_nodup. }
  { exact Hacc. }
  { lia. }
  { intros fld Hin. now apply Hw, list_elem_of_In. }
  { rewrite Hlen. vm_compute. discriminate. }
  { intros fld Hin. now apply Hw, list_elem_of_In. }
  exists (set_unpacked_data d' s). split.
  { unfold _split_header. destruct hdr as [|h0 hdr']; [discriminate|].
    rewrite py_index_0. cbn [nth] in Hflag. subst h0.
    cbv beta iota delta [mbind M_bind bind ret lift].
    rewrite Z.eqb_refl. cbn [negb].
    change (mbind ?f ?m) with (bind f m) in Hrun. now rewrite Hrun. }
  repeat (split; [reflexivity || assumption|]).
  split; [|exact Hother].
  intros pre fld post Heq. cbn [unpacked_data set_unpacked_data].
  unfold column at 1. now rewrite (Hmine pre fld post Heq).
Qed.



(** ** Bounds and short payloads in [_add_counts] *)




Lemma unpack_repeat_short c w k buf :
  code_size c = Some w -> List.length buf <> (k * w)%nat ->
  unpack (String ">" (str_repeat (String c EmptyString) k)) buf
  = inl StructError.
Proof.
  intros Hc Hlen. unfold unpack, fmt_codes.
  rewrite codes_str_repeat, (calcsize_repeat c w k Hc).
  now rewrite (proj2 (Nat.eqb_neq _ _) Hlen).
Qed.

(** X6: a raw channel whose [2 * num_bins] payload bytes are not all in
    the file raises [struct.error], and what was left of the file has been
    consumed. *)
Theorem truncated_raw_payload_raises
    (params : parameters) (lm : libm) (s : parser) (ping_num freq_ch n : Z) :
  dd_int2 "num_bins" ping_num freq_ch s = (inr n, s) ->
  dd_int2 "data_type" ping_num freq_ch s = (inr 0, s) ->
  Z.of_nat (List.length (raw s)) < 2 * n ->
  add_counts_channel params lm ping_num freq_ch s
  = (inl StructError, set_raw [] s).
Proof.
  intros Hbins Htype Hlen. unfold add_counts_channel.
  rewrite (bind_inr _ _ _ _ _ Hbins), (bind_inr _ _ _ _ _ Htype).
  cbn [Z.eqb negb].
  rewrite (bind_inr _ _ _ _ _ (read_prefix (n * 2) s ltac:(lia))).
  rewrite firstn_all2, skipn_all2 by lia.
  change (">" ++ str_repeat "H" (Z.to_nat n))%string
    with (String ">" (str_repeat (String "H" EmptyString) (Z.to_nat n))).
  rewrite (unpack_repeat_short "H"%char 2%nat) by (reflexivity || lia).
  reflexivity.
Qed.

Lemma truncated_raw_payload_raises_witness :
  let s := set_raw [Byte.x00; Byte.x01] raw_3_state in
  dd_int2 "num_bins" 0 0 s = (inr 3, s) /\
  dd_int2 "data_type" 0 0 s = (inr 0, s) /\
  Z.of_nat (List.length (raw s)) < 2 * 3 /\
  add_counts_channel params_no_temperature RefLibm.ref 0 0 s
  = (inl StructError, set_raw [] s).
Proof.
  intros s.
  assert (H1 : dd_int2 "num_bins" 0 0 s = (inr 3, s))
    by (apply (dd_int2_list _ [PTuple [3]] [3]); vm_compute; reflexivity).
  assert (H2 : dd_int2 "data_type" 0 0 s = (inr 0, s))
    by (apply (dd_int2_list _ [PTuple [0]] [0]); vm_compute; reflexivity).
  assert (H3 : Z.of_nat (List.length (raw s)) < 2 * 3) by (cbn; lia).
  exact (conj H1 (conj H2 (conj H3
           (truncated_raw_payload_raises params_no_temperature RefLibm.ref
              s 0 0 3 H1 H2 H3)))).
Defined.

(** ** The payload of a ping *)

Lemma dd_int_holds s k i v :
  holds (unpacked_data s) k i (PInt v) -> dd_int k i s = (inr v, s).
Proof. intros (l & Hk & Hi). now apply (dd_int_list k l). Qed.

Lemma dd_int2_holds s k i j t v :
  holds (unpacked_data s) k i (PTuple t) -> py_index t j = inr v ->
  dd_int2 k i j s = (inr v, s).
Proof. intros (l & Hk & Hi) Hj. now apply (dd_int2_list k l t). Qed.

(** The raw branch of [_add_counts] on a channel of [n] bins. *)
Lemma raw_channel params lm s ping_num freq_ch n :
  dd_int2 "num_bins" ping_num freq_ch s = (inr n, s) ->
  dd_int2 "data_type" ping_num freq_ch s = (inr 0, s) ->
  0 <= n -> 2 * n <= Z.of_nat (List.length (raw s)) ->
  let k := Z.to_nat n in
  add_counts_channel params lm ping_num freq_ch s
  = (inr (RawCounts (unpack_codes (repeat "H"%char k) (firstn (k * 2) (raw s)))),
     set_raw (skipn (k * 2) (raw s)) s).
Proof.
  intros Hbins Htype Hn Hlen k. unfold add_counts_channel.
  rewrite (bind_inr _ _ _ _ _ Hbins), (bind_inr _ _ _ _ _ Htype).
  cbn [Z.eqb negb].
  rewrite (bind_inr _ _ _ _ _ (read_prefix (n * 2) s ltac:(lia))).
  replace (Z.to_nat (n * 2)) with (k * 2)%nat by lia.
  change (">" ++ str_repeat "H" (Z.to_nat n))%string
    with (String ">" (str_repeat (String "H" EmptyString) k)).
  rewrite (unpack_repeat "H"%char 2%nat k) by
    (reflexivity || (rewrite length_firstn; lia)).
  reflexivity.
Qed.

Lemma skipn_cons_nth {T} (l : list T) (j : nat) (d : T) :
  (j < List.length l)%nat -> skipn j l = nth j l d :: skipn (S j) l.
Proof.
  revert j. induction l as [|x l IH]; intros [|j] H; cbn in *; try lia.
  - reflexivity.
  - apply IH. lia.
Qed.

Lemma channel_bytes_nonneg dt nb : 0 <= nb -> 0 <= channel_bytes dt nb.
Proof. intros H. unfold channel_bytes. destruct (dt =? 0); lia. Qed.

Lemma payload_bytes_nonneg dts nbs n :
  Forall (fun nb => 0 <= nb) nbs -> 0 <= payload_bytes dts nbs n.
Proof.
  intros Hall. revert dts nbs Hall.
  induction n as [|n IH]; intros [|dt dts] [|nb nbs] Hall; cbn; try lia.
  apply Forall_cons in Hall as [Hnb Hall].
  pose proof (channel_bytes_nonneg dt nb Hnb). specialize (IH dts nbs Hall). lia.
Qed.

Lemma channels_run params lm s ping_num n nbs dts rss avg ppp :
  header_at (unpacked_data s) ping_num n nbs dts rss avg ppp ->
  Forall (fun nb => 0 <= nb) nbs ->
  forall (m j : nat) (r : list Byte.byte),
    (j + m <= List.length nbs)%nat -> (j + m <= List.length dts)%nat ->
    (j + m <= List.length rss)%nat -> (j + m <= List.length (DS params))%nat ->
    payload_bytes (skipn j dts) (skipn j nbs) m <= Z.of_nat (List.length r) ->
    exists vv,
      add_counts_channels params lm ping_num (Z.of_nat j) m (set_raw r s)
      = (inr vv,
         set_raw (skipn (Z.to_nat (payload_bytes (skipn j dts) (skipn j nbs) m)) r) s) /\
      map samples_length vv = map Z.to_nat (firstn m (skipn j nbs)) /\
      map is_raw vv = map (fun dt => dt =? 0) (firstn m (skipn j dts)).
Proof.
  intros (_ & Hnb & Hdt & Hrs & Havg & Hppp) Hpos.
  induction m as [|m IH]; intros j r Lnb Ldt Lrs Lds Hbytes.
  - exists []. cbn [add_counts_channels]. unfold ret.
    destruct (skipn j dts), (skipn j nbs); cbn; auto.
  - rewrite (skipn_cons_nth nbs j 0), (skipn_cons_nth dts j 0) in * by lia.
    set (nb := nth j nbs 0) in *. set (dt := nth j dts 0) in *.
    cbn [payload_bytes firstn map] in *.
    assert (Hnbpos : 0 <= nb).
    { rewrite Forall_forall in Hpos. apply Hpos, list_elem_of_In, nth_In. lia. }
    assert (Hrest : 0 <= payload_bytes (skipn (S j) dts) (skipn (S j) nbs) m).
    { apply payload_bytes_nonneg. rewrite Forall_forall in *.
      intros x Hx. apply Hpos.
      rewrite <- (firstn_skipn (S j) nbs). apply elem_of_app. now right. }
    set (sr := set_raw r s).
    assert (Hbins : dd_int2 "num_bins" ping_num (Z.of_nat j) sr = (inr nb, sr)).
    { apply (dd_int2_holds sr _ _ _ nbs); [exact Hnb|].
      rewrite (py_index_nth nbs (Z.of_nat j) 0) by lia. now rewrite Nat2Z.id. }
    assert (Htype : dd_int2 "data_type" ping_num (Z.of_nat j) sr = (inr dt, sr)).
    { apply (dd_int2_holds sr _ _ _ dts); [exact Hdt|].
      rewrite (py_index_nth dts (Z.of_nat j) 0) by lia. now rewrite Nat2Z.id. }
    cbn [add_counts_channels].
    assert (Hchan : exists v,
               add_counts_channel params lm ping_num (Z.of_nat j) sr
               = (inr v, set_raw (skipn (Z.to_nat (channel_bytes dt nb)) r) s) /\
               samples_length v = Z.to_nat nb /\ is_raw v = (dt =? 0)).
    { unfold channel_bytes in *. destruct (Z.eqb_spec dt 0) as [Hz|Hnz].
      - rewrite Hz in Htype.
        pose proof (raw_channel params lm sr ping_num (Z.of_nat j) nb
                      Hbins Htype Hnbpos ltac:(cbn; lia)) as Hrun.
        cbv zeta in Hrun. eexists. split; [|split].
        + rewrite Hrun. cbn [raw set_raw sr]. unfold sr.
          rewrite set_raw_twice. do 3 f_equal. lia.
        + cbn [samples_length]. now apply (length_unpack_repeat _ 2%nat).
        + reflexivity.
      - set (rs := nth j rss 0).
        assert (Hrsj : dd_int2 "range_samples_per_bin" ping_num (Z.of_nat j) sr
                       = (inr rs, sr)).
        { apply (dd_int2_holds sr _ _ _ rss); [exact Hrs|].
          rewrite (py_index_nth rss (Z.of_nat j) 0) by lia. now rewrite Nat2Z.id. }
        assert (Hdiv : exists d, channel_divisor ping_num (Z.of_nat j) sr = (inr d, sr)).
        { destruct (Z.eq_dec avg 0) as [->|Havg0].
          - exists rs. apply channel_divisor_not_averaged; [|exact Hrsj].
            now apply dd_int_holds.
          - exists (ppp * rs).
            apply (channel_divisor_averaged sr _ _ avg); auto;
              now apply dd_int_holds. }
        destruct Hdiv as [d Hdiv].
        assert (Hds : py_index (DS params) (Z.of_nat j)
                      = inr (nth j (DS params) 0%float)).
        { rewrite (py_index_nth _ (Z.of_nat j) 0%float) by lia.
          now rewrite Nat2Z.id. }
        pose proof (averaged_channel params lm sr ping_num (Z.of_nat j) nb dt d _
                      Hbins Htype Hnz Hdiv Hds Hnbpos ltac:(cbn; lia)) as Hrun.
        cbv zeta in Hrun. eexists. split; [|split].
        + rewrite Hrun. cbn [raw set_raw sr]. unfold sr.
          rewrite set_raw_twice. do 3 f_equal. lia.
        + cbn [samples_length]. rewrite length_zip_with.
          * now apply (length_unpack_repeat _ 4%nat).
          * now rewrite (length_unpack_repeat _ 4%nat),
                        (length_unpack_repeat _ 1%nat).
        + reflexivity. }
    destruct Hchan as (v & Hv & Hvlen & Hvraw).
    rewrite (bind_inr _ _ _ _ _ Hv).
    pose proof (channel_bytes_nonneg dt nb Hnbpos) as Hcb.
    destruct (IH (S j) (skipn (Z.to_nat (channel_bytes dt nb)) r))
      as (vs & Hvs & Hlens & Hraws); try lia.
    { rewrite length_skipn. lia. }
    replace (Z.of_nat j + 1) with (Z.of_nat (S j)) by lia.
    rewrite (bind_inr _ _ _ _ _ Hvs). exists (v :: vs). split; [|split].
    + unfold mret, M_ret, ret. rewrite skipn_skipn. do 3 f_equal. lia.
    + cbn [map]. now rewrite Hvlen, Hlens.
    + cbn [map]. now rewrite Hvraw, Hraws.
Qed.

(** [_add_counts] on a ping whose payload is in the file. *)
Lemma add_counts_run
    (params : parameters) (lm : libm) (s : parser)
    (ping_num n : Z) (nbs dts rss : list Z) (avg ppp : Z) :
  header_at (unpacked_data s) ping_num n nbs dts rss avg ppp ->
  Forall (fun nb => 0 <= nb) nbs ->
  0 <= n ->
  (Z.to_nat n <= List.length nbs)%nat -> (Z.to_nat n <= List.length dts)%nat ->
  (Z.to_nat n <= List.length rss)%nat ->
  (Z.to_nat n <= List.length (DS params))%nat ->
  payload_bytes dts nbs (Z.to_nat n) <= Z.of_nat (List.length (raw s)) ->
  (forall a, unpacked_data s !! "counts" <> Some (NdArr a)) ->
  exists vv,
    _add_counts params lm ping_num s
    = (inr tt,
       set_unpacked_data
         (<["counts" := PyList (column (unpacked_data s) "counts" ++ [PCounts vv])]>
            (unpacked_data s))
         (set_raw (skipn (Z.to_nat (payload_bytes dts nbs (Z.to_nat n))) (raw s)) s)) /\
    map samples_length vv = map Z.to_nat (firstn (Z.to_nat n) nbs) /\
    map is_raw vv = map (fun dt => dt =? 0) (firstn (Z.to_nat n) dts).
Proof.
  intros Hhdr Hpos Hn Lnb Ldt Lrs Lds Hbytes Hcounts.
  destruct (channels_run params lm s ping_num n nbs dts rss avg ppp Hhdr Hpos
              (Z.to_nat n) 0%nat (raw s) Lnb Ldt Lrs Lds Hbytes)
    as (vv & Hrun & Hlens & Hraws).
  cbn [skipn] in Hrun, Hlens, Hraws. rewrite set_raw_id in Hrun.
  exists vv. split; [|split; assumption].
  unfold _add_counts.
  rewrite (bind_inr _ _ _ _ _ (dd_int_holds s _ _ _ (proj1 Hhdr))).
  change 0 with (Z.of_nat 0). rewrite (bind_inr _ _ _ _ _ Hrun).
  set (s1 := set_raw _ s).
  unfold dd_append, column.
  change (unpacked_data s1) with (unpacked_data s).
  destruct (unpacked_data s !! "counts") as [[l|a]|] eqn:E.
  - assert (E1 : unpacked_data s1 !! "counts" = Some (PyList l)) by exact E.
    rewrite (bind_inr _ _ _ _ _ (dd_get_present _ _ _ E1)). mret.
    now rewrite (bind_inr _ _ _ _ _ (dd_get_present _ _ _ E1)).
  - now destruct (Hcounts a).
  - assert (E1 : unpacked_data s1 !! "counts" = None) by exact E.
    rewrite (bind_inr _ _ _ _ _ (dd_get_absent _ _ E1)). mret.
    erewrite bind_inr by (apply dd_get_present; cbn; apply lookup_insert_eq).
    unfold dd_set, modify. cbn. now rewrite insert_insert_eq.
Qed.

(** X7: for a ping whose header announces [n] channels, with the payload
    in the file, [_add_counts] consumes exactly the payload (2 bytes per bin
    of a raw channel, 5 per bin of an averaged one, channel after channel)
    and appends one item to [counts]: [n] vectors in channel order, each
    with the channel's [num_bins] values, raw or averaged as the channel's
    data_type flag says. Nothing else changes. *)
Theorem add_counts_consumes_the_payload
    (params : parameters) (lm : libm) (s : parser)
    (ping_num n : Z) (nbs dts rss : list Z) (avg ppp : Z) :
  header_at (unpacked_data s) ping_num n nbs dts rss avg ppp ->
  Forall (fun nb => 0 <= nb) nbs ->
  0 <= n ->
  (Z.to_nat n <= List.length nbs)%nat -> (Z.to_nat n <= List.length dts)%nat ->
  (Z.to_nat n <= List.length rss)%nat ->
  (Z.to_nat n <= List.length (DS params))%nat ->
  payload_bytes dts nbs (Z.to_nat n) <= Z.of_nat (List.length (raw s)) ->
  (forall a, unpacked_data s !! "counts" <> Some (NdArr a)) ->
  exists vv,
    _add_counts params lm ping_num s
    = (inr tt,
       set_unpacked_data
         (<["counts" := PyList (column (unpacked_data s) "counts" ++ [PCounts vv])]>
            (unpacked_data s))
         (set_raw (skipn (Z.to_nat (payload_bytes dts nbs (Z.to_nat n))) (raw s)) s)) /\
    map samples_length vv = map Z.to_nat (firstn (Z.to_nat n) nbs) /\
    map is_raw vv = map (fun dt => dt =? 0) (firstn (Z.to_nat n) dts).
Proof.
  exact (add_counts_run params lm s ping_num n nbs dts rss avg ppp).
Qed.

Lemma raw_3_header :
  header_at (unpacked_data raw_3_state) 0 1 [3] [0] [0] 0 0.
Proof.
  repeat split;
    [exists [PInt 1]|exists [PTuple [3]]|exists [PTuple [0]]
    |exists [PTuple [0]]|exists [PInt 0]|exists [PInt 0]];
    split; vm_compute; reflexivity.
Qed.

Lemma add_counts_consumes_the_payload_witness :
  header_at (unpacked_data raw_3_state) 0 1 [3] [0] [0] 0 0 /\
  Forall (fun nb => 0 <= nb) [3] /\
  0 <= 1 /\
  (Z.to_nat 1 <= List.length [3])%nat /\ (Z.to_nat 1 <= List.length [0])%nat /\
  (Z.to_nat 1 <= List.length [0])%nat /\
  (Z.to_nat 1 <= List.length (DS params_no_temperature))%nat /\
  payload_bytes [0] [3] (Z.to_nat 1) <= Z.of_nat (List.length (raw raw_3_state)) /\
  (forall a, unpacked_data raw_3_state !! "counts" <> Some (NdArr a)) /\
  exists vv,
    _add_counts params_no_temperature RefLibm.ref 0 raw_3_state
    = (inr tt,
       set_unpacked_data
         (<["counts" := PyList (column (unpacked_data raw_3_state) "counts"
                                  ++ [PCounts vv])]>
            (unpacked_data raw_3_state))
         (set_raw (skipn (Z.to_nat (payload_bytes [0] [3] (Z.to_nat 1)))
                     (raw raw_3_state)) raw_3_state)) /\
    map samples_length vv = map Z.to_nat (firstn (Z.to_nat 1) [3]) /\
    map is_raw vv = map (fun dt => dt =? 0) (firstn (Z.to_nat 1) [0]).
Proof.
  assert (H2 : Forall (fun nb => 0 <= nb) [3]) by (repeat constructor; lia).
  assert (H3 : 0 <= 1) by lia.
  assert (H4 : (Z.to_nat 1 <= List.length [3])%nat) by (cbn; lia).
  assert (H5 : (Z.to_nat 1 <= List.length [0])%nat) by (cbn; lia).
  assert (H6 : (Z.to_nat 1 <= List.length (DS params_no_temperature))%nat)
    by (cbn; lia).
  assert (H7 : payload_bytes [0] [3] (Z.to_nat 1)
               <= Z.of_nat (List.length (raw raw_3_state)))
    by (vm_compute; discriminate).
  assert (H8 : forall a, unpacked_data raw_3_state !! "counts" <> Some (NdArr a))
    by (intros a; vm_compute; discriminate).
  exact (conj raw_3_header (conj H2 (conj H3 (conj H4 (conj H5 (conj H5
           (conj H6 (conj H7 (conj H8
              (add_counts_consumes_the_payload params_no_temperature
                 RefLibm.ref raw_3_state 0 1 [3] [0] [0] 0 0
                 raw_3_header H2 H3 H4 H5 H5 H6 H7 H8)))))))))).
Defined.

(** ** The values of a sample block *)

Lemma channels_values params lm s ping_num n nbs dts rss avg ppp :
  header_at (unpacked_data s) ping_num n nbs dts rss avg ppp ->
  Forall (fun nb => 0 <= nb) nbs ->
  forall (m j : nat) (r : list Byte.byte),
    (j + m <= List.length nbs)%nat -> (j + m <= List.length dts)%nat ->
    (j + m <= List.length rss)%nat -> (j + m <= List.length (DS params))%nat ->
    payload_bytes (skipn j dts) (skipn j nbs) m <= Z.of_nat (List.length r) ->
    add_counts_channels params lm ping_num (Z.of_nat j) m (set_raw r s)
    = (inr (block_vectors lm avg ppp (skipn j dts) (skipn j nbs) (skipn j rss)
              (skipn j (DS params)) m r),
       set_raw (skipn (Z.to_nat (payload_bytes (skipn j dts) (skipn j nbs) m)) r) s).
Proof.
  intros (_ & Hnb & Hdt & Hrs & Havg & Hppp) Hpos.
  induction m as [|m IH]; intros j r Lnb Ldt Lrs Lds Hbytes.
  - cbn [add_counts_channels block_vectors]. unfold mret, M_ret, ret.
    destruct (skipn j dts), (skipn j nbs); reflexivity.
  - rewrite (skipn_cons_nth nbs j 0), (skipn_cons_nth dts j 0),
            (skipn_cons_nth rss j 0), (skipn_cons_nth (DS params) j 0%float)
      in * by lia.
    set (nb := nth j nbs 0) in *. set (dt := nth j dts 0) in *.
    set (rs := nth j rss 0) in *. set (ds := nth j (DS params) 0%float) in *.
    cbn [payload_bytes block_vectors] in *.
    assert (Hnbpos : 0 <= nb).
    { rewrite Forall_forall in Hpos. apply Hpos, list_elem_of_In, nth_In. lia. }
    assert (Hrest : 0 <= payload_bytes (skipn (S j) dts) (skipn (S j) nbs) m).
    { apply payload_bytes_nonneg. rewrite Forall_forall in *.
      intros x Hx. apply Hpos.
      rewrite <- (firstn_skipn (S j) nbs). apply elem_of_app. now right. }
    set (sr := set_raw r s).
    assert (Hbins : dd_int2 "num_bins" ping_num (Z.of_nat j) sr = (inr nb, sr)).
    { apply (dd_int2_holds sr _ _ _ nbs); [exact Hnb|].
      rewrite (py_index_nth nbs (Z.of_nat j) 0) by lia. now rewrite Nat2Z.id. }
    assert (Htype : dd_int2 "data_type" ping_num (Z.of_nat j) sr = (inr dt, sr)).
    { apply (dd_int2_holds sr _ _ _ dts); [exact Hdt|].
      rewrite (py_index_nth dts (Z.of_nat j) 0) by lia. now rewrite Nat2Z.id. }
    cbn [add_counts_channels].
    assert (Hchan : add_counts_channel params lm ping_num (Z.of_nat j) sr
                    = (inr (channel_vector lm avg ppp dt nb rs ds r),
                       set_raw (skipn (Z.to_nat (channel_bytes dt nb)) r) s)).
    { unfold channel_bytes, channel_vector in *.
      destruct (Z.eqb_spec dt 0) as [Hz|Hnz].
      - rewrite Hz in Htype.
        pose proof (raw_channel params lm sr ping_num (Z.of_nat j) nb
                      Hbins Htype Hnbpos ltac:(cbn; lia)) as Hrun.
        cbv zeta in Hrun. rewrite Hrun. cbn [raw set_raw sr]. unfold sr.
        rewrite set_raw_twice. do 3 f_equal. lia.
      - assert (Hrsj : dd_int2 "range_samples_per_bin" ping_num (Z.of_nat j) sr
                       = (inr rs, sr)).
        { apply (dd_int2_holds sr _ _ _ rss); [exact Hrs|].
          rewrite (py_index_nth rss (Z.of_nat j) 0) by lia. now rewrite Nat2Z.id. }
        assert (Hdiv : channel_divisor ping_num (Z.of_nat j) sr
                       = (inr (divisor_of avg ppp rs), sr)).
        { unfold divisor_of. destruct (Z.eqb_spec avg 0) as [->|Havg0].
          - apply channel_divisor_not_averaged; [|exact Hrsj].
            now apply dd_int_holds.
          - apply (channel_divisor_averaged sr _ _ avg); auto;
              now apply dd_int_holds. }
        assert (Hds : py_index (DS params) (Z.of_nat j) = inr ds).
        { rewrite (py_index_nth _ (Z.of_nat j) 0%float) by lia.
          now rewrite Nat2Z.id. }
        pose proof (averaged_channel params lm sr ping_num (Z.of_nat j) nb dt _ _
                      Hbins Htype Hnz Hdiv Hds Hnbpos ltac:(cbn; lia)) as Hrun.
        cbv zeta in Hrun. rewrite Hrun. cbn [raw set_raw sr]. unfold sr.
        rewrite set_raw_twice. do 3 f_equal. lia. }
    rewrite (bind_inr _ _ _ _ _ Hchan).
    pose proof (channel_bytes_nonneg dt nb Hnbpos) as Hcb.
    replace (Z.of_nat j + 1) with (Z.of_nat (S j)) by lia.
    rewrite (bind_inr _ _ _ _ _
               (IH (S j) (skipn (Z.to_nat (channel_bytes dt nb)) r)
                  ltac:(lia) ltac:(lia) ltac:(lia) ltac:(lia)
                  ltac:(rewrite length_skipn; lia))).
    unfold mret, M_ret, ret. rewrite skipn_skipn. do 3 f_equal. lia.
Qed.

Lemma block_vectors_nth lm avg ppp :
  forall (m : nat) dts nbs rss dss r (j : nat),
    (j < m)%nat ->
    (m <= List.length dts)%nat -> (m <= List.length nbs)%nat ->
    (m <= List.length rss)%nat -> (m <= List.length dss)%nat ->
    Forall (fun nb => 0 <= nb) nbs ->
    nth_error (block_vectors lm avg ppp dts nbs rss dss m r) j
    = Some (channel_vector lm avg ppp (nth j dts 0) (nth j nbs 0) (nth j rss 0)
              (nth j dss 0%float)
              (skipn (Z.to_nat (payload_bytes dts nbs j)) r)).
Proof.
  induction m as [|m IH]; intros dts nbs rss dss r j Hj Ldt Lnb Lrs Lds Hpos; [lia|].
  destruct dts as [|dt dts]; [cbn in Ldt; lia|].
  destruct nbs as [|nb nbs]; [cbn in Lnb; lia|].
  destruct rss as [|rs rss]; [cbn in Lrs; lia|].
  destruct dss as [|ds dss]; [cbn in Lds; lia|].
  apply Forall_cons_iff in Hpos as [Hnb Hpos].
  cbn [block_vectors]. destruct j as [|j].
  - reflexivity.
  - cbn [nth_error nth payload_bytes List.length] in *.
    rewrite (IH dts nbs rss dss _ j) by (assumption || lia).
    rewrite skipn_skipn. do 3 f_equal.
    pose proof (channel_bytes_nonneg dt nb Hnb).
    pose proof (payload_bytes_nonneg dts nbs j Hpos). lia.
Qed.

(** What [_add_counts] stores, channel by channel. *)
Lemma add_counts_values
    (params : parameters) (lm : libm) (s : parser)
    (ping_num n : Z) (nbs dts rss : list Z) (avg ppp : Z) :
  header_at (unpacked_data s) ping_num n nbs dts rss avg ppp ->
  Forall (fun nb => 0 <= nb) nbs ->
  0 <= n ->
  (Z.to_nat n <= List.length nbs)%nat -> (Z.to_nat n <= List.length dts)%nat ->
  (Z.to_nat n <= List.length rss)%nat ->
  (Z.to_nat n <= List.length (DS params))%nat ->
  payload_bytes dts nbs (Z.to_nat n) <= Z.of_nat (List.length (raw s)) ->
  (forall a, unpacked_data s !! "counts" <> Some (NdArr a)) ->
  exists vv,
    _add_counts params lm ping_num s
    = (inr tt,
       set_unpacked_data
         (<["counts" := PyList (column (unpacked_data s) "counts" ++ [PCounts vv])]>
            (unpacked_data s))
         (set_raw (skipn (Z.to_nat (payload_bytes dts nbs (Z.to_nat n))) (raw s)) s)) /\
    List.length vv = Z.to_nat n /\
    forall j, (j < Z.to_nat n)%nat ->
      nth_error vv j
      = Some (channel_vector lm avg ppp (nth j dts 0) (nth j nbs 0) (nth j rss 0)
                (nth j (DS params) 0%float)
                (skipn (Z.to_nat (payload_bytes dts nbs j)) (raw s))).
Proof.
  intros Hhdr Hpos Hn Lnb Ldt Lrs Lds Hbytes Hcounts.
  pose proof (channels_values params lm s ping_num n nbs dts rss avg ppp Hhdr Hpos
                (Z.to_nat n) 0%nat (raw s) Lnb Ldt Lrs Lds Hbytes) as Hrun.
  cbn [skipn] in Hrun. rewrite set_raw_id in Hrun.
  set (vv := block_vectors lm avg ppp dts nbs rss (DS params) (Z.to_nat n) (raw s))
    in *.
  exists vv. split; [|split].
  - unfold _add_counts.
    rewrite (bind_inr _ _ _ _ _ (dd_int_holds s _ _ _ (proj1 Hhdr))).
    change 0 with (Z.of_nat 0). rewrite (bind_inr _ _ _ _ _ Hrun).
    set (s1 := set_raw _ s).
    unfold dd_append, column.
    change (unpacked_data s1) with (unpacked_data s).
    destruct (unpacked_data s !! "counts") as [[l|a]|] eqn:E.
    + assert (E1 : unpacked_data s1 !! "counts" = Some (PyList l)) by exact E.
      rewrite (bind_inr _ _ _ _ _ (dd_get_present _ _ _ E1)). mret.
      now rewrite (bind_inr _ _ _ _ _ (dd_get_present _ _ _ E1)).
    + now destruct (Hcounts a).
    + assert (E1 : unpacked_data s1 !! "counts" = None) by exact E.
      rewrite (bind_inr _ _ _ _ _ (dd_get_absent _ _ E1)). mret.
      erewrite bind_inr by (apply dd_get_present; cbn; apply lookup_insert_eq).
      unfold dd_set, modify. cbn. now rewrite insert_insert_eq.
  - assert (Hall : forall j, (j < Z.to_nat n)%nat -> nth_error vv j <> None).
    { intros j Hj. unfold vv.
      now rewrite (block_vectors_nth lm avg ppp (Z.to_nat n) dts nbs rss
                     (DS params) (raw s) j Hj Ldt Lnb Lrs Lds Hpos). }
    assert (Hle : (List.length vv <= Z.to_nat n)%nat).
    { unfold vv. clear. generalize (raw s) as r. revert dts nbs rss.
      generalize (DS params) as dss. induction (Z.to_nat n) as [|m IH];
        intros dss dts nbs rss r; [destruct dts, nbs; cbn; lia|].
      destruct dts, nbs, rss, dss; cbn [block_vectors List.length]; try lia.
      specialize (IH dss dts nbs rss (skipn (Z.to_nat (channel_bytes z z0)) r)).
      lia. }
    destruct (Nat.eq_dec (List.length vv) (Z.to_nat n)) as [|Hne]; [assumption|].
    exfalso. apply (Hall (List.length vv)); [lia|].
    apply nth_error_None. lia.
  - intros j Hj. unfold vv.
    now apply block_vectors_nth.
Qed.

(** C7: for a ping whose header is stored and whose payload is in the file,
    [_add_counts] appends one item to [counts] in which the vector of every
    channel [j] whose data_type flag is 0 is the tuple of exactly
    [num_bins[j]] values, the [i]-th being the big-endian unsigned 16-bit
    value of the two payload bytes of that bin, unchanged (the channel's
    payload starts after the payloads of the channels before it). With
    [num_bins[j] = 0] the vector is empty and nothing is raised. *)
Theorem add_counts_stores_the_raw_values
    (params : parameters) (lm : libm) (s : parser)
    (ping_num n : Z) (nbs dts rss : list Z) (avg ppp : Z) (j : nat) :
  header_at (unpacked_data s) ping_num n nbs dts rss avg ppp ->
  Forall (fun nb => 0 <= nb) nbs ->
  0 <= n ->
  (Z.to_nat n <= List.length nbs)%nat -> (Z.to_nat n <= List.length dts)%nat ->
  (Z.to_nat n <= List.length rss)%nat ->
  (Z.to_nat n <= List.length (DS params))%nat ->
  payload_bytes dts nbs (Z.to_nat n) <= Z.of_nat (List.length (raw s)) ->
  (forall a, unpacked_data s !! "counts" <> Some (NdArr a)) ->
  (j < Z.to_nat n)%nat -> nth j dts 0 = 0 ->
  exists vv counts,
    _add_counts params lm ping_num s
    = (inr tt,
       set_unpacked_data
         (<["counts" := PyList (column (unpacked_data s) "counts" ++ [PCounts vv])]>
            (unpacked_data s))
         (set_raw (skipn (Z.to_nat (payload_bytes dts nbs (Z.to_nat n))) (raw s)) s)) /\
    List.length vv = Z.to_nat n /\
    nth_error vv j = Some (RawCounts counts) /\
    Z.of_nat (List.length counts) = nth j nbs 0 /\
    (forall i : nat, Z.of_nat i < nth j nbs 0 ->
       nth i counts 0
       = be_uint (firstn 2 (skipn (Z.to_nat (payload_bytes dts nbs j) + 2 * i)%nat
                              (raw s)))) /\
    (nth j nbs 0 = 0 -> counts = []).
Proof.
  intros Hhdr Hpos Hn Lnb Ldt Lrs Lds Hbytes Hcounts Hj Hraw.
  destruct (add_counts_values params lm s ping_num n nbs dts rss avg ppp
              Hhdr Hpos Hn Lnb Ldt Lrs Lds Hbytes Hcounts)
    as (vv & Hrun & Hlen & Hnth).
  specialize (Hnth j Hj). unfold channel_vector in Hnth.
  rewrite Hraw in Hnth. cbn [Z.eqb] in Hnth. cbv zeta in Hnth.
  set (k := Z.to_nat (nth j nbs 0)) in *.
  set (r := skipn (Z.to_nat (payload_bytes dts nbs j)) (raw s)) in *.
  assert (Hk : 0 <= nth j nbs 0).
  { rewrite Forall_forall in Hpos. apply Hpos, list_elem_of_In, nth_In. lia. }
  exists vv, (unpack_codes (repeat "H"%char k) (firstn (k * 2) r)).
  split; [exact Hrun|]. split; [exact Hlen|]. split; [exact Hnth|].
  split; [|split].
  - rewrite (length_unpack_repeat _ 2%nat) by reflexivity. unfold k. lia.
  - intros i Hi. assert (Hik : (i < k)%nat) by (unfold k; lia).
    rewrite (nth_unpack_repeat "H"%char 2%nat) by (reflexivity || exact Hik).
    rewrite window_of_prefix by lia. unfold r. rewrite skipn_skipn.
    do 3 f_equal. lia.
  - intros Hz. unfold k. rewrite Hz. reflexivity.
Qed.

Lemma add_counts_stores_the_raw_values_witness :
  exists vv counts,
    _add_counts params_no_temperature RefLibm.ref 0 raw_3_state
    = (inr tt,
       set_unpacked_data
         (<["counts" := PyList (column (unpacked_data raw_3_state) "counts"
                                  ++ [PCounts vv])]>
            (unpacked_data raw_3_state))
         (set_raw (skipn (Z.to_nat (payload_bytes [0] [3] (Z.to_nat 1)))
                     (raw raw_3_state)) raw_3_state)) /\
    List.length vv = Z.to_nat 1 /\
    nth_error vv 0 = Some (RawCounts counts) /\
    Z.of_nat (List.length counts) = nth 0 [3] 0 /\
    (forall i : nat, Z.of_nat i < nth 0 [3] 0 ->
       nth i counts 0
       = be_uint (firstn 2 (skipn (Z.to_nat (payload_bytes [0] [3] 0)%Z + 2 * i)%nat
                              (raw raw_3_state)))) /\
    (nth 0 [3] 0 = 0 -> counts = []).
Proof.
  assert (H2 : Forall (fun nb => 0 <= nb) [3]) by (repeat constructor; lia).
  assert (H3 : 0 <= 1) by lia.
  assert (H4 : (Z.to_nat 1 <= List.length [3])%nat) by (cbn; lia).
  assert (H5 : (Z.to_nat 1 <= List.length [0])%nat) by (cbn; lia).
  assert (H6 : (Z.to_nat 1 <= List.length (DS params_no_temperature))%nat)
    by (cbn; lia).
  assert (H7 : payload_bytes [0] [3] (Z.to_nat 1)
               <= Z.of_nat (List.length (raw raw_3_state)))
    by (vm_compute; discriminate).
  assert (H8 : forall a, unpacked_data raw_3_state !! "counts" <> Some (NdArr a))
    by (intros a; vm_compute; discriminate).
  assert (H9 : (0 < Z.to_nat 1)%nat) by (cbn; lia).
  exact (add_counts_stores_the_raw_values params_no_temperature RefLibm.ref
           raw_3_state 0 1 [3] [0] [0] 0 0 0%nat
           raw_3_header H2 H3 H4 H5 H5 H6 H7 H8 H9 eq_refl).
Defined.

(** The three raw bins of [raw_3_payload], as [_add_counts] stores them. *)
Example raw_3_stored :
  column (unpacked_data (snd (_add_counts params_no_temperature RefLibm.ref 0
                                raw_3_state))) "counts"
  = [PCounts [RawCounts [1; 2; 3]]].
Proof. vm_compute. reflexivity. Qed.

Lemma log_compress_clamp lm divisor ds ls lso :
  log_compress lm divisor ds ls lso
  = if is_infinity (unclamped lm divisor ds ls lso) then 0%float
    else unclamped lm divisor ds ls lso.
Proof. reflexivity. Qed.

(** C4: for a ping whose header is stored and whose payload is in the
    file, [_add_counts] appends one item to [counts] in which the vector of
    every channel [j] whose data_type flag is set has [num_bins[j]] values;
    the value of a bin is 0 when the log-compression of the bin is infinite
    (plus or minus infinity), and is the log-compression itself otherwise,
    so that a NaN is stored as a NaN. With [log10 0 = -inf], a positive
    divisor and a DS that is neither 0 nor NaN, a bin with sum 0 and
    overflow 0 is stored as exactly 0. *)
Theorem add_counts_clamps_infinite_values
    (params : parameters) (lm : libm) (s : parser)
    (ping_num n : Z) (nbs dts rss : list Z) (avg ppp : Z) (j : nat) :
  header_at (unpacked_data s) ping_num n nbs dts rss avg ppp ->
  Forall (fun nb => 0 <= nb) nbs ->
  0 <= n ->
  (Z.to_nat n <= List.length nbs)%nat -> (Z.to_nat n <= List.length dts)%nat ->
  (Z.to_nat n <= List.length rss)%nat ->
  (Z.to_nat n <= List.length (DS params))%nat ->
  payload_bytes dts nbs (Z.to_nat n) <= Z.of_nat (List.length (raw s)) ->
  (forall a, unpacked_data s !! "counts" <> Some (NdArr a)) ->
  (j < Z.to_nat n)%nat -> nth j dts 0 <> 0 ->
  exists vv v,
    _add_counts params lm ping_num s
    = (inr tt,
       set_unpacked_data
         (<["counts" := PyList (column (unpacked_data s) "counts" ++ [PCounts vv])]>
            (unpacked_data s))
         (set_raw (skipn (Z.to_nat (payload_bytes dts nbs (Z.to_nat n))) (raw s)) s)) /\
    List.length vv = Z.to_nat n /\
    nth_error vv j = Some (AvgCounts v) /\
    Z.of_nat (List.length v) = nth j nbs 0 /\
    forall i : nat, Z.of_nat i < nth j nbs 0 ->
      let off := Z.to_nat (payload_bytes dts nbs j) in
      let k := Z.to_nat (nth j nbs 0) in
      let sum := be_uint (firstn 4 (skipn (off + 4 * i)%nat (raw s))) in
      let overflow := be_uint (firstn 1 (skipn (off + 4 * k + i)%nat (raw s))) in
      let divisor := divisor_of avg ppp (nth j rss 0) in
      let ds := nth j (DS params) 0%float in
      let x := unclamped lm divisor ds sum overflow in
      (is_infinity x = true -> nth i v nan = 0%float) /\
      (is_infinity x = false -> nth i v nan = x) /\
      (is_nan x = true -> is_nan (nth i v nan) = true) /\
      (m_log10 lm 0 = neg_infinity -> 0 < divisor < 2 ^ 53 ->
       is_nan ds = false -> PrimFloat.eqb ds 0 = false ->
       sum = 0 -> overflow = 0 -> nth i v nan = 0%float).
Proof.
  intros Hhdr Hpos Hn Lnb Ldt Lrs Lds Hbytes Hcounts Hj Havg.
  destruct (add_counts_values params lm s ping_num n nbs dts rss avg ppp
              Hhdr Hpos Hn Lnb Ldt Lrs Lds Hbytes Hcounts)
    as (vv & Hrun & Hlen & Hnth).
  specialize (Hnth j Hj). unfold channel_vector in Hnth.
  apply Z.eqb_neq in Havg. rewrite Havg in Hnth. cbv zeta in Hnth.
  set (k := Z.to_nat (nth j nbs 0)) in *.
  set (r := skipn (Z.to_nat (payload_bytes dts nbs j)) (raw s)) in *.
  set (ls := unpack_codes (repeat "I"%char k) _) in Hnth.
  set (lso := unpack_codes (repeat "B"%char k) _) in Hnth.
  assert (Hls : List.length ls = k) by now apply (length_unpack_repeat _ 4%nat).
  assert (Hlso : List.length lso = k) by now apply (length_unpack_repeat _ 1%nat).
  assert (Hk : 0 <= nth j nbs 0).
  { rewrite Forall_forall in Hpos. apply Hpos, list_elem_of_In, nth_In. lia. }
  eexists vv, _. split; [exact Hrun|]. split; [exact Hlen|].
  split; [exact Hnth|]. split.
  { rewrite length_zip_with by congruence. unfold k in Hls. lia. }
  intros i Hi off k' sum overflow divisor ds x.
  assert (Hik : (i < k)%nat) by (unfold k; lia).
  assert (Hval : nth i (zip_with (log_compress lm divisor ds) ls lso) nan
                 = if is_infinity x then 0%float else x).
  { rewrite (nth_zip_with _ ls lso i 0 0) by lia.
    unfold ls, lso.
    rewrite (nth_unpack_repeat "I"%char 4%nat), (nth_unpack_repeat "B"%char 1%nat)
      by (reflexivity || exact Hik).
    rewrite !window_of_prefix by lia.
    unfold r. rewrite !skipn_skipn.
    replace (i * 4 + Z.to_nat (payload_bytes dts nbs j))%nat
      with (off + 4 * i)%nat by (unfold off; lia).
    replace (i * 1 + k * 4 + Z.to_nat (payload_bytes dts nbs j))%nat
      with (off + 4 * k' + i)%nat by (unfold off, k'; lia).
    apply log_compress_clamp. }
  fold divisor ds in Hval |- *.
  split; [|split; [|split]].
  - intros Hinf. now rewrite Hval, Hinf.
  - intros Hfin. now rewrite Hval, Hfin.
  - intros Hnan. rewrite Hval.
    destruct (is_infinity x) eqn:Hinf; [|exact Hnan].
    exfalso. revert Hnan Hinf. unfold is_nan, is_infinity.
    rewrite !FloatAxioms.eqb_spec, FloatAxioms.abs_spec.
    destruct (Prim2SF x) as [sg|sg| |sg m e]; try destruct sg; cbn; discriminate.
  - intros Hlog Hd Hnan Hzero Hsum Hover. rewrite Hval. unfold x.
    rewrite Hsum, Hover.
    pose proof (log_compress_zero lm divisor ds Hlog Hd Hnan Hzero) as Hz.
    rewrite log_compress_clamp in Hz. exact Hz.
Qed.

Lemma avg_1_header rs payload :
  header_at (unpacked_data (avg_1_state rs payload)) 0 1 [1] [1] [byte_val rs] 0 0.
Proof.
  repeat split;
    [exists [PInt 1]|exists [PTuple [1]]|exists [PTuple [1]]
    |exists [PTuple [byte_val rs]]|exists [PInt 0]|exists [PInt 0]];
    split; try reflexivity; destruct rs; vm_compute; reflexivity.
Qed.

Lemma add_counts_clamps_infinite_values_witness :
  is_infinity (unclamped RefLibm.ref 0 1 1 0) = true /\
  exists vv v,
    fst (_add_counts params_no_temperature RefLibm.ref 0
           (avg_1_state Byte.x00 unit_bin)) = inr tt /\
    nth_error vv 0 = Some (AvgCounts v) /\
    nth 0 v nan = 0%float.
Proof.
  split; [reflexivity|].
  assert (H2 : Forall (fun nb => 0 <= nb) [1]) by (repeat constructor; lia).
  assert (H3 : 0 <= 1) by lia.
  assert (H4 : (Z.to_nat 1 <= List.length [1])%nat) by (cbn; lia).
  assert (H5 : (Z.to_nat 1 <= List.length [byte_val Byte.x00])%nat) by (cbn; lia).
  assert (H6 : (Z.to_nat 1 <= List.length (DS params_no_temperature))%nat)
    by (cbn; lia).
  assert (H7 : payload_bytes [1] [1] (Z.to_nat 1)
               <= Z.of_nat (List.length (raw (avg_1_state Byte.x00 unit_bin))))
    by (vm_compute; discriminate).
  assert (H8 : forall a, unpacked_data (avg_1_state Byte.x00 unit_bin) !! "counts"
                         <> Some (NdArr a))
    by (intros a; vm_compute; discriminate).
  assert (H9 : (0 < Z.to_nat 1)%nat) by (cbn; lia).
  assert (H10 : nth 0 [1] 0 <> 0) by (cbn; lia).
  destruct (add_counts_clamps_infinite_values params_no_temperature RefLibm.ref
              (avg_1_state Byte.x00 unit_bin) 0 1 [1] [1] [byte_val Byte.x00] 0 0
              0%nat (avg_1_header Byte.x00 unit_bin) H2 H3 H4 H4 H5 H6 H7 H8 H9 H10)
    as (vv & v & Hrun & _ & Hnth & _ & Hbins).
  exists vv, v. split; [now rewrite Hrun|]. split; [exact Hnth|].
  destruct (Hbins 0%nat ltac:(cbn; lia)) as (Hinf & _).
  apply Hinf. vm_compute. reflexivity.
Defined.

(** ** The reducer, run again and failing *)

Lemma reduce_all_none d0 ks :
  NoDup ks ->
  forall d, fst (reduce_all d0 ks d) = None ->
  forall k, In k ks ->
    exists a, verdict d0 k = Some a /\
              snd (reduce_all d0 ks d) !! k = Some (NdArr a).
Proof.
  induction ks as [|k0 ks IH]; intros Hnd d Hfst k Hk; [destruct Hk|].
  apply NoDup_cons in Hnd as [Hnotin Hnd].
  cbn [reduce_all] in *. destruct (verdict d0 k0) as [a|] eqn:E; [|discriminate].
  destruct Hk as [<-|Hk]; [|now apply IH].
  exists a. split; [exact E|].
  assert (Hall : forall k', In k' ks -> exists a', verdict d0 k' = Some a').
  { intros k' Hk'. destruct (IH Hnd _ Hfst k' Hk') as (a' & Ha' & _). eauto. }
  destruct (reduce_all_ok d0 ks Hnd Hall (<[k0 := NdArr a]> d)) as (_ & _ & Hout).
  rewrite Hout by (intros Hin; now apply Hnotin, list_elem_of_In).
  apply lookup_insert_eq.
Qed.

(** The fields before the one that stops the reducer are arrays, the
    others are as they were. *)
Lemma reduce_all_partial d0 ks :
  NoDup ks ->
  forall d k, fst (reduce_all d0 ks d) = Some k ->
  exists pre post,
    ks = (pre ++ k :: post)%list /\ verdict d0 k = None /\
    (forall k', In k' pre -> exists a, verdict d0 k' = Some a) /\
    (forall k', In k' pre ->
       exists a, snd (reduce_all d0 ks d) !! k' = Some (NdArr a)) /\
    (forall k', ~ In k' pre -> snd (reduce_all d0 ks d) !! k' = d !! k').
Proof.
  induction ks as [|k0 ks IH]; intros Hnd d k Hfst; [discriminate|].
  apply NoDup_cons in Hnd as [Hnotin Hnd].
  cbn [reduce_all] in *. destruct (verdict d0 k0) as [a|] eqn:E.
  - destruct (IH Hnd _ k Hfst) as (pre & post & -> & Hk & Hgood & Hpre & Hrest).
    exists (k0 :: pre), post. split; [reflexivity|]. split; [exact Hk|].
    split; [|split].
    + intros k' [<-|Hk']; [now exists a|now apply Hgood].
    + intros k' [<-|Hk']; [|now apply Hpre].
      assert (Hnin : ~ In k0 pre).
      { intros Hin. apply Hnotin, list_elem_of_In, in_or_app. now left. }
      exists a. rewrite (Hrest k0 Hnin). apply lookup_insert_eq.
    + intros k' Hk'. rewrite Hrest by (intros Hin; apply Hk'; now right).
      apply lookup_insert_ne. intros ->. apply Hk'. now left.
  - injection Hfst as <-. exists [], ks. cbn. repeat split; auto;
      intros k' [].
Qed.

(** X8: the reducer runs once. After it has returned on two pings or
    more, a second call returns at once and changes nothing, because the
    reduced [profile_flag] has size 1. *)
Theorem check_uniqueness_second_call_is_a_no_op
    (parse_raw : M unit) (s s' : parser) (n : nat) :
  pings_accumulated (unpacked_data s) n -> (2 <= n)%nat ->
  _check_uniqueness parse_raw s = (inr tt, s') ->
  _check_uniqueness parse_raw s' = (inr tt, s').
Proof.
  intros Hacc Hn Hrun.
  rewrite (check_uniqueness_runs parse_raw s n Hacc Hn) in Hrun.
  destruct (fst (reduce_all (unpacked_data s) reduced_fields (unpacked_data s)))
    as [k|] eqn:Hfst; [discriminate|].
  apply (f_equal snd) in Hrun. cbn [snd] in Hrun. subst s'.
  destruct (reduce_all_none (unpacked_data s) reduced_fields reduced_fields_nodup
              (unpacked_data s) Hfst "profile_flag")
    as (a & Ha & Hlook).
  { apply in_or_app. right. now left. }
  destruct Hacc as [_ Hinc].
  destruct (Hinc "profile_flag" ltac:(now left)) as (zs & Hzs & _).
  rewrite (verdict_of_ints _ _ zs ltac:(now left) Hzs) in Ha.
  unfold verdict_include in Ha.
  destruct (np_unique zs) as [|z [|z' l]]; try discriminate.
  injection Ha as <-.
  unfold _check_uniqueness. set (s' := set_unpacked_data _ s) in *.
  assert (Hflag : unpacked_data s' !! "profile_flag" = Some (NdArr (Arr0 z)))
    by exact Hlook.
  rewrite (bind_inr _ _ _ _ _
             (ensure_parsed_nonempty parse_raw s' (lookup_Some_nonempty _ _ _ Hflag))).
  now rewrite (bind_inr _ _ _ _ _ (dd_get_present _ _ _ Hflag)).
Qed.

Lemma check_uniqueness_second_call_is_a_no_op_witness :
  let s' := snd (_check_uniqueness (ret tt) two_pings) in
  pings_accumulated (unpacked_data two_pings) 2 /\ (2 <= 2)%nat /\
  _check_uniqueness (ret tt) two_pings = (inr tt, s') /\
  _check_uniqueness (ret tt) s' = (inr tt, s').
Proof.
  intros s'.
  assert (H2 : (2 <= 2)%nat) by lia.
  assert (H3 : _check_uniqueness (ret tt) two_pings = (inr tt, s')).
  { assert (Hfst : fst (_check_uniqueness (ret tt) two_pings) = inr tt)
      by (vm_compute; reflexivity).
    unfold s'. destruct (_check_uniqueness (ret tt) two_pings) as [r s0].
    cbn in Hfst |- *. now rewrite Hfst. }
  exact (conj two_pings_accumulated (conj H2 (conj H3
           (check_uniqueness_second_call_is_a_no_op (ret tt) two_pings s' 2
              two_pings_accumulated H2 H3)))).
Defined.

(** X9: on two pings or more the only exception of the reducer is the
    [ValueError] that names the first field, in the reducer's order, whose
    values differ: no field taken before it has differing values. When it
    is raised, the fields taken before that field have already been
    replaced by arrays in the dataset, and every other key is as it was. *)
Theorem check_uniqueness_failure_leaves_earlier_fields_reduced
    (parse_raw : M unit) (s s' : parser) (n : nat) (e : exn) :
  pings_accumulated (unpacked_data s) n -> (2 <= n)%nat ->
  _check_uniqueness parse_raw s = (inl e, s') ->
  exists pre k post,
    reduced_fields = (pre ++ k :: post)%list /\
    e = not_constant k /\
    offending (unpacked_data s) k /\
    (forall k', In k' pre -> ~ offending (unpacked_data s) k') /\
    (forall k', In k' pre -> exists a, unpacked_data s' !! k' = Some (NdArr a)) /\
    (forall k', ~ In k' pre -> unpacked_data s' !! k' = unpacked_data s !! k') /\
    raw s' = raw s /\ ping_time s' = ping_time s.
Proof.
  intros Hacc Hn Hrun.
  rewrite (check_uniqueness_runs parse_raw s n Hacc Hn) in Hrun.
  destruct (fst (reduce_all (unpacked_data s) reduced_fields (unpacked_data s)))
    as [k|] eqn:Hfst; [|discriminate].
  pose proof (f_equal fst Hrun) as He. apply (f_equal snd) in Hrun.
  cbn [fst snd] in He, Hrun. subst s'. injection He as <-.
  destruct (reduce_all_partial (unpacked_data s) reduced_fields
              reduced_fields_nodup (unpacked_data s) k Hfst)
    as (pre & post & Heq & Hnone & Hgood & Hpre & Hrest).
  exists pre, k, post. split; [exact Heq|]. split; [reflexivity|]. split.
  { assert (Hk : In k reduced_fields)
      by (rewrite Heq; apply in_or_app; right; now left).
    destruct (verdict_cases _ n k Hacc ltac:(lia) Hk) as [_ [[a Ha]|[_ Ho]]];
      [congruence|exact Ho]. }
  split.
  { intros k' Hk' Hoff. destruct (Hgood k' Hk') as [a Ha].
    rewrite (offending_verdict _ _ Hoff) in Ha. discriminate. }
  repeat split; assumption.
Qed.

Lemma two_serial_numbers_accumulated :
  pings_accumulated (unpacked_data two_serial_numbers) 2.
Proof.
  split; intros k Hk.
  - exists [[0]; [0]].
    repeat destruct Hk as [<-|Hk]; try (repeat split; vm_compute; reflexivity).
    destruct Hk.
  - destruct Hk as [<-|Hk].
    { exists [64770; 64770]. split; vm_compute; reflexivity. }
    destruct Hk as [<-|Hk].
    { exists [0; 7]. split; vm_compute; reflexivity. }
    exists [0; 0].
    repeat destruct Hk as [<-|Hk]; try (repeat split; vm_compute; reflexivity).
    destruct Hk.
Qed.

Lemma check_uniqueness_failure_leaves_earlier_fields_reduced_witness :
  pings_accumulated (unpacked_data two_serial_numbers) 2 /\ (2 <= 2)%nat /\
  _check_uniqueness (ret tt) two_serial_numbers
    = (inl (not_constant "serial_number"), after_failed_reduction) /\
  exists pre k post,
    reduced_fields = (pre ++ k :: post)%list /\
    not_constant "serial_number" = not_constant k /\
    offending (unpacked_data two_serial_numbers) k /\
    (forall k', In k' pre -> ~ offending (unpacked_data two_serial_numbers) k') /\
    (forall k', In k' pre ->
       exists a, unpacked_data after_failed_reduction !! k' = Some (NdArr a)) /\
    (forall k', ~ In k' pre ->
       unpacked_data after_failed_reduction !! k'
       = unpacked_data two_serial_numbers !! k') /\
    raw after_failed_reduction = raw two_serial_numbers /\
    ping_time after_failed_reduction = ping_time two_serial_numbers.
Proof.
  assert (H2 : (2 <= 2)%nat) by lia.
  assert (H3 : _check_uniqueness (ret tt) two_serial_numbers
               = (inl (not_constant "serial_number"), after_failed_reduction)).
  { assert (Hfst : fst (_check_uniqueness (ret tt) two_serial_numbers)
                   = inl (not_constant "serial_number"))
      by (vm_compute; reflexivity).
    unfold after_failed_reduction.
    destruct (_check_uniqueness (ret tt) two_serial_numbers) as [r s0].
    cbn in Hfst |- *. now rewrite Hfst. }
  exact (conj two_serial_numbers_accumulated (conj H2 (conj H3
           (check_uniqueness_failure_leaves_earlier_fields_reduced (ret tt)
              two_serial_numbers after_failed_reduction 2
              (not_constant "serial_number")
              two_serial_numbers_accumulated H2 H3)))).
Defined.

(** ** The guard of the two finishing steps *)

(** X10: on a dataset that is not empty neither [_check_uniqueness] nor
    [_get_ping_time] calls [parse_raw] again: whatever that call would do,
    raise included, the two steps behave the same. *)
Theorem finishing_steps_do_not_reparse_a_filled_dataset
    (parse_raw parse_raw' : M unit) (s : parser) :
  unpacked_data s <> ∅ ->
  _check_uniqueness parse_raw s = _check_uniqueness parse_raw' s /\
  _get_ping_time parse_raw s = _get_ping_time parse_raw' s.
Proof.
  intros Hne. unfold _check_uniqueness, _get_ping_time.
  now rewrite !(bind_inr _ _ _ _ _ (ensure_parsed_nonempty _ s Hne)).
Qed.

Lemma finishing_steps_do_not_reparse_a_filled_dataset_witness :
  _check_uniqueness (ret tt) one_ping = _check_uniqueness (raise TypeError) one_ping /\
  _get_ping_time (ret tt) one_ping = _get_ping_time (raise TypeError) one_ping.
Proof.
  apply finishing_steps_do_not_reparse_a_filled_dataset.
  apply (lookup_Some_nonempty _ "year" (PyList [PInt 2020])).
  vm_compute. reflexivity.
Defined.

(** ** Calibration at its edges *)

(** X11: when the a, b and c coefficients of a tilt axis are all close to
    0, whatever its d coefficient is, the axis counts as invalid and
    [_compute_tilt] returns NaN for every ping, without reading the
    ancillary values and without raising. *)
Theorem tilt_nan_when_coefficients_near_zero
    (params : parameters) (xy : axis) :
  forallb np_isclose_0 (axis_abc params xy) = true ->
  _test_valid_params (axis_abc params xy) = false /\
  forall ping_num s,
    _compute_tilt params ping_num xy (_test_valid_params (axis_abc params xy)) s
    = (inr nan, s).
Proof.
  intros Hclose.
  assert (Hflag : _test_valid_params (axis_abc params xy) = false).
  { unfold _test_valid_params. now rewrite Hclose. }
  split; [exact Hflag|]. intros ping_num s. now rewrite Hflag.
Qed.

Lemma tilt_nan_when_coefficients_near_zero_witness :
  _test_valid_params [X_a params_only_d; X_b params_only_d; X_c params_only_d]
    = false /\
  forall ping_num s,
    _compute_tilt params_only_d ping_num X
      (_test_valid_params (axis_abc params_only_d X)) s = (inr nan, s).
Proof.
  apply (tilt_nan_when_coefficients_near_zero params_only_d X). reflexivity.
Defined.

Lemma nan_plus x : (nan + x)%float = nan.
Proof.
  apply Prim2SF_inj. rewrite FloatAxioms.add_spec.
  change (Prim2SF nan) with S754_nan. reflexivity.
Qed.

Lemma py_square_runs lm x t :
  square_overflows lm x = false -> py_square lm x t = (inr (m_pow lm x 2), t).
Proof. unfold square_overflows, py_square. now intros ->. Qed.

Lemma cos_tilt_mag_runs lm ping_num tx ty t :
  holds (unpacked_data t) "tilt_x" ping_num (PFloat tx) ->
  holds (unpacked_data t) "tilt_y" ping_num (PFloat ty) ->
  square_overflows lm tx = false -> square_overflows lm ty = false ->
  cos_tilt_mag lm ping_num t
  = (inr (m_cos lm (PrimFloat.sqrt (m_pow lm tx 2 + m_pow lm ty 2) * np_pi / 180))%float,
     t).
Proof.
  intros (lx & Hx & Hxi) (ly & Hy & Hyi) Hox Hoy. unfold cos_tilt_mag.
  rewrite (bind_inr _ _ _ _ _ (dd_item_list _ _ _ _ _ Hx Hxi)).
  cbn [as_float]. mret.
  rewrite (bind_inr _ _ _ _ _ (py_square_runs lm tx t Hox)).
  rewrite (bind_inr _ _ _ _ _ (dd_item_list _ _ _ _ _ Hy Hyi)).
  cbn [as_float]. mret.
  now rewrite (bind_inr _ _ _ _ _ (py_square_runs lm ty t Hoy)).
Qed.

(** X12: the cosine of the tilt magnitude of a ping is NaN as soon as its
    X tilt is NaN (the axis is invalid), whatever the Y tilt is, provided
    the square of the Y tilt does not overflow; nothing is raised. The
    libm is taken to follow C99 on NaN: [pow(NaN, 2)] and [cos(NaN)] are
    NaN. *)
Theorem cos_tilt_mag_propagates_nan
    (lm : libm) (s : parser) (ping_num : Z) (tilt_y : float) :
  m_pow lm nan 2 = nan ->
  m_cos lm nan = nan ->
  holds (unpacked_data s) "tilt_x" ping_num (PFloat nan) ->
  holds (unpacked_data s) "tilt_y" ping_num (PFloat tilt_y) ->
  square_overflows lm tilt_y = false ->
  cos_tilt_mag lm ping_num s = (inr nan, s).
Proof.
  intros Hpow Hcos Hx Hy Hfin.
  rewrite (cos_tilt_mag_runs lm ping_num nan tilt_y s Hx Hy eq_refl Hfin).
  rewrite Hpow, nan_plus.
  change (PrimFloat.sqrt nan * np_pi / 180)%float with nan.
  now rewrite Hcos.
Qed.

Lemma cos_tilt_mag_propagates_nan_witness :
  cos_tilt_mag RefLibm.ref 0 tilted_state = (inr nan, tilted_state).
Proof.
  apply (cos_tilt_mag_propagates_nan RefLibm.ref tilted_state 0 3).
  - reflexivity.
  - reflexivity.
  - exists [PFloat nan]. split; reflexivity.
  - exists [PFloat 3%float]. split; reflexivity.
  - reflexivity.
Defined.

(** X13: with a valid temperature flag and the ancillary values of the
    ping stored, [_compute_temperature] raises [ZeroDivisionError] exactly
    when [kc] equals the input voltage [2.5 * (counts / 65535)]; it raises
    nothing else (a logarithm of a negative ratio is a NaN, not an
    exception) and never changes the state. *)
Theorem temperature_raises_only_on_a_zero_denominator
    (params : parameters) (lm : libm) (s : parser) (ping_num counts : Z)
    (t : list Z) :
  holds (unpacked_data s) "ancillary" ping_num (PTuple t) ->
  py_index t 4 = inr counts ->
  (fst (_compute_temperature params lm ping_num true s) = inl ZeroDivisionError
   <-> PrimFloat.eqb (kc params - 2.5 * (Z2f counts / Z2f 65535)) 0 = true) /\
  (forall e, fst (_compute_temperature params lm ping_num true s) = inl e ->
             e = ZeroDivisionError) /\
  snd (_compute_temperature params lm ping_num true s) = s.
Proof.
  intros Hanc Hidx.
  unfold _compute_temperature. cbn [negb].
  rewrite (bind_inr _ _ _ _ _ (dd_int2_holds _ _ _ _ _ _ Hanc Hidx)).
  unfold py_div.
  destruct (PrimFloat.eqb (kc params - 2.5 * (Z2f counts / Z2f 65535)) 0);
    cbn [lift].
  - repeat split; try reflexivity. intros e He. now injection He as <-.
  - mret. repeat split; try discriminate; reflexivity.
Qed.

Lemma temperature_raises_only_on_a_zero_denominator_witness :
  fst (_compute_temperature params_kc_full_scale RefLibm.ref 0 true
         full_scale_state) = inl ZeroDivisionError.
Proof.
  assert (H1 : holds (unpacked_data full_scale_state) "ancillary" 0
                 (PTuple [0; 0; 40000; 0; 65535])).
  { exists [PTuple [0; 0; 40000; 0; 65535]]. split; reflexivity. }
  assert (H2 : py_index [0; 0; 40000; 0; 65535] 4 = inr 65535) by reflexivity.
  apply (proj1 (temperature_raises_only_on_a_zero_denominator
                  params_kc_full_scale RefLibm.ref full_scale_state 0 65535 _
                  H1 H2)).
  reflexivity.
Defined.

Lemma battery_checked :
  all_from (Z.to_nat 65536) 0 battery_in_range = true.
Proof. vm_compute. reflexivity. Qed.

(** X14: the battery voltage of a ping is its 16-bit reading times
    [USL5_BAT_CONSTANT], the reading being [ancillary[2]] for the main pack
    and [ad[0]] for the Tx pack; for every reading it lies between 0 and
    the full scale [2.5 * (86.6 + 475) / 86.6] volts, which it never
    reaches. *)
Theorem battery_voltage_below_full_scale
    (s : parser) (ping_num N : Z) (b : battery) (t : list Z) :
  holds (unpacked_data s) (battery_key b) ping_num (PTuple t) ->
  py_index t (battery_slot b) = inr N ->
  0 <= N < 65536 ->
  exists v,
    _compute_battery ping_num b s = (inr v, s) /\
    v = (Z2f N * USL5_BAT_CONSTANT)%float /\
    PrimFloat.leb 0 v = true /\
    PrimFloat.ltb v battery_full_scale = true.
Proof.
  intros Hk Hidx HN.
  assert (Hok : battery_in_range N = true).
  { apply (all_from_spec _ _ 0 battery_checked). rewrite Z2Nat.id; lia. }
  unfold battery_in_range in Hok. apply andb_prop in Hok as [Hlo Hhi].
  exists (Z2f N * USL5_BAT_CONSTANT)%float.
  split; [|split; [reflexivity|split; assumption]].
  unfold _compute_battery.
  destruct b; cbn [battery_key battery_slot] in Hk, Hidx;
    now rewrite (bind_inr _ _ _ _ _ (dd_int2_holds _ _ _ _ _ _ Hk Hidx)).
Qed.

Lemma battery_voltage_below_full_scale_witness :
  exists v,
    _compute_battery 0 main full_scale_state = (inr v, full_scale_state) /\
    v = (Z2f 40000 * USL5_BAT_CONSTANT)%float /\
    PrimFloat.leb 0 v = true /\
    PrimFloat.ltb v battery_full_scale = true.
Proof.
  apply (battery_voltage_below_full_scale full_scale_state 0 40000 main
           [0; 0; 40000; 0; 65535]).
  - exists [PTuple [0; 0; 40000; 0; 65535]]. split; reflexivity.
  - reflexivity.
  - lia.
Defined.

(** ** The offset table *)

Lemma eqb_finite_eq (p c : float) :
  finite_nonzero c = true -> PrimFloat.eqb p c = true -> p = c.
Proof.
  unfold finite_nonzero. intros Hf H.
  destruct (Prim2SF c) as [| | |s m e] eqn:Hc; try discriminate.
  rewrite FloatAxioms.eqb_spec, Hc in H.
  apply Prim2SF_inj. rewrite Hc.
  unfold SFeqb, SFcompare in H.
  destruct (Prim2SF p) as [sp|sp| |sp mp ep]; try discriminate;
    destruct sp, s; try discriminate.
  - destruct (Z.compare_spec ep e); try discriminate. subst.
    rewrite Pos.compare_cont_antisym in H. cbn in H.
    destruct (Pos.compare_cont Eq m mp) eqn:E; try discriminate.
    apply Pos.compare_eq in E. now subst.
  - destruct (Z.compare_spec ep e); try discriminate. subst.
    destruct (Pos.compare_cont Eq mp m) eqn:E; try discriminate.
    apply Pos.compare_eq in E. now subst.
Qed.

(** X15: every offset [_calc_Sv_offset] returns, at any frequency and for
    any pulse length, lies between 0.3 and 1.1; and every pulse length it
    knows at or below 38 kHz (500 and 1000) it also knows above 38 kHz,
    where the offset is strictly smaller. (The converse fails: 300, 700 and
    900 give [None] at or below 38 kHz.) *)
Theorem sv_offset_low_band_lengths_are_known_above
    (f f_hi pulse_length r : float) :
  _calc_Sv_offset f pulse_length = Some r ->
  PrimFloat.leb 0.3 r = true /\ PrimFloat.leb r 1.1 = true /\
  (PrimFloat.ltb 38000 f = false -> PrimFloat.ltb 38000 f_hi = true ->
   exists r',
     _calc_Sv_offset f_hi pulse_length = Some r' /\
     PrimFloat.ltb r' r = true).
Proof.
  intros Hr. unfold _calc_Sv_offset in *.
  destruct (PrimFloat.ltb 38000 f).
  - split; [|split; [|discriminate]];
      repeat match type of Hr with
             | (if ?b then _ else _) = _ => destruct b
             end;
      try discriminate; injection Hr as <-; reflexivity.
  - destruct (PrimFloat.eqb pulse_length 500) eqn:E5.
    { apply (eqb_finite_eq pulse_length 500 eq_refl) in E5. subst pulse_length.
      injection Hr as <-. repeat split. intros _ ->.
      exists 0.8%float. split; reflexivity. }
    destruct (PrimFloat.eqb pulse_length 1000) eqn:E10; [|discriminate].
    apply (eqb_finite_eq pulse_length 1000 eq_refl) in E10. subst pulse_length.
    injection Hr as <-. repeat split. intros _ ->.
    exists 0.3%float. split; reflexivity.
Qed.

Lemma sv_offset_low_band_lengths_are_known_above_witness :
  _calc_Sv_offset 38000 300 = None /\
  (PrimFloat.leb 0.3 1.1 = true /\ PrimFloat.leb 1.1 1.1 = true /\
   (PrimFloat.ltb 38000 38000 = false -> PrimFloat.ltb 38000 125000 = true ->
    exists r',
      _calc_Sv_offset 125000 500 = Some r' /\
      PrimFloat.ltb r' 1.1 = true)) /\
  (PrimFloat.leb 0.3 0.5 = true /\ PrimFloat.leb 0.5 1.1 = true /\
   (PrimFloat.ltb 38000 125000 = false -> PrimFloat.ltb 38000 125000 = true ->
    exists r',
      _calc_Sv_offset 125000 700 = Some r' /\
      PrimFloat.ltb r' 0.5 = true)).
Proof.
  assert (H0 : _calc_Sv_offset 38000 300 = None) by reflexivity.
  assert (H1 : _calc_Sv_offset 38000 500 = Some 1.1%float) by reflexivity.
  assert (H2 : _calc_Sv_offset 125000 700 = Some 0.5%float) by reflexivity.
  exact (conj H0 (conj
    (sv_offset_low_band_lengths_are_known_above 38000 125000 500 1.1 H1)
    (sv_offset_low_band_lengths_are_known_above 125000 125000 700 0.5 H2))).
Defined.

(** ** Dates that [datetime] refuses *)

(** The message of a refused year carries the year. *)
Example year_out_of_range_messages :
  dt 0 1 2 0 0 0 = inl (ValueError "year 0 is out of range") /\
  dt 10000 1 2 0 0 0 = inl (ValueError "year 10000 is out of range") /\
  dt (-5) 1 2 0 0 0 = inl (ValueError "year -5 is out of range").
Proof. repeat split; reflexivity. Qed.

Lemma dt_invalid c :
  seconds_in_range c -> ~ date_in_range c ->
  exists msg,
    dt (c_year c) (c_month c) (c_day c) (c_hour c) (c_minute c)
       (c_second c + c_hundredths c / 100)
    = inl (ValueError msg).
Proof.
  intros (Hs & Hh & Hle) Hbad.
  assert (0 <= c_hundredths c / 100) by (apply Z.div_pos; lia).
  unfold dt.
  repeat match goal with
         | |- context [if negb ?b then _ else _] =>
             destruct b eqn:?; cbn [negb]; [|eexists; reflexivity]
         end.
  exfalso. apply Hbad. unfold date_in_range.
  repeat match goal with
         | H : (_ && _)%bool = true |- _ => apply andb_prop in H as [? ?]
         end.
  lia.
Qed.

Lemma ping_datetime_invalid s cs i c :
  has_clocks (unpacked_data s) cs -> nth_error cs i = Some c ->
  seconds_in_range c -> ~ date_in_range c ->
  exists msg,
    ping_datetime (PInt (c_year c)) (Z.of_nat i) s = (inl (ValueError msg), s).
Proof.
  intros (_ & Hmo & Hd & Hh & Hmi & Hs & Hc) Hi Hsec Hbad.
  destruct (dt_invalid c Hsec Hbad) as [msg Hdt]. exists msg.
  unfold ping_datetime.
  rewrite (bind_inr _ _ _ _ _ (dd_int_column s _ c_month cs i c Hmo Hi)).
  rewrite (bind_inr _ _ _ _ _ (dd_int_column s _ c_day cs i c Hd Hi)).
  rewrite (bind_inr _ _ _ _ _ (dd_int_column s _ c_hour cs i c Hh Hi)).
  rewrite (bind_inr _ _ _ _ _ (dd_int_column s _ c_minute cs i c Hmi Hi)).
  rewrite (bind_inr _ _ _ _ _ (dd_int_column s _ c_second cs i c Hs Hi)).
  rewrite (bind_inr _ _ _ _ _ (dd_int_column s _ c_hundredths cs i c Hc Hi)).
  destruct Hsec as (Hsec & Hhun & Hle).
  rewrite (whole_seconds_valid _ _ Hsec Hhun Hle). cbn [lift]. mret.
  cbn [as_int]. mret. now rewrite Hdt.
Qed.

Lemma skipn_head {T} (l : list T) i x rest :
  skipn i l = x :: rest -> nth_error l i = Some x /\ skipn (S i) l = rest.
Proof.
  revert i. induction l as [|y l IH]; intros [|i] H; cbn in *; try discriminate.
  - injection H as -> ->. now split.
  - now apply IH.
Qed.

(** The loop of [_get_ping_time] stops at the first date it cannot build. *)
Lemma ping_times_stop s cs msg :
  has_clocks (unpacked_data s) cs ->
  forall pre c post i,
    skipn i cs = (pre ++ c :: post)%list -> Forall valid_clock pre ->
    ping_datetime (PInt (c_year c)) (Z.of_nat (i + List.length pre)) s
      = (inl (ValueError msg), s) ->
    ping_times (Z.of_nat i) (map (fun c => PInt (c_year c)) (pre ++ c :: post)) s
    = (inl (ValueError msg), s).
Proof.
  intros Hc pre. induction pre as [|p pre IH]; intros c post i Hskip Hv Hbad.
  - cbn [app map ping_times List.length] in *. rewrite Nat.add_0_r in Hbad.
    now rewrite (bind_inl _ _ _ _ _ Hbad).
  - cbn [app map ping_times] in *.
    destruct (skipn_head _ _ _ _ Hskip) as [Hi Hskip'].
    apply Forall_cons_iff in Hv as [Hp Hv].
    rewrite (bind_inr _ _ _ _ _ (ping_datetime_spec s cs i p Hc Hi Hp)).
    replace (Z.of_nat i + 1) with (Z.of_nat (S i)) by lia.
    rewrite (bind_inl _ _ _ _ _ (IH c post (S i) Hskip' Hv
      ltac:(cbn [List.length] in Hbad;
            now replace (S i + List.length pre)%nat
                  with (i + S (List.length pre))%nat by lia))).
    reflexivity.
Qed.

(** X16: the read loop stores the date fields of a ping as they come; when
    any ping carries a year, month, day, hour or minute that [datetime]
    refuses, [_get_ping_time] raises [ValueError] at the first such ping
    and leaves the parser as it was: [ping_time] is not set, not even for
    the pings before it. *)
Theorem get_ping_time_rejects_a_date_out_of_range
    (parse_raw : M unit) (s : parser) (pre post : list clock) (c : clock) :
  has_clocks (unpacked_data s) (pre ++ c :: post) ->
  Forall valid_clock pre ->
  seconds_in_range c -> ~ date_in_range c ->
  exists msg, _get_ping_time parse_raw s = (inl (ValueError msg), s).
Proof.
  intros Hc Hv Hsec Hbad.
  assert (Hi : nth_error (pre ++ c :: post) (0 + List.length pre) = Some c).
  { cbn. rewrite nth_error_app2 by lia. now rewrite Nat.sub_diag. }
  destruct (ping_datetime_invalid s _ _ c Hc Hi Hsec Hbad) as [msg Hdt].
  exists msg. unfold _get_ping_time.
  pose proof Hc as (Hy & _).
  rewrite (bind_inr _ _ _ _ _
             (ensure_parsed_nonempty parse_raw s (lookup_Some_nonempty _ _ _ Hy))).
  rewrite (bind_inr _ _ _ _ _ (dd_get_present _ _ _ Hy)). mret.
  now rewrite (bind_inl _ _ _ _ _
                 (ping_times_stop s _ msg Hc pre c post 0%nat eq_refl Hv Hdt)).
Qed.

Lemma get_ping_time_rejects_a_date_out_of_range_witness :
  fst (parse_raw_read params_no_temperature RefLibm.ref "f.01A" "f.XML"
         (fresh (frame_2020 ++ frame_zero_date)%list)) = inr (Some EndOfFile) /\
  exists msg,
    _get_ping_time (ret tt) valid_then_zero_date
    = (inl (ValueError msg), valid_then_zero_date).
Proof.
  assert (H1 : has_clocks (unpacked_data valid_then_zero_date)
                 ([Clock 2020 1 2 0 0 0 0] ++ Clock 0 0 0 0 0 0 0 :: [])%list)
    by (repeat split; vm_compute; reflexivity).
  assert (H2 : Forall valid_clock [Clock 2020 1 2 0 0 0 0]).
  { repeat constructor; vm_compute; discriminate. }
  assert (H3 : seconds_in_range (Clock 0 0 0 0 0 0 0))
    by (repeat split; vm_compute; discriminate).
  assert (H4 : ~ date_in_range (Clock 0 0 0 0 0 0 0))
    by (intros ((Hy & _) & _); cbn in Hy; lia).
  assert (H5 : fst (parse_raw_read params_no_temperature RefLibm.ref "f.01A"
                      "f.XML" (fresh (frame_2020 ++ frame_zero_date)%list))
               = inr (Some EndOfFile))
    by (vm_compute; reflexivity).
  exact (conj H5
    (get_ping_time_rejects_a_date_out_of_range (ret tt) valid_then_zero_date
       [Clock 2020 1 2 0 0 0 0] [] (Clock 0 0 0 0 0 0 0) H1 H2 H3 H4)).
Defined.

Lemma print_status_valid source_file xml_path s c cs :
  has_clocks (unpacked_data s) (c :: cs) -> valid_clock c ->
  _print_status source_file xml_path s
  = (inr tt, add_log (LogInfo source_file xml_path (clock_datetime c)) s).
Proof.
  intros Hc Hv.
  assert (Hy : dd_item "year" 0 s = (inr (PInt (c_year c)), s)).
  { destruct Hc as (Hy & _). now apply (dd_item_list _ _ _ _ _ Hy). }
  unfold _print_status. rewrite (bind_inr _ _ _ _ _ Hy).
  now rewrite (bind_inr _ _ _ _ _
                 (ping_datetime_spec s (c :: cs) 0%nat c Hc eq_refl Hv)).
Qed.

Lemma print_status_invalid source_file xml_path s c cs :
  has_clocks (unpacked_data s) (c :: cs) ->
  seconds_in_range c -> ~ date_in_range c ->
  exists msg, _print_status source_file xml_path s = (inl (ValueError msg), s).
Proof.
  intros Hc Hsec Hbad.
  assert (Hy : dd_item "year" 0 s = (inr (PInt (c_year c)), s)).
  { destruct Hc as (Hy & _). now apply (dd_item_list _ _ _ _ _ Hy). }
  destruct (ping_datetime_invalid s (c :: cs) 0%nat c Hc eq_refl Hsec Hbad)
    as [msg Hdt].
  exists msg. unfold _print_status. rewrite (bind_inr _ _ _ _ _ Hy).
  now rewrite (bind_inl _ _ _ _ _ Hdt).
Qed.

(** X17: [_print_status] looks at the first ping only, whatever the number
    of pings stored: with a valid date there it logs one record, the name
    of the file, the name of the XML file and the time of the first ping
    with its seconds truncated, and changes nothing else in the parser. *)
Theorem print_status_logs_the_first_ping
    (source_file xml_path : string) (s : parser) (c : clock) (cs : list clock) :
  has_clocks (unpacked_data s) (c :: cs) -> valid_clock c ->
  _print_status source_file xml_path s
  = (inr tt, add_log (LogInfo source_file xml_path (clock_datetime c)) s).
Proof. exact (print_status_valid source_file xml_path s c cs). Qed.

Lemma print_status_logs_the_first_ping_witness :
  _print_status "f.01A" "f.XML" state_030405_60
    = (inr tt,
       add_log (LogInfo "f.01A" "f.XML" (clock_datetime (Clock 2020 1 2 3 4 5 60)))
         state_030405_60).
Proof.
  apply (print_status_logs_the_first_ping "f.01A" "f.XML" state_030405_60
           (Clock 2020 1 2 3 4 5 60) []).
  - repeat split; vm_compute; reflexivity.
  - repeat split; vm_compute; discriminate.
Defined.

(** X18: the date of the first ping is checked during the read, by the
    status message: when the first header carries a date that [datetime]
    refuses, the ping stops with [ValueError] right after its sample block
    was stored, before any calibration value is appended. *)
Theorem first_ping_with_a_bad_date_aborts_the_read
    (params : parameters) (lm : libm) (source_file xml_path : string)
    (tv xv yv : bool) (s s1 : parser) (c : clock) (cs : list clock) :
  _add_counts params lm 0 s = (inr tt, s1) ->
  has_clocks (unpacked_data s1) (c :: cs) ->
  seconds_in_range c -> ~ date_in_range c ->
  exists msg,
    parse_ping params lm source_file xml_path 0 tv xv yv s
    = (inl (ValueError msg), s1).
Proof.
  intros Hadd Hc Hsec Hbad.
  destruct (print_status_invalid source_file xml_path s1 c cs Hc Hsec Hbad)
    as [msg Hp].
  exists msg. unfold parse_ping.
  rewrite (bind_inr _ _ _ _ _ Hadd). cbn [Z.eqb].
  now rewrite (bind_inl _ _ _ _ _ Hp).
Qed.

Lemma first_ping_with_a_bad_date_aborts_the_read_witness :
  exists msg,
    parse_ping params_no_temperature RefLibm.ref "f.01A" "f.XML" 0
      false false false zero_date_state
    = (inl (ValueError msg), zero_date_counted).
Proof.
  assert (H1 : _add_counts params_no_temperature RefLibm.ref 0 zero_date_state
               = (inr tt, zero_date_counted)).
  { assert (Hfst : fst (_add_counts params_no_temperature RefLibm.ref 0
                          zero_date_state) = inr tt) by (vm_compute; reflexivity).
    unfold zero_date_counted.
    destruct (_add_counts params_no_temperature RefLibm.ref 0 zero_date_state)
      as [r s0].
    cbn in Hfst |- *. now rewrite Hfst. }
  assert (H2 : has_clocks (unpacked_data zero_date_counted) [Clock 0 0 0 0 0 0 0])
    by (repeat split; vm_compute; reflexivity).
  assert (H3 : seconds_in_range (Clock 0 0 0 0 0 0 0))
    by (repeat split; vm_compute; discriminate).
  assert (H4 : ~ date_in_range (Clock 0 0 0 0 0 0 0))
    by (intros ((Hy & _) & _); cbn in Hy; lia).
  exact (first_ping_with_a_bad_date_aborts_the_read params_no_temperature
           RefLibm.ref "f.01A" "f.XML" false false false zero_date_state
           zero_date_counted (Clock 0 0 0 0 0 0 0) [] H1 H2 H3 H4).
Defined.

(** ** One ping of the read loop *)

Lemma holds_insert_ne d k k' e i v :
  k <> k' -> holds d k' i v -> holds (<[k := e]> d) k' i v.
Proof.
  intros Hne (l & Hl & Hi). exists l. split; [|exact Hi].
  now rewrite lookup_insert_ne.
Qed.

Lemma column_insert_eq d k l : column (<[k := PyList l]> d) k = l.
Proof. unfold column. now rewrite lookup_insert_eq. Qed.

Lemma holds_appended d k l x i :
  Z.of_nat (List.length l) = i ->
  holds (<[k := PyList (l ++ [x])]> d) k i x.
Proof.
  intros Hi. exists (l ++ [x])%list. split; [apply lookup_insert_eq|].
  rewrite (py_index_nth _ i x) by (rewrite length_app; cbn; lia).
  f_equal. subst i. rewrite Nat2Z.id, app_nth2 by lia.
  now rewrite Nat.sub_diag.
Qed.

Lemma append_step k (v : M pyval) x r d p l :
  accumulating d ->
  (forall l0, v (Parser r (<[k := PyList l0]> d) p l)
              = (inr x, Parser r (<[k := PyList l0]> d) p l)) ->
  dd_append k v (Parser r d p l)
  = (inr tt, Parser r (<[k := PyList (column d k ++ [x])]> d) p l).
Proof.
  intros Hacc Hv. unfold dd_append, column.
  destruct (d !! k) as [[l0|a]|] eqn:E.
  - assert (E1 : unpacked_data (Parser r d p l) !! k = Some (PyList l0)) by exact E.
    rewrite (bind_inr _ _ _ _ _ (dd_get_present _ _ _ E1)).
    specialize (Hv l0). rewrite (insert_id d k _ E) in Hv.
    rewrite (bind_inr _ _ _ _ _ Hv).
    now rewrite (bind_inr _ _ _ _ _ (dd_get_present _ _ _ E1)).
  - now destruct (Hacc k a).
  - assert (E1 : unpacked_data (Parser r d p l) !! k = None) by exact E.
    rewrite (bind_inr _ _ _ _ _ (dd_get_absent _ _ E1)).
    change (set_unpacked_data (<[k := PyList []]> (unpacked_data (Parser r d p l)))
              (Parser r d p l))
      with (Parser r (<[k := PyList []]> d) p l).
    rewrite (bind_inr _ _ _ _ _ (Hv [])).
    erewrite bind_inr by (apply dd_get_present; cbn; apply lookup_insert_eq).
    unfold dd_set, modify. cbn. now rewrite insert_insert_eq.
Qed.

Lemma temperature_runs params lm tv ping_num a4 :
  (tv = true ->
   PrimFloat.eqb (kc params - 2.5 * (Z2f a4 / Z2f 65535)) 0 = false) ->
  exists T, (tv = false -> T = nan) /\
    forall t anc,
      holds (unpacked_data t) "ancillary" ping_num (PTuple anc) ->
      py_index anc 4 = inr a4 ->
      _compute_temperature params lm ping_num tv t = (inr T, t).
Proof.
  intros Hden. destruct tv.
  - eexists. split; [discriminate|]. intros t anc Hanc Hidx.
    unfold _compute_temperature. cbn [negb].
    rewrite (bind_inr _ _ _ _ _ (dd_int2_holds _ _ _ _ _ _ Hanc Hidx)).
    unfold py_div. rewrite (Hden eq_refl). cbn [lift]. mret. reflexivity.
  - exists nan. split; [reflexivity|]. reflexivity.
Qed.

Lemma tilt_runs params xy flag ping_num a0 a1 rest t :
  holds (unpacked_data t) "ancillary" ping_num (PTuple (a0 :: a1 :: rest)) ->
  _compute_tilt params ping_num xy flag t
  = (inr (tilt_of params xy flag (match xy with X => a0 | Y => a1 end)), t).
Proof.
  intros Hanc. unfold _compute_tilt, tilt_of. destruct flag; [|reflexivity].
  cbn [negb].
  destruct xy.
  - now rewrite (bind_inr _ _ _ _ _
                   (dd_int2_holds _ _ _ 0 _ a0 Hanc (py_index_nth_error (a0 :: a1 :: rest) 0%nat a0 eq_refl))).
  - now rewrite (bind_inr _ _ _ _ _
                   (dd_int2_holds _ _ _ 1 _ a1 Hanc (py_index_nth_error (a0 :: a1 :: rest) 1%nat a1 eq_refl))).
Qed.

Lemma battery_main_runs ping_num a0 a1 a2 rest t :
  holds (unpacked_data t) "ancillary" ping_num (PTuple (a0 :: a1 :: a2 :: rest)) ->
  _compute_battery ping_num main t = (inr (Z2f a2 * USL5_BAT_CONSTANT)%float, t).
Proof.
  intros H. unfold _compute_battery.
  now rewrite (bind_inr _ _ _ _ _ (dd_int2_holds _ _ _ 2 _ a2 H (py_index_nth_error (a0 :: a1 :: a2 :: rest) 2%nat a2 eq_refl))).
Qed.

Lemma battery_tx_runs ping_num ad0 ads t :
  holds (unpacked_data t) "ad" ping_num (PTuple (ad0 :: ads)) ->
  _compute_battery ping_num tx t = (inr (Z2f ad0 * USL5_BAT_CONSTANT)%float, t).
Proof.
  intros H. unfold _compute_battery.
  now rewrite (bind_inr _ _ _ _ _ (dd_int2_holds _ _ _ 0 _ ad0 H (py_index_nth_error (ad0 :: ads) 0%nat ad0 eq_refl))).
Qed.

Lemma has_clocks_insert_counts d e cs :
  has_clocks d cs -> has_clocks (<["counts" := e]> d) cs.
Proof.
  intros (H1 & H2 & H3 & H4 & H5 & H6 & H7).
  repeat split; rewrite lookup_insert_ne by done; assumption.
Qed.

Ltac kept :=
  repeat (apply holds_insert_ne; [done|]); assumption.

(** [parse_ping] on a ping whose header is stored and whose payload is in
    the file. *)
Lemma parse_ping_run
    (params : parameters) (lm : libm) (source_file xml_path : string)
    (tv xv yv : bool) (s : parser) (ping_num n : Z) (nbs dts rss : list Z)
    (avg ppp a0 a1 a2 a3 a4 ad0 : Z) (ads : list Z) (c : clock) (cs : list clock) :
  accumulating (unpacked_data s) ->
  header_at (unpacked_data s) ping_num n nbs dts rss avg ppp ->
  Forall (fun nb => 0 <= nb) nbs ->
  0 <= n ->
  (Z.to_nat n <= List.length nbs)%nat -> (Z.to_nat n <= List.length dts)%nat ->
  (Z.to_nat n <= List.length rss)%nat ->
  (Z.to_nat n <= List.length (DS params))%nat ->
  payload_bytes dts nbs (Z.to_nat n) <= Z.of_nat (List.length (raw s)) ->
  holds (unpacked_data s) "ancillary" ping_num (PTuple [a0; a1; a2; a3; a4]) ->
  holds (unpacked_data s) "ad" ping_num (PTuple (ad0 :: ads)) ->
  Z.of_nat (List.length (column (unpacked_data s) "tilt_x")) = ping_num ->
  Z.of_nat (List.length (column (unpacked_data s) "tilt_y")) = ping_num ->
  (ping_num = 0 -> has_clocks (unpacked_data s) (c :: cs) /\ valid_clock c) ->
  (tv = true ->
   PrimFloat.eqb (kc params - 2.5 * (Z2f a4 / Z2f 65535)) 0 = false) ->
  square_overflows lm (tilt_of params X xv a0) = false ->
  square_overflows lm (tilt_of params Y yv a1) = false ->
  exists s',
    parse_ping params lm source_file xml_path ping_num tv xv yv s = (inr tt, s') /\
    raw s' = skipn (Z.to_nat (payload_bytes dts nbs (Z.to_nat n))) (raw s) /\
    ping_time s' = ping_time s /\
    log s' = (if ping_num =? 0
              then log s ++ [LogInfo source_file xml_path (clock_datetime c)]
              else log s)%list /\
    accumulating (unpacked_data s') /\
    (forall k, In k ping_columns ->
       exists v, column (unpacked_data s') k
                 = (column (unpacked_data s) k ++ [v])%list) /\
    (forall k, ~ In k ping_columns ->
       unpacked_data s' !! k = unpacked_data s !! k) /\
    column (unpacked_data s') "tilt_x"
      = (column (unpacked_data s) "tilt_x" ++ [PFloat (tilt_of params X xv a0)])%list /\
    column (unpacked_data s') "tilt_y"
      = (column (unpacked_data s) "tilt_y" ++ [PFloat (tilt_of params Y yv a1)])%list /\
    column (unpacked_data s') "battery_main"
      = (column (unpacked_data s) "battery_main"
         ++ [PFloat (Z2f a2 * USL5_BAT_CONSTANT)])%list /\
    column (unpacked_data s') "battery_tx"
      = (column (unpacked_data s) "battery_tx"
         ++ [PFloat (Z2f ad0 * USL5_BAT_CONSTANT)])%list.
Proof.
  intros Hacc Hhdr Hpos Hn Lnb Ldt Lrs Lds Hbytes Hanc Had Hlx Hly Hfirst Hden
    Hox Hoy.
  destruct (add_counts_run params lm s ping_num n nbs dts rss avg ppp
              Hhdr Hpos Hn Lnb Ldt Lrs Lds Hbytes (fun a => Hacc "counts" a))
    as (vv & Hadd & _ & _).
  destruct (temperature_runs params lm tv ping_num a4 Hden) as (T & _ & HT).
  destruct s as [r d p l]. cbn [unpacked_data raw ping_time log] in *.
  set (r' := skipn _ r) in *.
  set (d1 := <["counts" := PyList (column d "counts" ++ [PCounts vv])]> d) in *.
  change (set_unpacked_data d1 (set_raw r' (Parser r d p l)))
    with (Parser r' d1 p l) in Hadd.
  set (l' := (if ping_num =? 0
              then l ++ [LogInfo source_file xml_path (clock_datetime c)]
              else l)%list).
  assert (Hprint : (if ping_num =? 0 then _print_status source_file xml_path
                    else ret tt) (Parser r' d1 p l) = (inr tt, Parser r' d1 p l')).
  { unfold l'. destruct (Z.eqb_spec ping_num 0) as [Hz|Hnz]; [|reflexivity].
    destruct (Hfirst Hz) as [Hclk Hv].
    exact (print_status_valid source_file xml_path (Parser r' d1 p l) c cs
             (has_clocks_insert_counts d _ _ Hclk) Hv). }
  assert (Hacc1 : accumulating d1) by now apply accumulating_insert.
  set (d2 := <["temperature" := PyList (column d1 "temperature" ++ [PFloat T])]> d1).
  assert (Hacc2 : accumulating d2) by now apply accumulating_insert.
  set (tx_v := tilt_of params X xv a0) in *.
  set (ty_v := tilt_of params Y yv a1) in *.
  set (d3 := <["tilt_x" := PyList (column d2 "tilt_x" ++ [PFloat tx_v])]> d2).
  assert (Hacc3 : accumulating d3) by now apply accumulating_insert.
  set (d4 := <["tilt_y" := PyList (column d3 "tilt_y" ++ [PFloat ty_v])]> d3).
  assert (Hacc4 : accumulating d4) by now apply accumulating_insert.
  set (ct := m_cos lm (PrimFloat.sqrt (m_pow lm tx_v 2 + m_pow lm ty_v 2)
                       * np_pi / 180)%float).
  set (d5 := <["cos_tilt_mag" := PyList (column d4 "cos_tilt_mag" ++ [PFloat ct])]> d4).
  assert (Hacc5 : accumulating d5) by now apply accumulating_insert.
  set (bm := (Z2f a2 * USL5_BAT_CONSTANT)%float).
  set (bt := (Z2f ad0 * USL5_BAT_CONSTANT)%float).
  set (d6 := <["battery_main" := PyList (column d5 "battery_main" ++ [PFloat bm])]> d5).
  assert (Hacc6 : accumulating d6) by now apply accumulating_insert.
  set (d7 := <["battery_tx" := PyList (column d6 "battery_tx" ++ [PFloat bt])]> d6).
  assert (Hacc7 : accumulating d7) by now apply accumulating_insert.
  assert (S2 : dd_append "temperature"
                 (t ← _compute_temperature params lm ping_num tv; ret (PFloat t))
                 (Parser r' d1 p l') = (inr tt, Parser r' d2 p l')).
  { apply append_step; [exact Hacc1|]. intros l0.
    erewrite bind_inr; [reflexivity|].
    apply (HT _ [a0; a1; a2; a3; a4]); [|reflexivity].
    cbn [unpacked_data]. unfold d1. kept. }
  assert (S3 : dd_append "tilt_x"
                 (t ← _compute_tilt params ping_num X xv; ret (PFloat t))
                 (Parser r' d2 p l') = (inr tt, Parser r' d3 p l')).
  { apply append_step; [exact Hacc2|]. intros l0.
    erewrite bind_inr; [reflexivity|].
    apply (tilt_runs params X xv ping_num a0 a1 [a2; a3; a4]).
    cbn [unpacked_data]. unfold d2, d1. kept. }
  assert (S4 : dd_append "tilt_y"
                 (t ← _compute_tilt params ping_num Y yv; ret (PFloat t))
                 (Parser r' d3 p l') = (inr tt, Parser r' d4 p l')).
  { apply append_step; [exact Hacc3|]. intros l0.
    erewrite bind_inr; [reflexivity|].
    apply (tilt_runs params Y yv ping_num a0 a1 [a2; a3; a4]).
    cbn [unpacked_data]. unfold d3, d2, d1. kept. }
  assert (Cx : column d2 "tilt_x" = column d "tilt_x").
  { unfold d2, d1. now rewrite !column_insert_ne by done. }
  assert (Cy : column d3 "tilt_y" = column d "tilt_y").
  { unfold d3, d2, d1. now rewrite !column_insert_ne by done. }
  assert (S5 : dd_append "cos_tilt_mag" (t ← cos_tilt_mag lm ping_num; ret (PFloat t))
                 (Parser r' d4 p l') = (inr tt, Parser r' d5 p l')).
  { apply append_step; [exact Hacc4|]. intros l0.
    erewrite bind_inr; [reflexivity|].
    apply cos_tilt_mag_runs; try assumption; cbn [unpacked_data].
    - apply holds_insert_ne; [done|]. unfold d4.
      apply holds_insert_ne; [done|]. unfold d3.
      apply holds_appended. now rewrite Cx.
    - apply holds_insert_ne; [done|]. unfold d4.
      apply holds_appended. now rewrite Cy. }
  assert (S6 : dd_append "battery_main"
                 (t ← _compute_battery ping_num main; ret (PFloat t))
                 (Parser r' d5 p l') = (inr tt, Parser r' d6 p l')).
  { apply append_step; [exact Hacc5|]. intros l0.
    erewrite bind_inr; [reflexivity|].
    apply (battery_main_runs ping_num a0 a1 a2 [a3; a4]).
    cbn [unpacked_data]. unfold d5, d4, d3, d2, d1. kept. }
  assert (S7 : dd_append "battery_tx"
                 (t ← _compute_battery ping_num tx; ret (PFloat t))
                 (Parser r' d6 p l') = (inr tt, Parser r' d7 p l')).
  { apply append_step; [exact Hacc6|]. intros l0.
    erewrite bind_inr; [reflexivity|].
    apply (battery_tx_runs ping_num ad0 ads).
    cbn [unpacked_data]. unfold d6, d5, d4, d3, d2, d1. kept. }
  exists (Parser r' d7 p l').
  split.
  { unfold parse_ping.
    rewrite (bind_inr _ _ _ _ _ Hadd), (bind_inr _ _ _ _ _ Hprint),
            (bind_inr _ _ _ _ _ S2), (bind_inr _ _ _ _ _ S3),
            (bind_inr _ _ _ _ _ S4), (bind_inr _ _ _ _ _ S5),
            (bind_inr _ _ _ _ _ S6).
    exact S7. }
  cbn [raw ping_time log unpacked_data].
  assert (Hcol : forall k v0, In k ping_columns ->
            (k = "counts" -> v0 = PCounts vv) ->
            (k = "temperature" -> v0 = PFloat T) ->
            (k = "tilt_x" -> v0 = PFloat tx_v) ->
            (k = "tilt_y" -> v0 = PFloat ty_v) ->
            (k = "cos_tilt_mag" -> v0 = PFloat ct) ->
            (k = "battery_main" -> v0 = PFloat bm) ->
            (k = "battery_tx" -> v0 = PFloat bt) ->
            column d7 k = (column d k ++ [v0])%list).
  { intros k v0 Hin E1 E2 E3 E4 E5 E6 E7.
    unfold d7, d6, d5, d4, d3, d2, d1.
    repeat destruct Hin as [<-|Hin]; try destruct Hin;
      repeat (rewrite column_insert_ne by done);
      rewrite column_insert_eq;
      repeat (rewrite column_insert_ne by done);
      f_equal; f_equal; symmetry; auto. }
  repeat split; try reflexivity; try assumption.
  - intros k Hin.
    assert (Hk := Hin). cbn in Hk.
    destruct Hk as [<-|[<-|[<-|[<-|[<-|[<-|[<-|[]]]]]]]];
      [exists (PCounts vv)|exists (PFloat T)|exists (PFloat tx_v)
      |exists (PFloat ty_v)|exists (PFloat ct)|exists (PFloat bm)
      |exists (PFloat bt)];
      (apply Hcol; [exact Hin|..]; intros; try discriminate; reflexivity).
  - intros k Hk. unfold d7, d6, d5, d4, d3, d2, d1.
    rewrite !lookup_insert_ne; [reflexivity|..];
      intros <-; apply Hk; cbn; tauto.
  - apply Hcol; [cbn; tauto|..]; intros; try discriminate; reflexivity.
  - apply Hcol; [cbn; tauto|..]; intros; try discriminate; reflexivity.
  - apply Hcol; [cbn; tauto|..]; intros; try discriminate; reflexivity.
  - apply Hcol; [cbn; tauto|..]; intros; try discriminate; reflexivity.
Qed.

(** X19: one turn of the read loop after its header was accepted. With the
    header of the ping stored (its channels, bins and data types, five
    ancillary values, an A/D value), its payload in the file, as many tilts
    stored as pings read before, a valid date when the ping is the first,
    no zero denominator in the temperature and no overflow in the squares of
    the tilts, [parse_ping] raises nothing: it consumes exactly the payload
    and appends exactly one value to each of [counts], [temperature],
    [tilt_x], [tilt_y], [cos_tilt_mag], [battery_main] and [battery_tx],
    the tilts and battery voltages being those of this ping; every other
    key and [ping_time] stay as they were, and only the first ping logs a
    record. *)
Theorem one_ping_appends_one_value_per_column
    (params : parameters) (lm : libm) (source_file xml_path : string)
    (tv xv yv : bool) (s : parser) (ping_num n : Z) (nbs dts rss : list Z)
    (avg ppp a0 a1 a2 a3 a4 ad0 : Z) (ads : list Z) (c : clock) (cs : list clock) :
  accumulating (unpacked_data s) ->
  header_at (unpacked_data s) ping_num n nbs dts rss avg ppp ->
  Forall (fun nb => 0 <= nb) nbs ->
  0 <= n ->
  (Z.to_nat n <= List.length nbs)%nat -> (Z.to_nat n <= List.length dts)%nat ->
  (Z.to_nat n <= List.length rss)%nat ->
  (Z.to_nat n <= List.length (DS params))%nat ->
  payload_bytes dts nbs (Z.to_nat n) <= Z.of_nat (List.length (raw s)) ->
  holds (unpacked_data s) "ancillary" ping_num (PTuple [a0; a1; a2; a3; a4]) ->
  holds (unpacked_data s) "ad" ping_num (PTuple (ad0 :: ads)) ->
  Z.of_nat (List.length (column (unpacked_data s) "tilt_x")) = ping_num ->
  Z.of_nat (List.length (column (unpacked_data s) "tilt_y")) = ping_num ->
  (ping_num = 0 -> has_clocks (unpacked_data s) (c :: cs) /\ valid_clock c) ->
  (tv = true ->
   PrimFloat.eqb (kc params - 2.5 * (Z2f a4 / Z2f 65535)) 0 = false) ->
  square_overflows lm (tilt_of params X xv a0) = false ->
  square_overflows lm (tilt_of params Y yv a1) = false ->
  exists s',
    parse_ping params lm source_file xml_path ping_num tv xv yv s = (inr tt, s') /\
    raw s' = skipn (Z.to_nat (payload_bytes dts nbs (Z.to_nat n))) (raw s) /\
    ping_time s' = ping_time s /\
    log s' = (if ping_num =? 0
              then log s ++ [LogInfo source_file xml_path (clock_datetime c)]
              else log s)%list /\
    accumulating (unpacked_data s') /\
    (forall k, In k ping_columns ->
       exists v, column (unpacked_data s') k
                 = (column (unpacked_data s) k ++ [v])%list) /\
    (forall k, ~ In k ping_columns ->
       unpacked_data s' !! k = unpacked_data s !! k) /\
    column (unpacked_data s') "tilt_x"
      = (column (unpacked_data s) "tilt_x" ++ [PFloat (tilt_of params X xv a0)])%list /\
    column (unpacked_data s') "tilt_y"
      = (column (unpacked_data s) "tilt_y" ++ [PFloat (tilt_of params Y yv a1)])%list /\
    column (unpacked_data s') "battery_main"
      = (column (unpacked_data s) "battery_main"
         ++ [PFloat (Z2f a2 * USL5_BAT_CONSTANT)])%list /\
    column (unpacked_data s') "battery_tx"
      = (column (unpacked_data s) "battery_tx"
         ++ [PFloat (Z2f ad0 * USL5_BAT_CONSTANT)])%list.
Proof.
  exact (parse_ping_run params lm source_file xml_path tv xv yv s ping_num n nbs dts
           rss avg ppp a0 a1 a2 a3 a4 ad0 ads c cs).
Qed.

Lemma accumulating_check d : lists_only d = true -> accumulating d.
Proof.
  unfold lists_only. intros H k a Hk.
  apply elem_of_map_to_list, list_elem_of_In in Hk.
  rewrite forallb_forall in H. specialize (H _ Hk). discriminate.
Qed.

Lemma one_ping_appends_one_value_per_column_witness :
  exists s',
    parse_ping params_no_temperature RefLibm.ref "f.01A" "f.XML" 0
      false false false raw_3_state = (inr tt, s') /\
    raw s' = skipn (Z.to_nat (payload_bytes [0] [3] (Z.to_nat 1))) (raw raw_3_state) /\
    log s' = (log raw_3_state
              ++ [LogInfo "f.01A" "f.XML" (clock_datetime (Clock 2020 1 2 0 0 0 0))])%list /\
    column (unpacked_data s') "tilt_x" = [PFloat nan].
Proof.
  assert (H1 : accumulating (unpacked_data raw_3_state))
    by (apply accumulating_check; vm_compute; reflexivity).
  assert (H2 : Forall (fun nb => 0 <= nb) [3]) by (repeat constructor; lia).
  assert (H3 : 0 <= 1) by lia.
  assert (H4 : (Z.to_nat 1 <= List.length [3])%nat) by (cbn; lia).
  assert (H5 : (Z.to_nat 1 <= List.length [0])%nat) by (cbn; lia).
  assert (H6 : (Z.to_nat 1 <= List.length (DS params_no_temperature))%nat)
    by (cbn; lia).
  assert (H7 : payload_bytes [0] [3] (Z.to_nat 1)
               <= Z.of_nat (List.length (raw raw_3_state)))
    by (vm_compute; discriminate).
  assert (H8 : holds (unpacked_data raw_3_state) "ancillary" 0
                 (PTuple [0; 0; 0; 0; 0]))
    by (exists [PTuple [0; 0; 0; 0; 0]]; split; vm_compute; reflexivity).
  assert (H9 : holds (unpacked_data raw_3_state) "ad" 0 (PTuple [0; 0]))
    by (exists [PTuple [0; 0]]; split; vm_compute; reflexivity).
  assert (H10 : Z.of_nat (List.length (column (unpacked_data raw_3_state) "tilt_x")) = 0)
    by (vm_compute; reflexivity).
  assert (H11 : Z.of_nat (List.length (column (unpacked_data raw_3_state) "tilt_y")) = 0)
    by (vm_compute; reflexivity).
  assert (H12 : 0 = 0 -> has_clocks (unpacked_data raw_3_state)
                           [Clock 2020 1 2 0 0 0 0]
                         /\ valid_clock (Clock 2020 1 2 0 0 0 0)).
  { intros _. split; [repeat split; vm_compute; reflexivity|].
    repeat split; vm_compute; discriminate. }
  assert (H13 : false = true ->
                PrimFloat.eqb (kc params_no_temperature - 2.5 * (Z2f 0 / Z2f 65535)) 0
                = false) by discriminate.
  destruct (one_ping_appends_one_value_per_column params_no_temperature
              RefLibm.ref "f.01A" "f.XML" false false false raw_3_state
              0 1 [3] [0] [0] 0 0 0 0 0 0 0 0 [0] (Clock 2020 1 2 0 0 0 0) []
              H1 raw_3_header H2 H3 H4 H5 H5 H6 H7 H8 H9 H10 H11 H12 H13
              eq_refl eq_refl)
    as (s' & Hrun & Hraw & _ & Hlog & _ & _ & _ & Hx & _).
  assert (E : forall A B : list log_record, (if 0 =? 0 then A else B) = A)
    by reflexivity.
  rewrite E in Hlog.
  exists s'. refine (conj Hrun (conj Hraw (conj Hlog _))).
  rewrite Hx. vm_compute. reflexivity.
Defined.

(** ** The read loop on a well-formed file *)

Lemma field_at_split name fields :
  forall off f o,
    field_at name fields off = Some (f, o) ->
    exists pre post,
      fields = (pre ++ f :: post)%list /\ o = off + total_slots pre /\
      f_name f = name.
Proof.
  induction fields as [|g fs IH]; intros off f o H; [discriminate|].
  cbn [field_at] in H. destruct (String.eqb_spec (f_name g) name) as [E|E].
  - injection H as <- <-. exists [], fs. cbn. repeat split; [lia|exact E].
  - destruct (IH _ _ _ H) as (pre & post & -> & -> & Hn).
    exists (g :: pre), post. rewrite total_slots_cons.
    repeat split; [lia|exact Hn].
Qed.

Lemma header_length chunk :
  List.length (unpack_codes header_codes chunk) = 67%nat.
Proof. reflexivity. Qed.

Lemma column_lookup d k l x :
  column d k = (l ++ [x])%list -> d !! k = Some (PyList (l ++ [x])).
Proof.
  unfold column. destruct (d !! k) as [[l0|a]|]; intros H.
  - now subst.
  - now destruct l.
  - now destruct l.
Qed.

Lemma holds_of_column d k l x i :
  column d k = (l ++ [x])%list -> Z.of_nat (List.length l) = i ->
  holds d k i x.
Proof.
  intros Hc Hi. exists (l ++ [x])%list. split; [now apply column_lookup|].
  rewrite (py_index_nth _ i x) by (rewrite length_app; cbn; lia).
  f_equal. subst i. rewrite Nat2Z.id, app_nth2 by lia.
  now rewrite Nat.sub_diag.
Qed.

Lemma not_in_check (k : string) (l : list string) :
  forallb (fun x => negb (String.eqb x k)) l = true -> ~ In k l.
Proof.
  intros H Hin. rewrite forallb_forall in H. specialize (H k Hin).
  now rewrite String.eqb_refl in H.
Qed.

Lemma ping_columns_fresh k :
  In k ping_columns -> ~ In k (map f_name HEADER_FIELDS).
Proof.
  intros Hin. apply not_in_check.
  repeat destruct Hin as [<-|Hin]; try reflexivity. destruct Hin.
Qed.

Lemma header_fields_apart k :
  In k (map f_name HEADER_FIELDS) -> ~ In k ping_columns.
Proof. intros Hk Hp. exact (ping_columns_fresh k Hp Hk). Qed.

Lemma field_at_header k :
  In k (map f_name HEADER_FIELDS) ->
  exists f o, field_at k HEADER_FIELDS 0 = Some (f, o).
Proof.
  intros Hin. cbn in Hin.
  repeat destruct Hin as [<-|Hin]; try (eexists _, _; reflexivity).
  destruct Hin.
Qed.

Lemma stored_column params hdr d d' name v :
  (forall pre fld post,
     HEADER_FIELDS = (pre ++ fld :: post)%list ->
     column d' (f_name fld)
     = (column d (f_name fld)
          ++ [stored (num_freq params) hdr fld (total_slots pre)])%list) ->
  header_value params hdr name = Some v ->
  column d' name = (column d name ++ [v])%list.
Proof.
  intros Hcol Hv. unfold header_value in Hv.
  destruct (field_at name HEADER_FIELDS 0) as [[f o]|] eqn:E; [|discriminate].
  destruct (field_at_split _ _ _ _ _ E) as (pre & post & Heq & -> & <-).
  injection Hv as <-. rewrite (Hcol pre f post Heq). cbn [Z.add]. reflexivity.
Qed.

Lemma column_same d d' k : d' !! k = d !! k -> column d' k = column d k.
Proof. unfold column. now intros ->. Qed.

Lemma header_clock_columns params hdr d d' c :
  (forall name v, header_value params hdr name = Some v ->
                  column d' name = (column d name ++ [v])%list) ->
  (forall k, In k (map f_name HEADER_FIELDS) -> List.length (column d k) = 0%nat) ->
  header_clock params hdr = Some c ->
  has_clocks d' [c].
Proof.
  intros Hcol Hlen Hc. unfold header_clock in Hc.
  destruct (header_value params hdr "year") as [[y| | |]|] eqn:Ey; try discriminate.
  destruct (header_value params hdr "month") as [[mo| | |]|] eqn:Emo; try discriminate.
  destruct (header_value params hdr "day") as [[dd| | |]|] eqn:Ed; try discriminate.
  destruct (header_value params hdr "hour") as [[h| | |]|] eqn:Eh; try discriminate.
  destruct (header_value params hdr "minute") as [[mi| | |]|] eqn:Emi; try discriminate.
  destruct (header_value params hdr "second") as [[sec| | |]|] eqn:Es; try discriminate.
  destruct (header_value params hdr "hundredths") as [[hs| | |]|] eqn:Ehs; try discriminate.
  injection Hc as <-.
  assert (Hone : forall name z,
            In name (map f_name HEADER_FIELDS) ->
            header_value params hdr name = Some (PInt z) ->
            d' !! name = Some (PyList [PInt z])).
  { intros name z Hin Hv. pose proof (Hcol _ _ Hv) as H.
    pose proof (Hlen name Hin) as H0.
    destruct (column d name); [|discriminate].
    now apply (column_lookup d' name []). }
  repeat split; cbn [map c_year c_month c_day c_hour c_minute c_second c_hundredths];
    apply Hone; try assumption; cbn; tauto.
Qed.

Lemma in_header_keys k :
  In k (map f_name HEADER_FIELDS) -> In k per_ping_keys.
Proof. intros H. apply in_or_app. now left. Qed.

Lemma in_ping_keys k : In k ping_columns -> In k per_ping_keys.
Proof. intros H. apply in_or_app. now right. Qed.

(** One turn of the read loop on a well-formed ping. *)
Lemma ping_turn params lm src xml tv xv yv (i : nat) s frame payload rest :
  raw s = (frame ++ payload ++ rest)%list ->
  List.length frame = 124%nat ->
  nth 0 (unpack_codes header_codes frame) 0 = FILE_TYPE ->
  ping_ok params lm tv xv yv (Z.of_nat i) (unpack_codes header_codes frame)
    payload ->
  pings_read (unpacked_data s) i ->
  exists s',
    (forall fuel,
       parse_loop params lm src xml (S fuel) (Z.of_nat i) tv xv yv s
       = parse_loop params lm src xml fuel (Z.of_nat (S i)) tv xv yv s') /\
    raw s' = rest /\ ping_time s' = ping_time s /\
    pings_read (unpacked_data s') (S i) /\
    List.length (log s')
    = (List.length (log s) + match i with O => 1 | S _ => 0 end)%nat.
Proof.
  intros Hraw Hlen Hmark Hok [Hacc Hcols].
  set (hdr := unpack_codes header_codes frame) in *.
  destruct Hok as (n & nbs & dts & rss & avg & ppp & a0 & a1 & a2 & a3 & a4
                   & ad0 & ads & Vn & Vnb & Vdt & Vrs & Vavg & Vppp & Vanc & Vad
                   & Hpos & Hn & Lnb & Ldt & Lrs & Lds & Hbytes & Hfirst & Hden
                   & Hox & Hoy).
  (* the header is read and decoded *)
  assert (Hread : read HEADER_SIZE s = (inr frame, set_raw (payload ++ rest) s)).
  { apply read_app; [exact Hraw|]. rewrite Hlen. reflexivity. }
  set (s1 := set_raw (payload ++ rest) s) in *.
  destruct (split_header_run params hdr s1 (header_length frame) Hmark Hacc)
    as (s2 & Hsplit & Hraw2 & Hlog2 & Htime2 & Hacc2 & Hstored & Hother2).
  change (unpacked_data s1) with (unpacked_data s) in Hstored, Hother2.
  change (raw s1) with (payload ++ rest)%list in Hraw2.
  change (log s1) with (log s) in Hlog2.
  change (ping_time s1) with (ping_time s) in Htime2.
  assert (Hval : forall name v,
            header_value params hdr name = Some v ->
            column (unpacked_data s2) name = (column (unpacked_data s) name ++ [v])%list).
  { intros name v. now apply stored_column. }
  assert (Hheld : forall name v,
            In name (map f_name HEADER_FIELDS) ->
            header_value params hdr name = Some v ->
            holds (unpacked_data s2) name (Z.of_nat i) v).
  { intros name v Hin Hv.
    apply (holds_of_column _ _ (column (unpacked_data s) name)); [now apply Hval|].
    now rewrite (Hcols name (in_header_keys _ Hin)). }
  assert (Hhdr : header_at (unpacked_data s2) (Z.of_nat i) n nbs dts rss avg ppp).
  { repeat split; apply Hheld; try assumption; cbn; tauto. }
  assert (Hanc : holds (unpacked_data s2) "ancillary" (Z.of_nat i)
                   (PTuple [a0; a1; a2; a3; a4])).
  { apply Hheld; [cbn; tauto|exact Vanc]. }
  assert (Had : holds (unpacked_data s2) "ad" (Z.of_nat i) (PTuple (ad0 :: ads))).
  { apply Hheld; [cbn; tauto|exact Vad]. }
  assert (Hkeep : forall k, In k ping_columns ->
            column (unpacked_data s2) k = column (unpacked_data s) k).
  { intros k Hk. apply column_same, Hother2. now apply ping_columns_fresh. }
  assert (Hlx : Z.of_nat (List.length (column (unpacked_data s2) "tilt_x"))
                = Z.of_nat i).
  { rewrite Hkeep by (cbn; tauto). f_equal. apply Hcols, in_ping_keys. cbn. tauto. }
  assert (Hly : Z.of_nat (List.length (column (unpacked_data s2) "tilt_y"))
                = Z.of_nat i).
  { rewrite Hkeep by (cbn; tauto). f_equal. apply Hcols, in_ping_keys. cbn. tauto. }
  assert (Hpay : payload_bytes dts nbs (Z.to_nat n) <= Z.of_nat (List.length (raw s2))).
  { rewrite Hraw2, length_app. lia. }
  assert (Hclock : exists c,
            Z.of_nat i = 0 ->
            has_clocks (unpacked_data s2) [c] /\ valid_clock c).
  { destruct i as [|i'].
    - destruct (Hfirst eq_refl) as (c & Hc & Hv). exists c. intros _.
      split; [|exact Hv].
      apply (header_clock_columns params hdr (unpacked_data s)); try assumption.
      intros k Hk. apply Hcols. now apply in_header_keys.
    - exists (Clock 0 0 0 0 0 0 0). intros H. lia. }
  destruct Hclock as [c Hclock].
  destruct (parse_ping_run params lm src xml tv xv yv s2 (Z.of_nat i) n nbs dts rss
              avg ppp a0 a1 a2 a3 a4 ad0 ads c [] Hacc2 Hhdr Hpos Hn Lnb Ldt Lrs Lds
              Hpay Hanc Had Hlx Hly Hclock Hden Hox Hoy)
    as (s3 & Hping & Hraw3 & Htime3 & Hlog3 & Hacc3 & Hgrow & Hother3 & _).
  exists s3. split; [|split; [|split; [|split]]].
  - intros fuel. cbn [parse_loop].
    rewrite (bind_inr _ _ _ _ _ Hread).
    destruct frame as [|b frame']; [discriminate Hlen|].
    rewrite (unpack_header (b :: frame') Hlen). fold hdr. cbn [lift]. mret.
    rewrite (bind_inr _ _ _ _ _ Hsplit).
    rewrite (bind_inr _ _ _ _ _ Hping).
    replace (Z.of_nat i + 1) with (Z.of_nat (S i)) by lia. reflexivity.
  - rewrite Hraw3, Hraw2, Hbytes, Nat2Z.id.
    now rewrite skipn_app, skipn_all, Nat.sub_diag.
  - now rewrite Htime3, Htime2.
  - split; [exact Hacc3|]. intros k Hk. apply in_app_or in Hk as [Hk|Hk].
    + rewrite (column_same _ _ k (Hother3 k (header_fields_apart k Hk))).
      destruct (field_at_header k Hk) as (f & o & Hf).
      rewrite (Hval k (stored (num_freq params) hdr f o)).
      * rewrite length_app, (Hcols k (in_header_keys _ Hk)). cbn. lia.
      * unfold header_value. now rewrite Hf.
    + destruct (Hgrow k Hk) as [v Hv]. rewrite Hv, length_app, (Hkeep k Hk).
      rewrite (Hcols k (in_ping_keys _ Hk)). cbn. lia.
  - rewrite Hlog3, Hlog2. destruct (Z.eqb_spec (Z.of_nat i) 0) as [Hz|Hnz].
    + destruct i; [|lia]. now rewrite length_app.
    + destruct i; [lia|]. lia.
Qed.

Lemma file_of_cons frame payload rest :
  file_of ((frame, payload) :: rest) = (frame ++ payload ++ file_of rest)%list.
Proof. unfold file_of. cbn [map concat fst snd]. now rewrite <- app_assoc. Qed.

Lemma loop_at_end params lm src xml tv xv yv fuel ping_num s :
  raw s = [] ->
  parse_loop params lm src xml (S fuel) ping_num tv xv yv s
  = (inr (Some EndOfFile), s).
Proof.
  intros Hraw. cbn [parse_loop].
  assert (Hread : read HEADER_SIZE s = (inr [], s)).
  { rewrite read_prefix by (unfold HEADER_SIZE; lia).
    rewrite Hraw, firstn_nil, skipn_nil. now rewrite set_raw_nil. }
  now rewrite (bind_inr _ _ _ _ _ Hread).
Qed.

Lemma loop_on_pings params lm src xml tv xv yv :
  forall pings (i : nat) s fuel,
    raw s = file_of pings ->
    (List.length (raw s) < fuel)%nat ->
    pings_read (unpacked_data s) i ->
    pings_ok params lm tv xv yv (Z.of_nat i) pings ->
    exists s',
      parse_loop params lm src xml fuel (Z.of_nat i) tv xv yv s
      = (inr (Some EndOfFile), s') /\
      raw s' = [] /\ ping_time s' = ping_time s /\
      pings_read (unpacked_data s') (i + List.length pings) /\
      List.length (log s')
      = (List.length (log s)
         + match i, pings with O, _ :: _ => 1 | _, _ => 0 end)%nat.
Proof.
  induction pings as [|[frame payload] pings IH]; intros i s fuel Hraw Hfuel Hinv Hok;
    (destruct fuel as [|fuel]; [lia|]).
  - exists s. rewrite (loop_at_end _ _ _ _ _ _ _ _ _ _ Hraw).
    rewrite Nat.add_0_r. repeat split; try assumption; try apply Hinv.
    destruct i; lia.
  - rewrite file_of_cons in Hraw.
    destruct Hok as (Hlen & Hmark & Hok & Hrest).
    destruct (ping_turn params lm src xml tv xv yv i s frame payload
                (file_of pings) Hraw Hlen Hmark Hok Hinv)
      as (s1 & Hturn & Hraw1 & Htime1 & Hinv1 & Hlog1).
    replace (Z.of_nat i + 1) with (Z.of_nat (S i)) in Hrest by lia.
    destruct (IH (S i) s1 fuel Hraw1) as (s' & Hrun & Hraw' & Htime' & Hinv' & Hlog');
      try assumption.
    { rewrite Hraw1. rewrite Hraw, !length_app, Hlen in Hfuel. lia. }
    exists s'. rewrite Hturn. split; [exact Hrun|]. split; [exact Hraw'|].
    split; [congruence|]. split.
    + cbn [List.length]. now replace (i + S (List.length pings))%nat
                            with (S i + List.length pings)%nat by lia.
    + rewrite Hlog', Hlog1. destruct i; lia.
Qed.

Lemma pings_read_fresh file : pings_read (unpacked_data (fresh file)) 0.
Proof.
  split; [apply accumulating_empty|]. intros k _. reflexivity.
Qed.

(** X20: the read loop on a well-formed file. When the file is a run of
    pings, each a 124-byte header that starts with the marker followed by
    a payload of the length its header announces, with channels that fit
    the configuration, a valid date in the first header, and a calibration
    that meets no zero denominator and no overflow, [parse_raw] reads it to
    the end without raising: no byte is left, every header field and every
    per-ping key holds exactly one value per ping, [ping_time] is still
    empty, and one record was logged, for the first ping. *)
Theorem read_loop_reads_a_well_formed_file
    (params : parameters) (lm : libm) (source_file xml_path : string)
    (pings : list (list Byte.byte * list Byte.byte)) :
  pings_ok params lm
    (_test_valid_params [ka params; kb params; kc params])
    (_test_valid_params [X_a params; X_b params; X_c params])
    (_test_valid_params [Y_a params; Y_b params; Y_c params]) 0 pings ->
  exists s',
    parse_raw_read params lm source_file xml_path (fresh (file_of pings))
    = (inr (Some EndOfFile), s') /\
    raw s' = [] /\ ping_time s' = [] /\
    pings_read (unpacked_data s') (List.length pings) /\
    List.length (log s') = match pings with [] => 0%nat | _ :: _ => 1%nat end.
Proof.
  intros Hok. unfold parse_raw_read.
  destruct (loop_on_pings params lm source_file xml_path _ _ _ pings 0%nat
              (fresh (file_of pings)) (S (List.length (raw (fresh (file_of pings)))))
              eq_refl ltac:(lia) (pings_read_fresh _) Hok)
    as (s' & Hrun & Hraw & Htime & Hinv & Hlog).
  exists s'. repeat split; try assumption; apply Hinv.
Qed.

Lemma read_loop_reads_a_well_formed_file_witness :
  exists s',
    parse_raw_read params_no_temperature RefLibm.ref "f.01A" "f.XML"
      (fresh (file_of raw_then_empty_ping))
    = (inr (Some EndOfFile), s') /\
    raw s' = [] /\ ping_time s' = [] /\
    pings_read (unpacked_data s') (List.length raw_then_empty_ping) /\
    List.length (log s')
    = match raw_then_empty_ping with [] => 0%nat | _ :: _ => 1%nat end.
Proof.
  apply read_loop_reads_a_well_formed_file.
  unfold raw_then_empty_ping. cbn [pings_ok].
  split; [reflexivity|]. split; [vm_compute; reflexivity|]. split.
  { exists 1, [3], [0], [0], 0, 0, 0, 0, 0, 0, 0, 0, [0].
    repeat (split; [vm_compute; reflexivity|]).
    split; [repeat constructor; lia|].
    split; [lia|].
    repeat (split; [cbn; lia|]).
    split; [vm_compute; reflexivity|].
    split.
    { intros _. exists (Clock 2020 1 2 0 0 0 0).
      split; [vm_compute; reflexivity|]. repeat split; vm_compute; discriminate. }
    split; [intros H; vm_compute in H; discriminate H|].
    split; vm_compute; reflexivity. }
  split; [reflexivity|]. split; [vm_compute; reflexivity|]. split; [|exact I].
  exists 0, [0], [0], [0], 0, 0, 0, 0, 0, 0, 0, 0, [0].
  repeat (split; [vm_compute; reflexivity|]).
  split; [repeat constructor; lia|].
  split; [lia|].
  repeat (split; [cbn; lia|]).
  split; [vm_compute; reflexivity|].
  split; [intros H; discriminate H|].
  split; [intros H; vm_compute in H; discriminate H|].
  split; vm_compute; reflexivity.
Defined.
